(** * Content-based article recommender: embedding and verification

    A shallow embedding of the recommendation core of the repository
    ([content_based.py], [data_loader.py]) and the properties of its
    specification.

    - numpy [float64] values are Rocq's primitive binary64 floats, so every
      definition runs on concrete data;
    - Python exceptions are an error monad ([result]);
    - Python dicts and sets are stdpp's [gmap] and [gset];
    - a pandas frame is the list of its rows, in row order. *)

From Stdlib Require Import ZArith Uint63.
From Stdlib Require Import Floats.PrimFloat Floats.FloatOps Floats.FloatAxioms Floats.SpecFloat.
From stdpp Require Import gmap list sorting strings.

(** ** Exceptions *)

Inductive exn : Type := KeyError | IndexError | ValueError.

Inductive result (A : Type) : Type :=
  | Ok (a : A)
  | Raise (e : exn).
Arguments Ok {A} a.
Arguments Raise {A} e.

#[global] Instance result_ret : MRet result := @Ok.
#[global] Instance result_bind : MBind result :=
  λ A B f m, match m with Ok a => f a | Raise e => Raise e end.

(** A [for] loop whose body may raise: the accumulator is threaded through
    the iterations and the first exception ends the loop. *)
Fixpoint foldM {A S : Type} (f : S → A → result S) (s : S) (l : list A) : result S :=
  match l with
  | [] => Ok s
  | x :: l' => s' ← f s x; foldM f s' l'
  end.

(** A list comprehension whose element expression may raise. *)
Fixpoint forM {A B : Type} (f : A → result B) (l : list A) : result (list B) :=
  match l with
  | [] => Ok []
  | x :: l' => y ← f x; ys ← forM f l'; Ok (y :: ys)
  end.

(** ** Python built-ins *)

Module Py.

(** [l[i]] for a non-negative index. *)
Definition index {A : Type} (l : list A) (i : nat) : result A :=
  match l !! i with
  | Some x => Ok x
  | None => Raise IndexError
  end.

(** [d[k]] on a dict. *)
Definition getitem {V : Type} (d : gmap Z V) (k : Z) : result V :=
  match d !! k with
  | Some v => Ok v
  | None => Raise KeyError
  end.

(** [l[:n]]: a negative bound counts from the end of the list. *)
Definition slice_to {A : Type} (n : Z) (l : list A) : list A :=
  if (0 <=? n)%Z then take (Z.to_nat n) l
  else take (Z.to_nat (Z.of_nat (length l) + n)) l.

(** [range(0, stop, step)] as the list of its values ([step] positive). *)
Definition range (stop step : nat) : list nat :=
  (λ k, k * step) <$> seq 0 (Nat.div (stop + step - 1) step).

(** [{k: i for i, k in enumerate(keys)}]: a later position overwrites an
    earlier one. *)
Definition index_dict (keys : list Z) : gmap Z nat :=
  foldl (λ d p, <[p.2 := p.1]> d) ∅ (imap pair keys).

(** [l.sort(key=lambda x: x[1], reverse=True)]. The sort is stable and
    compares keys with [<] only; it is modelled by a stable insertion sort,
    with which it agrees whenever [<] orders the keys. *)
Fixpoint insert_desc {A : Type} (x : A * float) (l : list (A * float)) : list (A * float) :=
  match l with
  | [] => [x]
  | y :: l' => if PrimFloat.ltb x.2 y.2 then y :: insert_desc x l' else x :: l
  end.

Definition sort_desc {A : Type} (l : list (A * float)) : list (A * float) :=
  foldr insert_desc [] l.

End Py.

(** ** numpy *)

Module Np.

Definition vec : Type := list float.

(** A two-dimensional array: its number of columns ([shape[1]]) and its
    rows, each of that length. *)
Record ndarray : Type := { shape1 : nat; rows : list vec }.

(** The value an [int64] holds after an operation whose exact result is
    [z]: the result wraps around into [-2^63 .. 2^63 - 1]. *)
Definition int64 (z : Z) : Z := ((z + 2 ^ 63) mod 2 ^ 64 - 2 ^ 63)%Z.

(** An [int64] scalar promoted to [float64] (magnitude below [2^63]). *)
Definition of_int (z : Z) : float :=
  match z with
  | Z0 => 0%float
  | Zpos p => PrimFloat.of_uint63 (Uint63.of_Z (Zpos p))
  | Zneg p => PrimFloat.opp (PrimFloat.of_uint63 (Uint63.of_Z (Zpos p)))
  end.

Definition zeros (d : nat) : vec := replicate d 0%float.

Definition vadd (u v : vec) : vec := zip_with PrimFloat.add u v.

Definition scale (c : float) (v : vec) : vec := PrimFloat.mul c <$> v.

Definition vdiv (v : vec) (c : float) : vec := (λ x, PrimFloat.div x c) <$> v.

Definition dot (u v : vec) : float :=
  foldl (λ acc p, PrimFloat.add acc (PrimFloat.mul p.1 p.2)) 0%float (zip u v).

(** [np.linalg.norm] of a vector. *)
Definition norm (v : vec) : float := PrimFloat.sqrt (dot v v).

(** [m[i]]: one row. *)
Definition row (m : ndarray) (i : nat) : result vec := Py.index (rows m) i.

(** [m[indices]]: the rows at a list of positions. *)
Definition take_rows (m : ndarray) (indices : list nat) : result (list vec) :=
  forM (row m) indices.

(** [np.vstack] of a list of vectors: [ValueError] on an empty list or on
    vectors of different lengths. *)
Definition vstack (vs : list vec) : result ndarray :=
  match vs with
  | [] => Raise ValueError
  | v :: _ =>
      if forallb (λ w, Nat.eqb (length w) (length v)) vs
      then Ok {| shape1 := length v; rows := vs |}
      else Raise ValueError
  end.

End Np.

(** ** scikit-learn's [cosine_similarity]

    Both arguments are validated (every entry finite, at least one column,
    equal numbers of columns), each row is divided by its Euclidean norm, a
    norm below [10 * eps] being replaced by 1, and the result is the matrix of
    dot products of the normalised rows. A row of zeros therefore stays a row
    of zeros and has similarity 0 with everything. *)

Module Sklearn.

Definition eps : float := 0x1p-52%float.

Definition check_array (d : nat) (X : list Np.vec) : result unit :=
  if forallb (λ x, Nat.eqb (length x) d && forallb PrimFloat.is_finite x) X && negb (Nat.eqb d 0)
  then Ok tt
  else Raise ValueError.

Definition handle_zeros_in_scale (n : float) : float :=
  if PrimFloat.ltb n (PrimFloat.mul 10 eps) then 1%float else n.

Definition normalize (x : Np.vec) : Np.vec :=
  Np.vdiv x (handle_zeros_in_scale (PrimFloat.sqrt (Np.dot x x))).

Definition cosine_similarity (X Y : list Np.vec) : result (list (list float)) :=
  let d := match X with x :: _ => length x | [] => 0 end in
  _ ← check_array d X;
  _ ← check_array d Y;
  Ok ((λ x, (λ y, Np.dot (normalize x) (normalize y)) <$> Y) <$> X).

End Sklearn.

(** ** [content_based.py] *)

(** A row of the ratings frame. *)
Record rating_row : Type :=
  { user_id : Z; article_id : Z; rating : Z }.

(** The value stored for a user in [user_profiles]. *)
Record user_profile : Type :=
  { vector : Np.vec; article_weights : gmap Z Z }.

Record ContentBasedRecommender : Type :=
  { embeddings : Np.ndarray;
    article_indices : gmap Z nat;
    article_ids : list Z;
    user_profiles : gmap Z user_profile }.

(** [ContentBasedRecommender.__init__] *)
Definition init (embeddings : Np.ndarray) (article_indices : gmap Z nat)
    (article_ids : list Z) : ContentBasedRecommender :=
  {| embeddings := embeddings;
     article_indices := article_indices;
     article_ids := article_ids;
     user_profiles := ∅ |}.

(** [ratings_df.groupby('user_id')]: the distinct user ids in increasing
    order, each with its rows in frame order. *)
Definition group_keys (ratings_df : list rating_row) : list Z :=
  merge_sort Z.le (remove_dups (user_id <$> ratings_df)).

Definition group_of (ratings_df : list rating_row) (uid : Z) : list rating_row :=
  filter (λ r, user_id r = uid) ratings_df.

(** The state of the loop over the rows of one group:
    [article_weights], [user_vector] and [total_weight]. *)
Definition fit_state : Type := gmap Z Z * Np.vec * Z.

(** One iteration of [for _, row in group.iterrows()]. The rating is a numpy
    [int64], and so is [total_weight] from the first addition on. *)
Definition fit_row (self : ContentBasedRecommender) (st : fit_state) (r : rating_row)
    : result fit_state :=
  let '(weights, user_vector, total_weight) := st in
  match article_indices self !! article_id r with
  | None => Ok st
  | Some article_idx =>
      emb ← Np.row (embeddings self) article_idx;
      Ok (<[article_id r := rating r]> weights,
          Np.vadd user_vector (Np.scale (Np.of_int (rating r)) emb),
          Np.int64 (total_weight + rating r))
  end.

(** The rows of one group: the profile of one user. *)
Definition fit_group (self : ContentBasedRecommender) (group : list rating_row)
    : result user_profile :=
  st ← foldM (fit_row self) (∅, Np.zeros (Np.shape1 (embeddings self)), 0%Z) group;
  let '(weights, user_vector, total_weight) := st in
  let user_vector :=
    if (0 <? total_weight)%Z then Np.vdiv user_vector (Np.of_int total_weight)
    else user_vector in
  Ok {| vector := user_vector; article_weights := weights |}.

Definition set_profiles (self : ContentBasedRecommender) (p : gmap Z user_profile)
    : ContentBasedRecommender :=
  {| embeddings := embeddings self;
     article_indices := article_indices self;
     article_ids := article_ids self;
     user_profiles := p |}.

(** The body of the loop over the groups: the profile is stored under the
    user id in the dict the recommender already holds. *)
Definition fit_step (self : ContentBasedRecommender) (ratings_df : list rating_row)
    (profiles : gmap Z user_profile) (uid : Z) : result (gmap Z user_profile) :=
  p ← fit_group self (group_of ratings_df uid);
  Ok (<[uid := p]> profiles).

(** [ContentBasedRecommender.fit]. The loop starts from [self.user_profiles]
    as it is; an exception leaves [fit] and the caller drops the recommender. *)
Definition fit (self : ContentBasedRecommender) (ratings_df : list rating_row)
    : result ContentBasedRecommender :=
  profiles ← foldM (fit_step self ratings_df) (user_profiles self) (group_keys ratings_df);
  Ok (set_profiles self profiles).

(** [set(ratings_df[ratings_df['user_id'] == user_id]['article_id'].unique())] *)
Definition user_articles (ratings_df : list rating_row) (uid : Z) : gset Z :=
  list_to_set (article_id <$> group_of ratings_df uid).

(** The last loop of a batch: the [j]-th similarity is paired with the id at
    position [i + j] of [article_ids]. *)
Definition emit_batch (self : ContentBasedRecommender) (excluded : gset Z) (i : nat)
    (batch_indices : list nat) (similarities : list float)
    (scores : list (Z * float)) : result (list (Z * float)) :=
  foldM
    (λ scores j,
       aid ← Py.index (article_ids self) (i + j);
       if decide (aid ∉ excluded) then
         s ← Py.index similarities j;
         Ok (scores ++ [(aid, s)])
       else Ok scores)
    scores (seq 0 (length batch_indices)).

(** One iteration of the loop over the batches. *)
Definition score_batch (batch_size : nat) (self : ContentBasedRecommender)
    (user_vector : Np.vec) (excluded : gset Z)
    (scores : list (Z * float)) (i : nat) : result (list (Z * float)) :=
  let batch_ids := take batch_size (drop i (article_ids self)) in
  batch_indices ←
    forM (Py.getitem (article_indices self)) (filter (λ aid, aid ∉ excluded) batch_ids);
  match batch_indices with
  | [] => Ok scores
  | _ =>
      batch_embeddings ← Np.take_rows (embeddings self) batch_indices;
      sims ← Sklearn.cosine_similarity [user_vector] batch_embeddings;
      similarities ← Py.index sims 0;
      emit_batch self excluded i batch_indices similarities scores
  end.

(** [recommend] with the batch size as a parameter. *)
Definition recommend_batched (batch_size : nat) (self : ContentBasedRecommender)
    (uid : Z) (ratings_df : list rating_row) (n : Z) : result (list (Z * float)) :=
  match user_profiles self !! uid with
  | None => Ok []
  | Some profile =>
      let excluded := user_articles ratings_df uid in
      scores ← foldM (score_batch batch_size self (vector profile) excluded) []
                 (Py.range (length (article_ids self)) batch_size);
      Ok (Py.slice_to n (Py.sort_desc scores))
  end.

(** [ContentBasedRecommender.recommend] *)
Definition recommend : ContentBasedRecommender → Z → list rating_row → Z →
    result (list (Z * float)) :=
  recommend_batched 1000.

(** One iteration of the loop of [recommend_low_memory]. *)
Definition score_one (self : ContentBasedRecommender) (user_vector : Np.vec)
    (excluded : gset Z) (scores : list (Z * float)) (aid : Z)
    : result (list (Z * float)) :=
  if decide (aid ∈ excluded) then Ok scores
  else
    article_idx ← Py.getitem (article_indices self) aid;
    article_vector ← Np.row (embeddings self) article_idx;
    let norm_user := Np.norm user_vector in
    let norm_article := Np.norm article_vector in
    if PrimFloat.ltb 0 norm_user && PrimFloat.ltb 0 norm_article then
      Ok (scores ++
            [(aid, PrimFloat.div (Np.dot user_vector article_vector)
                     (PrimFloat.mul norm_user norm_article))])
    else Ok scores.

(** [ContentBasedRecommender.recommend_low_memory] *)
Definition recommend_low_memory (self : ContentBasedRecommender)
    (uid : Z) (ratings_df : list rating_row) (n : Z) : result (list (Z * float)) :=
  match user_profiles self !! uid with
  | None => Ok []
  | Some profile =>
      let excluded := user_articles ratings_df uid in
      scores ← foldM (score_one self (vector profile) excluded) [] (article_ids self);
      Ok (Py.slice_to n (Py.sort_desc scores))
  end.

(** ** [data_loader.py] *)

Module DataLoader.

(** A cell of the [session_size] column as [pd.to_numeric] sees it: a
    number, text that does not read as a number, or no value. *)
Inductive cell : Type :=
  | Numeric (x : float)
  | NonNumeric
  | Missing.

(** A row of the clicks frame. *)
Record click_row : Type :=
  { click_user_id : Z; click_article_id : Z; session_size : cell }.

(** [pd.to_numeric(_, errors="coerce")] on one cell. *)
Definition to_numeric (c : cell) : float :=
  match c with
  | Numeric x => x
  | NonNumeric | Missing => PrimFloat.nan
  end.

(** [lambda x: 1 if x <= q25 else 2 if x <= q75 else 3] *)
Definition rate (q25 q75 x : float) : Z :=
  if PrimFloat.leb x q25 then 1%Z
  else if PrimFloat.leb x q75 then 2%Z
  else 3%Z.

Section Ratings.

(** [np.log1p] and [Series.quantile] are library functions. *)
Variable log1p : float → float.
Variable quantile : list float → float → float.

(** [DataLoader._prepare_ratings]. The frame [df] is the list of its rows;
    the columns [session_size] and [log_session_size] are carried next to
    each row. *)
Definition _prepare_ratings (df_clicks : list click_row) : list rating_row :=
  let df := (λ r, (r, to_numeric (session_size r))) <$> df_clicks in
  let df := filter (λ p, PrimFloat.is_nan p.2 = false) df in
  let df := (λ p, (p.1, log1p p.2)) <$> df in
  let q25 := quantile (snd <$> df) 0.25%float in
  let q75 := quantile (snd <$> df) 0.75%float in
  (λ p, {| user_id := click_user_id p.1;
           article_id := click_article_id p.1;
           rating := rate q25 q75 p.2 |}) <$> df.

End Ratings.

(** A label of a frame's index, as [astype(int)] treats it: a label that
    converts to an integer (an integer, a finite float, text that reads as
    an integer), or one that does not (other text, a NaN). *)
Inductive label : Type :=
  | IntLike (z : Z)
  | NotIntLike.

(** [index.astype(int).tolist()]: a label that does not convert raises
    [ValueError]. *)
Definition astype_int (index : list label) : result (list Z) :=
  forM (λ l, match l with IntLike z => Ok z | NotIntLike => Raise ValueError end) index.

(** The three shapes of the unpickled embeddings: a dict from article id to
    vector (in insertion order, keys distinct), a frame whose index holds
    the article ids, or a bare matrix. *)
Inductive embeddings_source : Type :=
  | SDict (items : list (Z * Np.vec))
  | SDataFrame (index : list label) (values : Np.ndarray)
  | SMatrix (matrix : Np.ndarray).

(** [DataLoader._prepare_embeddings]; [df_articles] is the [article_id]
    column of the metadata frame. *)
Definition _prepare_embeddings (embeddings : embeddings_source) (df_articles : list Z)
    : result (list Z * Np.ndarray * gmap Z nat) :=
  am ← match embeddings with
       | SDict items =>
           matrix ← Np.vstack (snd <$> items);
           Ok (fst <$> items, matrix)
       | SDataFrame index values =>
           article_ids ← astype_int index;
           Ok (article_ids, values)
       | SMatrix matrix => Ok (df_articles, matrix)
       end;
  let '(article_ids, matrix) := am in
  Ok (article_ids, matrix, Py.index_dict article_ids).

(** A row of the statistics frame: the columns [user_id], [n] and
    [avg_rating]. *)
Record user_stats_row : Type :=
  { stats_user_id : Z; stats_n : nat; stats_avg_rating : float }.

(** [Series.unique()]: the distinct values in order of first appearance. *)
Fixpoint unique (l : list Z) : list Z :=
  match l with
  | [] => []
  | x :: l' => x :: filter (λ y, y ≠ x) (unique l')
  end.

(** [sorted(df_ratings["user_id"].unique().tolist())], the roster that
    [load_data] stores in [user_ids]. *)
Definition sorted_user_ids (df_ratings : list rating_row) : list Z :=
  merge_sort Z.le (unique (user_id <$> df_ratings)).

Section Stats.

(** The mean of a column of a group and [Series.round] are library
    functions. *)
Variable mean : list Z → float.
Variable round : float → Z → float.

(** [DataLoader._calculate_user_stats]: one row per group of [user_id], with
    the count of [article_id] and the mean of [rating], the mean then rounded
    to two digits. *)
Definition _calculate_user_stats (df_ratings : list rating_row)
    : list user_stats_row :=
  (λ uid,
     let group := group_of df_ratings uid in
     {| stats_user_id := uid;
        stats_n := length (article_id <$> group);
        stats_avg_rating := round (mean (rating <$> group)) 2 |})
    <$> group_keys df_ratings.

End Stats.

(** The exceptions that leave [load_data] and reach the handlers: the
    built-in ones of the core, a [MemoryError], and an exception of any other
    class (the storage client's, a [TypeError], an [AttributeError]). *)
Inductive error : Type :=
  | Builtin (e : exn)
  | MemoryError
  | OtherException.

Inductive outcome (A : Type) : Type :=
  | Returns (a : A)
  | Raises (e : error).
Arguments Returns {A} a.
Arguments Raises {A} e.

#[global] Instance outcome_ret : MRet outcome := @Returns.
#[global] Instance outcome_bind : MBind outcome :=
  λ A B f m, match m with Returns a => f a | Raises e => Raises e end.

(** An exception of the core on its way out of [load_data]. *)
Definition lift {A : Type} (r : result A) : outcome A :=
  match r with
  | Ok a => Returns a
  | Raise e => Raises (Builtin e)
  end.

(** A row of the articles metadata frame: the columns the service reads. *)
Record article_row : Type :=
  { meta_article_id : Z; category_id : Z; words_count : Z }.

(** What [load_data] reads from outside: two environment variables, of which
    [LIMIT_DATA_SIZE] already compared with ["true"], the storage client, and
    the three blobs, each of which loads or raises. *)
Record environment : Type :=
  { AzureWebJobsStorage : option string;
    LIMIT_DATA_SIZE : bool;
    container_client : outcome unit;
    clicks_csv : outcome (list click_row);
    articles_metadata_csv : outcome (list article_row);
    articles_embeddings_pickle : outcome embeddings_source }.

(** The attributes of the [DataLoader] instance. *)
Record loader : Type :=
  { cb_model : option ContentBasedRecommender;
    df_ratings : option (list rating_row);
    df_articles : option (list article_row);
    df_user_stats : option (list user_stats_row);
    user_ids : option (list Z) }.

(** [DataLoader.__init__] on its first run. *)
Definition new : loader :=
  {| cb_model := None; df_ratings := None; df_articles := None;
     df_user_stats := None; user_ids := None |}.

Section Loading.

Variable log1p : float → float.
Variable quantile : list float → float → float.
Variable mean : list Z → float.
Variable round : float → Z → float.

(** [Series.value_counts()]: the distinct values with their counts, the most
    frequent first. *)
Variable value_counts : list Z → list (Z * nat).

(** [DataLoader.load_data]. The attributes are assigned together at the end,
    so an exception leaves the instance as it was. *)
Definition load_data (env : environment) (self : loader) : outcome loader :=
  match cb_model self with
  | Some _ => Returns self
  | None =>
      match AzureWebJobsStorage env with
      | None | Some "" => Raises (Builtin ValueError)
      | Some _ =>
          _ ← container_client env;
          df_clicks ← clicks_csv env;
          let df_clicks :=
            if LIMIT_DATA_SIZE env then
              let top_users := (take 500 (value_counts (click_user_id <$> df_clicks))).*1 in
              filter (λ c, click_user_id c ∈ top_users) df_clicks
            else df_clicks in
          df_articles ← articles_metadata_csv env;
          embeddings ←
            match articles_embeddings_pickle env with
            | Raises MemoryError => Raises OtherException
            | loaded => loaded
            end;
          let df_ratings := _prepare_ratings log1p quantile df_clicks in
          table ← lift (_prepare_embeddings embeddings (meta_article_id <$> df_articles));
          let '(article_ids, emb_matrix, indices) := table in
          cb_model ← lift (fit (init emb_matrix indices article_ids) df_ratings);
          let df_user_stats := _calculate_user_stats mean round df_ratings in
          Returns {| cb_model := Some cb_model;
                     df_ratings := Some df_ratings;
                     df_articles := Some df_articles;
                     df_user_stats := Some df_user_stats;
                     user_ids := Some (sorted_user_ids df_ratings) |}
      end
  end.

End Loading.

End DataLoader.

(** ** The endpoint handlers: [health.py], [users.py], [recommend.py] *)

Module Http.

(** One entry of the recommendation answer; [meta] holds [category_id] (sent
    as its [str]) and [words_count]. *)
Record recommendation : Type :=
  { rec_article_id : Z; rec_score : float; rec_meta : option (Z * Z) }.

(** What a handler passes to [json.dumps]. The error bodies are named by the
    message or the exception they report. *)
Inductive payload : Type :=
  | Health (data_loaded : bool) (total_users total_articles total_ratings : nat)
  | Users (rows : list DataLoader.user_stats_row)
  | Recommendations (recs : list recommendation)
  | UserIdRequired
  | UserNotFound (uid : Z)
  | ValidationError (e : DataLoader.error)
  | InternalServerError (e : DataLoader.error)
  | DataLoadingFailed (e : DataLoader.error).

Record response : Type := { status_code : nat; body : payload }.

(** A value a handler holds for a query parameter. *)
Inductive value : Type :=
  | PyNone
  | PyStr (s : string)
  | PyInt (z : Z).

(** [if v:] *)
Definition truthy (v : value) : bool :=
  match v with
  | PyNone => false
  | PyStr s => negb (bool_decide (s = ""))
  | PyInt z => negb (z =? 0)%Z
  end.

(** [l[a:b]], and [df.iloc[a:b]]: a negative bound counts from the end, and
    both bounds are clipped to the list. *)
Definition slice {A : Type} (a b : Z) (l : list A) : list A :=
  let len := Z.of_nat (length l) in
  let clip (i : Z) : Z :=
    if (i <? 0)%Z then Z.max (i + len) 0 else Z.min i len in
  take (Z.to_nat (clip b - clip a)) (drop (Z.to_nat (clip a)) l).

End Http.

Module HealthFunction.

(** [HealthFunction.handle]: it reads the loader and does not load. *)
Definition handle (data_loader : DataLoader.loader) : Http.response :=
  let is_loaded := bool_decide (is_Some (DataLoader.cb_model data_loader)) in
  let total_users :=
    match DataLoader.user_ids data_loader with
    | Some (u :: us) => if is_loaded then length (u :: us) else 0
    | _ => 0
    end in
  let total_articles :=
    match DataLoader.df_articles data_loader with
    | Some df => if is_loaded then length df else 0
    | None => 0
    end in
  let total_ratings :=
    match DataLoader.df_ratings data_loader with
    | Some df => if is_loaded then length df else 0
    | None => 0
    end in
  {| Http.status_code := 200;
     Http.body := Http.Health is_loaded total_users total_articles total_ratings |}.

End HealthFunction.

Section Handlers.

Variable log1p : float → float.
Variable quantile : list float → float → float.
Variable mean : list Z → float.
Variable round : float → Z → float.
Variable value_counts : list Z → list (Z * nat).

(** Python's [int] on a string ([None] for a [ValueError]), [str.lower], and
    [round(_, 4)]. *)
Variable int : string → option Z.
Variable lower : string → string.
Variable round4 : float → float.

(** [if v: v = int(v)] *)
Definition int_if_truthy (v : Http.value) : DataLoader.outcome Http.value :=
  if Http.truthy v then
    match v with
    | Http.PyStr s =>
        match int s with
        | Some z => DataLoader.Returns (Http.PyInt z)
        | None => DataLoader.Raises (DataLoader.Builtin ValueError)
        end
    | _ => DataLoader.Returns v
    end
  else DataLoader.Returns v.

(** The body of the outer [try] of [UsersFunction.handle], after the data
    loaded. *)
Definition users_page (data_loader : DataLoader.loader) (params : gmap string string)
    : DataLoader.outcome (list DataLoader.user_stats_row) :=
  let limit := match params !! "limit" with Some s => Http.PyStr s | None => Http.PyNone end in
  let offset := match params !! "offset" with Some s => Http.PyStr s | None => Http.PyInt 0 end in
  limit ← int_if_truthy limit;
  offset ← int_if_truthy offset;
  match DataLoader.df_user_stats data_loader with
  | None => DataLoader.Raises DataLoader.OtherException
  | Some df_stats =>
      if Http.truthy limit then
        match limit, offset with
        | Http.PyInt l, Http.PyInt o => DataLoader.Returns (Http.slice o (o + l) df_stats)
        | _, _ => DataLoader.Raises DataLoader.OtherException
        end
      else DataLoader.Returns df_stats
  end.

(** [UsersFunction.handle]: the answer, and the loader after the call. *)
Definition users_handle (env : DataLoader.environment) (data_loader : DataLoader.loader)
    (params : gmap string string) : Http.response * DataLoader.loader :=
  match DataLoader.load_data log1p quantile mean round value_counts env data_loader with
  | DataLoader.Raises load_error =>
      ({| Http.status_code := 503; Http.body := Http.DataLoadingFailed load_error |},
       data_loader)
  | DataLoader.Returns data_loader =>
      match users_page data_loader params with
      | DataLoader.Returns users_data =>
          ({| Http.status_code := 200; Http.body := Http.Users users_data |}, data_loader)
      | DataLoader.Raises e =>
          ({| Http.status_code := 500; Http.body := Http.InternalServerError e |},
           data_loader)
      end
  end.

(** The loop of [RecommendFunction.handle] that formats the answer. *)
Definition format_recommendations (df_articles : option (list DataLoader.article_row))
    (with_meta : bool) (recommendations : list (Z * float))
    : DataLoader.outcome (list Http.recommendation) :=
  if with_meta then
    match df_articles with
    | None =>
        match recommendations with
        | [] => DataLoader.Returns []
        | _ => DataLoader.Raises DataLoader.OtherException
        end
    | Some df =>
        DataLoader.Returns
          ((λ p : Z * float,
              let article_info := filter (λ a, DataLoader.meta_article_id a = p.1) df in
              {| Http.rec_article_id := p.1;
                 Http.rec_score := round4 p.2;
                 Http.rec_meta :=
                   match article_info with
                   | [] => None
                   | article_row :: _ =>
                       Some (DataLoader.category_id article_row,
                             DataLoader.words_count article_row)
                   end |}) <$> recommendations)
    end
  else
    DataLoader.Returns
      ((λ p : Z * float,
          {| Http.rec_article_id := p.1; Http.rec_score := round4 p.2;
             Http.rec_meta := None |}) <$> recommendations).

(** [data_loader.cb_model.recommend(user_id, data_loader.df_ratings, n=n)] *)
Definition call_recommend (data_loader : DataLoader.loader) (uid n : Z)
    : DataLoader.outcome (list (Z * float)) :=
  match DataLoader.cb_model data_loader with
  | None => DataLoader.Raises DataLoader.OtherException
  | Some model =>
      match DataLoader.df_ratings data_loader with
      | Some ratings => DataLoader.lift (recommend model uid ratings n)
      | None =>
          match user_profiles model !! uid with
          | None => DataLoader.Returns []
          | Some _ => DataLoader.Raises DataLoader.OtherException
          end
      end
  end.

(** The body of the [try] of [RecommendFunction.handle], after the data
    loaded: an answer, or the exception that leaves the [try]. *)
Definition recommend_body (data_loader : DataLoader.loader) (params : gmap string string)
    : DataLoader.outcome Http.response :=
  let user_id := params !! "user_id" in
  n ← match params !! "n" with
      | None => DataLoader.Returns 5%Z
      | Some s =>
          match int s with
          | Some n => DataLoader.Returns n
          | None => DataLoader.Raises (DataLoader.Builtin ValueError)
          end
      end;
  let with_meta :=
    bool_decide (lower (default "false" (params !! "with_meta")) = "true") in
  match user_id with
  | None | Some "" =>
      DataLoader.Returns {| Http.status_code := 400; Http.body := Http.UserIdRequired |}
  | Some s =>
      match int s with
      | None => DataLoader.Raises (DataLoader.Builtin ValueError)
      | Some uid =>
          match DataLoader.user_ids data_loader with
          | None => DataLoader.Raises DataLoader.OtherException
          | Some user_ids =>
              if decide (uid ∉ user_ids) then
                DataLoader.Returns
                  {| Http.status_code := 404; Http.body := Http.UserNotFound uid |}
              else
                recommendations ← call_recommend data_loader uid n;
                result ← format_recommendations (DataLoader.df_articles data_loader)
                            with_meta recommendations;
                DataLoader.Returns
                  {| Http.status_code := 200; Http.body := Http.Recommendations result |}
          end
      end
  end.

(** [RecommendFunction.handle]: a [ValueError] is answered with status 400,
    any other exception with status 500. *)
Definition recommend_handle (env : DataLoader.environment)
    (data_loader : DataLoader.loader) (params : gmap string string)
    : Http.response * DataLoader.loader :=
  let answer (o : DataLoader.outcome Http.response) : Http.response :=
    match o with
    | DataLoader.Returns r => r
    | DataLoader.Raises (DataLoader.Builtin ValueError) =>
        {| Http.status_code := 400;
           Http.body := Http.ValidationError (DataLoader.Builtin ValueError) |}
    | DataLoader.Raises e =>
        {| Http.status_code := 500; Http.body := Http.InternalServerError e |}
    end in
  match DataLoader.load_data log1p quantile mean round value_counts env data_loader with
  | DataLoader.Raises e => (answer (DataLoader.Raises e), data_loader)
  | DataLoader.Returns data_loader =>
      (answer (recommend_body data_loader params), data_loader)
  end.

End Handlers.

(** ** The specification's rating rule

    The derivation of ratings as the specification words it, to be compared
    with [DataLoader._prepare_ratings]. *)

Module ImplicitRatingDeriver.

(** The engagement measure of an interaction, when it has one. *)
Definition measure (r : DataLoader.click_row) : option float :=
  match DataLoader.session_size r with
  | DataLoader.Numeric x => if PrimFloat.is_nan x then None else Some x
  | DataLoader.NonNumeric | DataLoader.Missing => None
  end.

(** [x > y] *)
Definition above (x y : float) : bool := PrimFloat.ltb y x.

(** Rating 1 at or below [p25], rating 3 above [p75], rating 2 otherwise. *)
Definition rating_of (p25 p75 log_measure : float) : Z :=
  if PrimFloat.leb log_measure p25 then 1%Z
  else if above log_measure p75 then 3%Z
  else 2%Z.

Section Derive.

Variable ln1p : float → float.
Variable percentile : list float → float → float.

(** The interactions that carry a measure, each with its [log_measure]. *)
Fixpoint log_measures (interactions : list DataLoader.click_row)
    : list (DataLoader.click_row * float) :=
  match interactions with
  | [] => []
  | r :: rest =>
      match measure r with
      | Some x => (r, ln1p x) :: log_measures rest
      | None => log_measures rest
      end
  end.

Definition derive (interactions : list DataLoader.click_row) : list rating_row :=
  let kept := log_measures interactions in
  let p25 := percentile (snd <$> kept) 0.25%float in
  let p75 := percentile (snd <$> kept) 0.75%float in
  (λ p, {| user_id := DataLoader.click_user_id p.1;
           article_id := DataLoader.click_article_id p.1;
           rating := rating_of p25 p75 p.2 |}) <$> kept.

End Derive.

End ImplicitRatingDeriver.

(** ** The specification's profile

    The profile vector as the specification words it, to be compared with
    what [fit] stores. *)

Module UserProfileBuilder.

(** The ratings whose article has an entry in the embedding table's index. *)
Definition contributing (self : ContentBasedRecommender) (ratings : list rating_row)
    : list rating_row :=
  filter (λ r, is_Some (article_indices self !! article_id r)) ratings.

(** The embedding the table holds for an article id. *)
Definition embedding_of (self : ContentBasedRecommender) (aid : Z) : Np.vec :=
  default [] (article_indices self !! aid ≫= λ i, Np.rows (embeddings self) !! i).

(** [Σ rating_i × vector_i] *)
Definition weighted_sum (self : ContentBasedRecommender) (ratings : list rating_row)
    : Np.vec :=
  foldl (λ acc r, Np.vadd acc (Np.scale (Np.of_int (rating r))
                                 (embedding_of self (article_id r))))
    (Np.zeros (Np.shape1 (embeddings self))) ratings.

(** [Σ rating_i] *)
Definition total_weight (ratings : list rating_row) : Z :=
  foldr (λ r t, (rating r + t)%Z) 0%Z ratings.

(** The weighted mean over the contributing ratings of one user, and the
    zero vector when their total weight is zero. *)
Definition profile_vector (self : ContentBasedRecommender)
    (ratings_of_user : list rating_row) : Np.vec :=
  let rs := contributing self ratings_of_user in
  if decide (total_weight rs = 0%Z) then Np.zeros (Np.shape1 (embeddings self))
  else Np.vdiv (weighted_sum self rs) (Np.of_int (total_weight rs)).

End UserProfileBuilder.

(** ** The specification's ranking

    Cosine similarity and the scored candidates as the specification words
    them, to be compared with the loops of the two modes. *)

Module SimilarityRanker.

(** [dot(u, v) / (‖u‖ × ‖v‖)], undefined when either norm is not positive. *)
Definition cosine (u v : Np.vec) : option float :=
  if PrimFloat.ltb 0 (Np.norm u) && PrimFloat.ltb 0 (Np.norm v)
  then Some (PrimFloat.div (Np.dot u v) (PrimFloat.mul (Np.norm u) (Np.norm v)))
  else None.

(** The score of one article of the table: none for an excluded article and
    none when the similarity is undefined. *)
Definition score (self : ContentBasedRecommender) (u : Np.vec) (excluded : gset Z)
    (aid : Z) : option (Z * float) :=
  if decide (aid ∈ excluded) then None
  else s ← cosine u (UserProfileBuilder.embedding_of self aid); Some (aid, s).

(** The candidates that remain after exclusion and have a defined
    similarity, in table order, each with its score. *)
Definition scored_candidates (self : ContentBasedRecommender) (u : Np.vec)
    (excluded : gset Z) : list (Z * float) :=
  omap (score self u excluded) (article_ids self).

End SimilarityRanker.

(** ** Auxiliary notions *)

(** The recommender as its constructor builds it from the same table: no
    profile yet. *)
Definition fresh (self : ContentBasedRecommender) : ContentBasedRecommender :=
  init (embeddings self) (article_indices self) (article_ids self).


(** The ids a list of scores mentions all lie outside [excluded]. *)
Definition avoids (excluded : gset Z) (scores : list (Z * float)) : Prop :=
  ∀ a s, (a, s) ∈ scores → a ∉ excluded.

(** Every index the dict holds addresses a row of the matrix, as it does when
    the matrix has a row for each article id. *)
Definition indices_in_range (self : ContentBasedRecommender) : Prop :=
  ∀ aid idx, article_indices self !! aid = Some idx →
             idx < length (Np.rows (embeddings self)).

(** Every article id of the table has an index, and that index addresses a
    row of the matrix. *)
Definition table_consistent (self : ContentBasedRecommender) : Prop :=
  ∀ aid, aid ∈ article_ids self →
         ∃ idx, article_indices self !! aid = Some idx ∧
                idx < length (Np.rows (embeddings self)).

(** The order the sort leaves between neighbours. *)
Definition not_below (a b : Z * float) : Prop := PrimFloat.ltb a.2 b.2 = false.

(** No entry has a lower score than the entry that follows it. *)
Definition descending (scores : list (Z * float)) : Prop :=
  ∀ i a b, scores !! i = Some a → scores !! S i = Some b →
           PrimFloat.ltb a.2 b.2 = false.

(** ** Scenario data *)

(** Scenario 2 of the specification: four articles, one user who rated the
    first two. *)
Module Scenario2.
Definition emb : Np.ndarray :=
  {| Np.shape1 := 2;
     Np.rows := [[1; 0]; [0; 1]; [1; 1]; [-1; 0]]%float |}.
Definition ids : list Z := [1; 2; 3; 4]%Z.
Definition model0 : ContentBasedRecommender := init emb (Py.index_dict ids) ids.
Definition ratings : list rating_row :=
  [ {| user_id := 7; article_id := 1; rating := 3 |};
    {| user_id := 7; article_id := 2; rating := 1 |} ]%Z.
(** The recommender after [fit]. *)
Definition model : ContentBasedRecommender :=
  match fit model0 ratings with Ok m => m | Raise _ => model0 end.
End Scenario2.

(** An article whose embedding is the zero vector, and a user who rated the
    last article of the table. *)
Module ZeroNorm.
Definition emb : Np.ndarray :=
  {| Np.shape1 := 2;
     Np.rows := [[0; 0]; [1; 0]; [1; 0]]%float |}.
Definition ids : list Z := [1; 2; 3]%Z.
Definition model0 : ContentBasedRecommender := init emb (Py.index_dict ids) ids.
Definition ratings : list rating_row :=
  [ {| user_id := 7; article_id := 3; rating := 2 |} ]%Z.
Definition model : ContentBasedRecommender :=
  match fit model0 ratings with Ok m => m | Raise _ => model0 end.
End ZeroNorm.

(** Two runs of [fit] in a row: user 7 is rated in the first table only,
    user 8 in the second. *)
Module Refit.
Definition R1 : list rating_row := Scenario2.ratings.
Definition R2 : list rating_row :=
  [ {| user_id := 8; article_id := 3; rating := 2 |} ]%Z.
Definition m1 : ContentBasedRecommender := Scenario2.model.
Definition m2 : ContentBasedRecommender :=
  match fit m1 R2 with Ok m => m | Raise _ => m1 end.
Definition alone : ContentBasedRecommender :=
  match fit Scenario2.model0 R2 with Ok m => m | Raise _ => Scenario2.model0 end.
End Refit.

(** Two users whose rows alternate in the table; one row of user 8 names an
    article outside the index. *)
Module Readers.
Definition ratings : list rating_row :=
  [ {| user_id := 7; article_id := 1; rating := 3 |};
    {| user_id := 8; article_id := 3; rating := 2 |};
    {| user_id := 7; article_id := 2; rating := 1 |};
    {| user_id := 8; article_id := 99; rating := 3 |};
    {| user_id := 8; article_id := 4; rating := 2 |} ]%Z.
Definition model : ContentBasedRecommender :=
  match fit Scenario2.model0 ratings with Ok m => m | Raise _ => Scenario2.model0 end.
End Readers.

(** A user who rated the last article of the table only. *)
Module LastRated.
Definition ratings : list rating_row :=
  [ {| user_id := 9; article_id := 4; rating := 2 |} ]%Z.
Definition model : ContentBasedRecommender :=
  match fit Scenario2.model0 ratings with Ok m => m | Raise _ => Scenario2.model0 end.
End LastRated.

(** A user whose only rating names an article outside the index. *)
Module Unindexed.
Definition ratings : list rating_row :=
  [ {| user_id := 9; article_id := 99; rating := 2 |} ]%Z.
Definition model : ContentBasedRecommender :=
  match fit Scenario2.model0 ratings with Ok m => m | Raise _ => Scenario2.model0 end.
End Unindexed.

(** Two embeddings sources: one with a repeated article id, one with fewer
    rows than article ids. *)
Module Sources.
Definition two_rows : Np.ndarray :=
  {| Np.shape1 := 2; Np.rows := [[1; 0]; [0; 1]]%float |}.
(** A frame whose index holds article id 1 twice. *)
Definition duplicated : DataLoader.embeddings_source :=
  DataLoader.SDataFrame [DataLoader.IntLike 1; DataLoader.IntLike 1] two_rows.
(** A bare matrix of two rows for three article ids. *)
Definition short : DataLoader.embeddings_source := DataLoader.SMatrix two_rows.
Definition three_ids : list Z := [1; 2; 3]%Z.
End Sources.

(** A user who rated article 1 twice, with ratings 1 and then 3, and an
    article outside the index once. *)
Module Twice.
Definition ratings : list rating_row :=
  [ {| user_id := 7; article_id := 1; rating := 1 |};
    {| user_id := 7; article_id := 99; rating := 2 |};
    {| user_id := 7; article_id := 1; rating := 3 |} ]%Z.
Definition model : ContentBasedRecommender :=
  match fit Scenario2.model0 ratings with Ok m => m | Raise _ => Scenario2.model0 end.
End Twice.

(** An id-keyed mapping of two vectors. *)
Module Mapping.
Definition source : DataLoader.embeddings_source :=
  DataLoader.SDict [(5%Z, [1; 0]%float); (6%Z, [0; 1]%float)].
Definition matrix : Np.ndarray :=
  {| Np.shape1 := 2; Np.rows := [[1; 0]; [0; 1]]%float |}.
End Mapping.

(** A table whose fourth article has no entry in the index, with a profile
    for user 7. *)
Module Gap.
Definition model : ContentBasedRecommender :=
  {| embeddings := Scenario2.emb;
     article_indices := Py.index_dict [1; 2; 3]%Z;
     article_ids := Scenario2.ids;
     user_profiles := {[ 7%Z := {| vector := [0.75; 0.25]%float;
                                   article_weights := ∅ |} ]} |}.
End Gap.

(** A bare matrix of two rows for three article ids, and a rating of the
    third article. *)
Module Short.
Definition model0 : ContentBasedRecommender :=
  init Sources.two_rows (Py.index_dict Sources.three_ids) Sources.three_ids.
Definition ratings : list rating_row :=
  [ {| user_id := 7; article_id := 3; rating := 2 |} ]%Z.
End Short.

(** ** Sample instances of the library functions

    The service is stated for any [log1p], [quantile], [mean], [round],
    [value_counts], [int] and [lower]. To run it on sample requests, this
    module gives an instance of each: a series for [ln(1 + x)], linear
    interpolation between order statistics, the mean of integers, rounding by
    the nearest integer of the scaled value, counts in order of first
    appearance, [int] on plain decimal numerals and [lower] on ASCII letters. *)

Module Sample.

Definition log1p (x : float) : float :=
  let z := PrimFloat.div x (PrimFloat.add x 2) in
  let z2 := PrimFloat.mul z z in
  let '(sum, _) :=
    foldl (λ (acc : float * float) (k : nat),
             let '(sum, power) := acc in
             (PrimFloat.add sum
                (PrimFloat.div power (Np.of_int (Z.of_nat (2 * k + 1)))),
              PrimFloat.mul power z2))
          (0%float, z) (seq 0 200) in
  PrimFloat.mul 2 sum.

Fixpoint insert_asc (x : float) (l : list float) : list float :=
  match l with
  | [] => [x]
  | y :: l' => if PrimFloat.ltb y x then y :: insert_asc x l' else x :: l
  end.

(** The number of the integers [1 .. bound] that are at or below [h]. *)
Definition floor_upto (bound : nat) (h : float) : nat :=
  length (filter (λ k, PrimFloat.leb (Np.of_int (Z.of_nat k)) h = true) (seq 1 bound)).

Definition quantile (values : list float) (q : float) : float :=
  let sorted := foldr insert_asc [] values in
  match length sorted with
  | 0 => PrimFloat.nan
  | S last =>
      let h := PrimFloat.mul (Np.of_int (Z.of_nat last)) q in
      let lo := floor_upto last h in
      let t := PrimFloat.sub h (Np.of_int (Z.of_nat lo)) in
      let a := default PrimFloat.nan (sorted !! lo) in
      let b := default a (sorted !! S lo) in
      PrimFloat.add a (PrimFloat.mul (PrimFloat.sub b a) t)
  end.

Definition mean (values : list Z) : float :=
  PrimFloat.div (Np.of_int (foldr Z.add 0%Z values))
    (Np.of_int (Z.of_nat (length values))).

(** The nearest integer of a float between 0 and [2^51], ties to even. *)
Definition rint (x : float) : float :=
  PrimFloat.sub (PrimFloat.add x 0x1p52) 0x1p52.

Definition round (x : float) (digits : Z) : float :=
  let scale := Np.of_int (10 ^ digits) in
  PrimFloat.div (rint (PrimFloat.mul x scale)) scale.

Definition round4 (x : float) : float := round x 4.

Definition value_counts (values : list Z) : list (Z * nat) :=
  let counted :=
    (λ v, (v, length (filter (λ w, w = v) values))) <$> DataLoader.unique values in
  foldr (λ p acc,
           let '(more, fewer) := (filter (λ q : Z * nat, p.2 < q.2) acc,
                                  filter (λ q : Z * nat, ¬ p.2 < q.2) acc) in
           more ++ p :: fewer)
        [] counted.

Definition digit (c : Ascii.ascii) : option Z :=
  let code := Ascii.nat_of_ascii c in
  if decide (48 ≤ code ≤ 57) then Some (Z.of_nat (code - 48)) else None.

Fixpoint digits (acc : Z) (s : string) : option Z :=
  match s with
  | EmptyString => Some acc
  | String c s' =>
      match digit c with
      | Some d => digits (10 * acc + d) s'
      | None => None
      end
  end.

Definition int (s : string) : option Z :=
  match s with
  | EmptyString => None
  | String c s' =>
      if decide (Ascii.nat_of_ascii c = 45) then
        match s' with
        | EmptyString => None
        | _ => Z.opp <$> digits 0 s'
        end
      else digits 0 s
  end.

Definition lower_ascii (c : Ascii.ascii) : Ascii.ascii :=
  let code := Ascii.nat_of_ascii c in
  if decide (65 ≤ code ≤ 90) then Ascii.ascii_of_nat (code + 32) else c.

Fixpoint lower (s : string) : string :=
  match s with
  | EmptyString => EmptyString
  | String c s' => String (lower_ascii c) (lower s')
  end.

(** Eight clicks of three users on the four articles of Scenario 2, with the
    session sizes of Scenario 1, and two clicks without a usable size. User 9
    only ever opened article 4. *)
Definition clicks : list DataLoader.click_row :=
  [ {| DataLoader.click_user_id := 7; DataLoader.click_article_id := 1;
       DataLoader.session_size := DataLoader.Numeric 31 |};
    {| DataLoader.click_user_id := 7; DataLoader.click_article_id := 2;
       DataLoader.session_size := DataLoader.Numeric 0 |};
    {| DataLoader.click_user_id := 8; DataLoader.click_article_id := 3;
       DataLoader.session_size := DataLoader.Numeric 3 |};
    {| DataLoader.click_user_id := 8; DataLoader.click_article_id := 1;
       DataLoader.session_size := DataLoader.Numeric 1 |};
    {| DataLoader.click_user_id := 5; DataLoader.click_article_id := 4;
       DataLoader.session_size := DataLoader.Missing |};
    {| DataLoader.click_user_id := 9; DataLoader.click_article_id := 4;
       DataLoader.session_size := DataLoader.Numeric 7 |};
    {| DataLoader.click_user_id := 9; DataLoader.click_article_id := 4;
       DataLoader.session_size := DataLoader.Numeric 15 |};
    {| DataLoader.click_user_id := 7; DataLoader.click_article_id := 3;
       DataLoader.session_size := DataLoader.NonNumeric |};
    {| DataLoader.click_user_id := 8; DataLoader.click_article_id := 4;
       DataLoader.session_size := DataLoader.Numeric 0 |};
    {| DataLoader.click_user_id := 9; DataLoader.click_article_id := 4;
       DataLoader.session_size := DataLoader.Numeric 1 |} ]%Z%float.

Definition articles : list DataLoader.article_row :=
  [ {| DataLoader.meta_article_id := 1; DataLoader.category_id := 10;
       DataLoader.words_count := 120 |};
    {| DataLoader.meta_article_id := 2; DataLoader.category_id := 10;
       DataLoader.words_count := 250 |};
    {| DataLoader.meta_article_id := 3; DataLoader.category_id := 20;
       DataLoader.words_count := 90 |};
    {| DataLoader.meta_article_id := 4; DataLoader.category_id := 30;
       DataLoader.words_count := 300 |} ]%Z.

Definition env : DataLoader.environment :=
  {| DataLoader.AzureWebJobsStorage := Some "UseDevelopmentStorage=true";
     DataLoader.LIMIT_DATA_SIZE := false;
     DataLoader.container_client := DataLoader.Returns tt;
     DataLoader.clicks_csv := DataLoader.Returns clicks;
     DataLoader.articles_metadata_csv := DataLoader.Returns articles;
     DataLoader.articles_embeddings_pickle :=
       DataLoader.Returns (DataLoader.SMatrix Scenario2.emb) |}.

(** The same storage, with [LIMIT_DATA_SIZE] set to [true]. *)
Definition env_limited : DataLoader.environment :=
  {| DataLoader.AzureWebJobsStorage := Some "UseDevelopmentStorage=true";
     DataLoader.LIMIT_DATA_SIZE := true;
     DataLoader.container_client := DataLoader.Returns tt;
     DataLoader.clicks_csv := DataLoader.Returns clicks;
     DataLoader.articles_metadata_csv := DataLoader.Returns articles;
     DataLoader.articles_embeddings_pickle :=
       DataLoader.Returns (DataLoader.SMatrix Scenario2.emb) |}.

(** An environment without the connection string. *)
Definition env_unset : DataLoader.environment :=
  {| DataLoader.AzureWebJobsStorage := None;
     DataLoader.LIMIT_DATA_SIZE := false;
     DataLoader.container_client := DataLoader.Returns tt;
     DataLoader.clicks_csv := DataLoader.Returns clicks;
     DataLoader.articles_metadata_csv := DataLoader.Returns articles;
     DataLoader.articles_embeddings_pickle :=
       DataLoader.Returns (DataLoader.SMatrix Scenario2.emb) |}.

Definition load_data : DataLoader.environment → DataLoader.loader →
    DataLoader.outcome DataLoader.loader :=
  DataLoader.load_data log1p quantile mean round value_counts.

(** The loader after a first [load_data]. *)
Definition loaded : DataLoader.loader :=
  match load_data env DataLoader.new with
  | DataLoader.Returns l => l
  | DataLoader.Raises _ => DataLoader.new
  end.

Definition users_handle := users_handle log1p quantile mean round value_counts int.
Definition recommend_handle :=
  recommend_handle log1p quantile mean round value_counts int lower round4.

(** The statistics frame of the loaded state. *)
Definition stats : list DataLoader.user_stats_row :=
  default [] (DataLoader.df_user_stats loaded).

(** Two pages of two users. *)
Definition page (i : nat) : gmap string string :=
  {[ "limit" := "2"; "offset" := match i with 0 => "0" | _ => "2" end ]}.



End Sample.

(** Five clicks of one user, the first with a session size below -1, whose
    [log1p] is not a number. *)
Module BelowMinusOne.

(** [np.log1p] is not a number below -1. *)
Definition log1p (x : float) : float :=
  if PrimFloat.ltb x (-1) then PrimFloat.nan else Sample.log1p x.

(** [Series.quantile] leaves out the values that are not numbers. *)
Definition quantile (values : list float) (q : float) : float :=
  Sample.quantile (filter (λ x, PrimFloat.is_nan x = false) values) q.

Definition clicks : list DataLoader.click_row :=
  (λ p : Z * float,
     {| DataLoader.click_user_id := 7; DataLoader.click_article_id := p.1;
        DataLoader.session_size := DataLoader.Numeric p.2 |}) <$>
  [ (1%Z, (-2)%float); (2%Z, 0%float); (3%Z, 1%float); (4%Z, 3%float);
    (5%Z, 7%float) ].

End BelowMinusOne.

(** * Properties *)

(** ** The error monad and the Python built-ins *)

Lemma bind_Ok {A B : Type} (m : result A) (f : A → result B) (b : B) :
  m ≫= f = Ok b ↔ ∃ a, m = Ok a ∧ f a = Ok b.
Proof.
  destruct m as [a|e]; simpl; split.
  - intros H. by exists a.
  - by intros (a' & [= ->] & H).
  - intros [=].
  - by intros (a' & [=] & _).
Qed.

(** Splits an equation [x ← m; k = Ok b] into the two steps it runs. *)
Ltac inv_bind H :=
  let a := fresh "a" in
  let Ha := fresh "Ha" in
  apply bind_Ok in H as (a & Ha & H).

Section FoldM.
Context {A S : Type}.
Implicit Types (f : S → A → result S) (l : list A).

Lemma foldM_invariant (I : S → Prop) f l s s' :
  (∀ s x s', I s → f s x = Ok s' → I s') →
  I s → foldM f s l = Ok s' → I s'.
Proof.
  intros Hstep. revert s. induction l as [|x l IH]; simpl; intros s Hs H.
  - by injection H as <-.
  - inv_bind H. eauto.
Qed.

Lemma foldM_cons f x l s :
  foldM f s (x :: l) = f s x ≫= λ s', foldM f s' l.
Proof. reflexivity. Qed.

End FoldM.

Lemma insert_desc_perm {A : Type} (x : A * float) (l : list (A * float)) :
  Py.insert_desc x l ≡ₚ x :: l.
Proof.
  induction l as [|y l IH]; simpl; [done|].
  destruct (PrimFloat.ltb x.2 y.2); [|done].
  rewrite IH. apply Permutation_swap.
Qed.

Lemma sort_desc_perm {A : Type} (l : list (A * float)) : Py.sort_desc l ≡ₚ l.
Proof.
  induction l as [|x l IH]; simpl; [done|].
  by rewrite insert_desc_perm, IH.
Qed.

Lemma sort_desc_length {A : Type} (l : list (A * float)) :
  length (Py.sort_desc l) = length l.
Proof. by rewrite sort_desc_perm. Qed.

Lemma slice_to_elem_of {A : Type} (n : Z) (l : list A) (x : A) :
  x ∈ Py.slice_to n l → x ∈ l.
Proof.
  unfold Py.slice_to.
  destruct (0 <=? n)%Z; intros H; eapply elem_of_sublist; eauto using sublist_take.
Qed.

(** What a request returns is drawn from the scored candidates. *)
Lemma top_n_elem_of {A : Type} (n : Z) (scores : list (A * float)) (x : A * float) :
  x ∈ Py.slice_to n (Py.sort_desc scores) → x ∈ scores.
Proof.
  intros H%slice_to_elem_of. by rewrite sort_desc_perm in H.
Qed.

Lemma slice_to_length_nonneg {A : Type} (n : Z) (l : list A) :
  (0 ≤ n)%Z → length (Py.slice_to n l) = Nat.min (Z.to_nat n) (length l).
Proof.
  intros Hn. unfold Py.slice_to.
  destruct (Z.leb_spec 0 n); [apply length_take | lia].
Qed.

Lemma slice_to_length_neg {A : Type} (n : Z) (l : list A) :
  (n < 0)%Z → length (Py.slice_to n l) = Z.to_nat (Z.of_nat (length l) + n).
Proof.
  intros Hn. unfold Py.slice_to.
  destruct (Z.leb_spec 0 n); [lia|]. rewrite length_take. lia.
Qed.

(** ** The exclusion set *)

Lemma elem_of_user_articles (ratings_df : list rating_row) (uid a : Z) :
  a ∈ user_articles ratings_df uid ↔
  ∃ r, r ∈ ratings_df ∧ user_id r = uid ∧ article_id r = a.
Proof.
  unfold user_articles, group_of.
  rewrite elem_of_list_to_set, list_elem_of_fmap.
  split.
  - intros (r & Ha & [Hu Hr]%list_elem_of_filter). by exists r.
  - intros (r & Hr & Hu & <-). exists r. split; [done|].
    apply list_elem_of_filter. done.
Qed.

Lemma avoids_snoc excluded scores a s :
  avoids excluded scores → a ∉ excluded → avoids excluded (scores ++ [(a, s)]).
Proof.
  intros Hsc Ha a' s' [H|H%list_elem_of_singleton]%elem_of_app; [by eapply Hsc|].
  by injection H as -> ->.
Qed.

Lemma emit_batch_avoids self excluded i batch_indices similarities scores scores' :
  avoids excluded scores →
  emit_batch self excluded i batch_indices similarities scores = Ok scores' →
  avoids excluded scores'.
Proof.
  intros Hsc H. unfold emit_batch in H.
  eapply (foldM_invariant (avoids excluded)); [|exact Hsc|exact H].
  clear. intros scores j scores' Hsc H. simpl in H.
  inv_bind H. destruct (decide (a ∉ excluded)) as [Hout|Hin].
  - inv_bind H. injection H as <-. by apply avoids_snoc.
  - by injection H as <-.
Qed.

Lemma score_batch_avoids batch_size self user_vector excluded scores i scores' :
  avoids excluded scores →
  score_batch batch_size self user_vector excluded scores i = Ok scores' →
  avoids excluded scores'.
Proof.
  intros Hsc H. unfold score_batch in H.
  inv_bind H. destruct a as [|idx idxs]; [by injection H as <-|].
  inv_bind H. inv_bind H. inv_bind H.
  by eapply emit_batch_avoids.
Qed.

Lemma score_one_avoids self user_vector excluded scores aid scores' :
  avoids excluded scores →
  score_one self user_vector excluded scores aid = Ok scores' →
  avoids excluded scores'.
Proof.
  intros Hsc H. unfold score_one in H.
  destruct (decide (aid ∈ excluded)) as [Hin|Hout]; [by injection H as <-|].
  inv_bind H. inv_bind H.
  destruct (_ && _); injection H as <-; [by apply avoids_snoc | done].
Qed.

Lemma recommend_batched_avoids batch_size self uid ratings_df n out :
  recommend_batched batch_size self uid ratings_df n = Ok out →
  avoids (user_articles ratings_df uid) out.
Proof.
  unfold recommend_batched. destruct (user_profiles self !! uid) as [profile|].
  - intros H. inv_bind H. injection H as <-.
    intros x s Hx%top_n_elem_of. revert x s Hx.
    eapply (foldM_invariant (avoids _)); [| |exact Ha].
    + intros. by eapply score_batch_avoids.
    + intros x s Hx. by apply elem_of_nil in Hx.
  - intros [= <-] x s Hx. by apply elem_of_nil in Hx.
Qed.

Lemma recommend_low_memory_avoids self uid ratings_df n out :
  recommend_low_memory self uid ratings_df n = Ok out →
  avoids (user_articles ratings_df uid) out.
Proof.
  unfold recommend_low_memory. destruct (user_profiles self !! uid) as [profile|].
  - intros H. inv_bind H. injection H as <-.
    intros x s Hx%top_n_elem_of. revert x s Hx.
    eapply (foldM_invariant (avoids _)); [| |exact Ha].
    + intros. by eapply score_one_avoids.
    + intros x s Hx. by apply elem_of_nil in Hx.
  - intros [= <-] x s Hx. by apply elem_of_nil in Hx.
Qed.

(** C9: in either recommendation mode, an article that some row of the ratings
    table records for the requested user never appears in the output. *)
Theorem excluded_never_recommended self uid ratings_df n out r s :
  recommend self uid ratings_df n = Ok out ∨
    recommend_low_memory self uid ratings_df n = Ok out →
  r ∈ ratings_df → user_id r = uid →
  (article_id r, s) ∉ out.
Proof.
  intros Hout Hr Hu Hin.
  assert (avoids (user_articles ratings_df uid) out) as Hav.
  { destruct Hout as [H|H].
    - by eapply recommend_batched_avoids.
    - by eapply recommend_low_memory_avoids. }
  apply (Hav _ _ Hin), elem_of_user_articles. by exists r.
Qed.

(** The property at Scenario 2: article 1, which user 7 rated, is not in the
    answer. *)
Lemma excluded_never_recommended_witness :
  fit Scenario2.model0 Scenario2.ratings = Ok Scenario2.model ∧
  ∃ out,
    recommend_low_memory Scenario2.model 7 Scenario2.ratings 2 = Ok out ∧
    (1%Z, 1%float) ∉ out.
Proof.
  split; [vm_compute; reflexivity|].
  eexists. split; [vm_compute; reflexivity|].
  apply (excluded_never_recommended Scenario2.model 7 Scenario2.ratings 2 _
           {| user_id := 7; article_id := 1; rating := 3 |} 1%float).
  - right. vm_compute. reflexivity.
  - apply list_elem_of_here.
  - reflexivity.
Defined.

(** ** [fit] *)

Lemma fit_step_unfold self ratings_df profiles uid :
  fit_step self ratings_df profiles uid =
  fit_group self (group_of ratings_df uid) ≫= λ p, Ok (<[uid := p]> profiles).
Proof. reflexivity. Qed.

Lemma fit_unfold self ratings_df :
  fit self ratings_df =
  foldM (fit_step self ratings_df) (user_profiles self) (group_keys ratings_df)
    ≫= λ profiles, Ok (set_profiles self profiles).
Proof. reflexivity. Qed.

Lemma elem_of_group_keys ratings_df uid :
  uid ∈ group_keys ratings_df ↔ ∃ r, r ∈ ratings_df ∧ user_id r = uid.
Proof.
  unfold group_keys.
  rewrite merge_sort_Permutation, elem_of_remove_dups, list_elem_of_fmap.
  split.
  - intros (r & -> & Hr). by exists r.
  - intros (r & Hr & <-). by exists r.
Qed.

Lemma fit_row_total self st r :
  indices_in_range self → ∃ st', fit_row self st r = Ok st'.
Proof.
  intros Hwf. destruct st as [[w v] t]. unfold fit_row.
  destruct (article_indices self !! article_id r) as [idx|] eqn:Hidx; [|by eexists].
  apply Hwf, lookup_lt_is_Some_2 in Hidx as [emb Hemb].
  unfold Np.row, Py.index. rewrite Hemb. by eexists.
Qed.

Lemma fit_group_total self group :
  indices_in_range self → ∃ p, fit_group self group = Ok p.
Proof.
  intros Hwf. unfold fit_group.
  generalize (∅ : gmap Z Z, Np.zeros (Np.shape1 (embeddings self)), 0%Z).
  induction group as [|r group IH]; intros st.
  - destruct st as [[w v] t]. by eexists.
  - rewrite foldM_cons. destruct (fit_row_total self st r Hwf) as [st' ->]. apply IH.
Qed.

Lemma fit_steps_total self ratings_df keys profiles :
  indices_in_range self →
  ∃ profiles', foldM (fit_step self ratings_df) profiles keys = Ok profiles'.
Proof.
  intros Hwf. revert profiles.
  induction keys as [|uid keys IH]; intros profiles; [by eexists|].
  rewrite foldM_cons, fit_step_unfold.
  destruct (fit_group_total self (group_of ratings_df uid) Hwf) as [p ->].
  apply IH.
Qed.

(** With every index in range no lookup of [fit] fails. *)
Lemma fit_total self ratings_df :
  indices_in_range self → ∃ m, fit self ratings_df = Ok m.
Proof.
  intros Hwf. rewrite fit_unfold.
  destruct (fit_steps_total self ratings_df (group_keys ratings_df)
              (user_profiles self) Hwf) as [profiles ->].
  by eexists.
Qed.

(** The loop over the groups lays the profiles it builds over the ones the
    dict held before. *)
Lemma fit_steps_union self ratings_df keys (built before : gmap Z user_profile) :
  foldM (fit_step self ratings_df) (built ∪ before) keys =
  foldM (fit_step self ratings_df) built keys ≫= λ profiles, Ok (profiles ∪ before).
Proof.
  revert built. induction keys as [|uid keys IH]; intros built; [done|].
  rewrite !foldM_cons, !fit_step_unfold.
  destruct (fit_group self (group_of ratings_df uid)) as [p|e]; [|done].
  simpl. by rewrite insert_union_l, IH.
Qed.

Lemma fit_steps_lookup self ratings_df keys profiles profiles' uid :
  foldM (fit_step self ratings_df) profiles keys = Ok profiles' →
  (uid ∈ keys →
   ∃ p, fit_group self (group_of ratings_df uid) = Ok p ∧ profiles' !! uid = Some p) ∧
  (uid ∉ keys → profiles' !! uid = profiles !! uid).
Proof.
  revert profiles. induction keys as [|k keys IH]; intros profiles H.
  - injection H as <-. split; [by intros ?%elem_of_nil | done].
  - rewrite foldM_cons in H. inv_bind H. rewrite fit_step_unfold in Ha. inv_bind Ha. injection Ha as <-.
    destruct (IH _ H) as [IHin IHout]. split.
    + intros Hin. destruct (decide (uid ∈ keys)) as [Hk|Hk]; [by apply IHin|].
      apply elem_of_cons in Hin as [->|?]; [|done].
      exists a0. split; [done|]. by rewrite (IHout Hk), lookup_insert_eq.
    + intros [Hne Hk]%not_elem_of_cons.
      by rewrite (IHout Hk), lookup_insert_ne.
Qed.

Lemma fit_profiles self ratings_df m :
  fit self ratings_df = Ok m →
  ∃ built,
    foldM (fit_step self ratings_df) ∅ (group_keys ratings_df) = Ok built ∧
    m = set_profiles self (built ∪ user_profiles self).
Proof.
  rewrite fit_unfold. intros H. inv_bind H. injection H as <-.
  rewrite <- (left_id_L ∅ (∪) (user_profiles self)), fit_steps_union in Ha.
  inv_bind Ha. injection Ha as <-. by exists a0.
Qed.

Lemma fit_fresh self ratings_df built :
  foldM (fit_step self ratings_df) ∅ (group_keys ratings_df) = Ok built →
  fit (fresh self) ratings_df = Ok (set_profiles self built).
Proof.
  intros H. rewrite fit_unfold.
  change (foldM (fit_step self ratings_df) ∅ (group_keys ratings_df)
            ≫= (λ profiles, Ok (set_profiles self profiles)) =
          Ok (set_profiles self built)).
  by rewrite H.
Qed.

(** C5 (as amended): a second [fit] lays its profiles over those of the
    first. After [fit(R1)] then [fit(R2)] every user of [R2] has the profile
    that [fit(R2)] alone gives, and every user absent from [R2] keeps what the
    mapping held after [fit(R1)]. *)
Theorem refit_overlays_profiles self R1 R2 m1 m2 :
  fit self R1 = Ok m1 → fit m1 R2 = Ok m2 →
  ∃ alone,
    fit (fresh self) R2 = Ok alone ∧
    user_profiles m2 = user_profiles alone ∪ user_profiles m1 ∧
    ∀ uid,
      ((∃ r, r ∈ R2 ∧ user_id r = uid) →
       is_Some (user_profiles alone !! uid) ∧
       user_profiles m2 !! uid = user_profiles alone !! uid) ∧
      ((¬ ∃ r, r ∈ R2 ∧ user_id r = uid) →
       user_profiles alone !! uid = None ∧
       user_profiles m2 !! uid = user_profiles m1 !! uid).
Proof.
  intros (built1 & _ & ->)%fit_profiles (built2 & H2 & ->)%fit_profiles.
  change (foldM (fit_step self R2) ∅ (group_keys R2) = Ok built2) in H2.
  exists (set_profiles self built2). split; [by apply fit_fresh|].
  split; [done|]. intros uid. simpl.
  destruct (fit_steps_lookup _ _ _ _ _ uid H2) as [Hin Hout].
  rewrite <- elem_of_group_keys. split.
  - intros (p & _ & Hp)%Hin. split; [by eexists|].
    rewrite Hp. by apply lookup_union_Some_l.
  - intros Hp%Hout. rewrite lookup_empty in Hp. split; [done|].
    by apply lookup_union_r.
Qed.

(** C5 (counterexample): user 7 is absent from the second table and still has
    a profile after the second [fit], which [fit] of the second table alone
    does not give. *)
Lemma refit_keeps_absent_user :
  fit Scenario2.model0 Refit.R1 = Ok Refit.m1 ∧
  fit Refit.m1 Refit.R2 = Ok Refit.m2 ∧
  fit Scenario2.model0 Refit.R2 = Ok Refit.alone ∧
  (∀ r, r ∈ Refit.R2 → user_id r ≠ 7%Z) ∧
  is_Some (user_profiles Refit.m2 !! 7%Z) ∧
  user_profiles Refit.alone !! 7%Z = None ∧
  user_profiles Refit.m2 ≠ user_profiles Refit.alone.
Proof.
  repeat split; try (vm_compute; reflexivity).
  - by intros r ->%list_elem_of_singleton.
  - eexists. vm_compute. reflexivity.
  - intros Heq. apply (f_equal (λ m, m !! 7%Z)) in Heq.
    vm_compute in Heq. discriminate Heq.
Qed.

(** The overlay on the two runs of [Refit]. *)
Lemma refit_overlays_profiles_witness :
  fit Scenario2.model0 Refit.R1 = Ok Refit.m1 ∧
  fit Refit.m1 Refit.R2 = Ok Refit.m2 ∧
  ∃ alone,
    fit (fresh Scenario2.model0) Refit.R2 = Ok alone ∧
    user_profiles Refit.m2 = user_profiles alone ∪ user_profiles Refit.m1 ∧
    ∀ uid,
      ((∃ r, r ∈ Refit.R2 ∧ user_id r = uid) →
       is_Some (user_profiles alone !! uid) ∧
       user_profiles Refit.m2 !! uid = user_profiles alone !! uid) ∧
      ((¬ ∃ r, r ∈ Refit.R2 ∧ user_id r = uid) →
       user_profiles alone !! uid = None ∧
       user_profiles Refit.m2 !! uid = user_profiles Refit.m1 !! uid).
Proof.
  split; [vm_compute; reflexivity|]. split; [vm_compute; reflexivity|].
  apply (refit_overlays_profiles Scenario2.model0 Refit.R1 Refit.R2 Refit.m1 Refit.m2);
    vm_compute; reflexivity.
Defined.

(** The loop over the rows of one user adds up the contributing rows and
    nothing else. *)
Lemma fit_rows_spec self group w v t w' v' t' :
  foldM (fit_row self) (w, v, t) group = Ok (w', v', t') →
  v' = foldl (λ acc r, Np.vadd acc (Np.scale (Np.of_int (rating r))
                         (UserProfileBuilder.embedding_of self (article_id r))))
         v (UserProfileBuilder.contributing self group) ∧
  t' = foldl (λ t r, Np.int64 (t + rating r)) t
         (UserProfileBuilder.contributing self group) ∧
  w' = foldl (λ d r, <[article_id r := rating r]> d) w
         (UserProfileBuilder.contributing self group).
Proof.
  revert w v t. induction group as [|r group IH]; intros w v t H.
  - injection H as <- <- <-. simpl. repeat split.
  - rewrite foldM_cons in H. inv_bind H.
    unfold fit_row in Ha. unfold UserProfileBuilder.contributing in *.
    destruct (article_indices self !! article_id r) as [idx|] eqn:Hidx.
    + inv_bind Ha. injection Ha as <-.
      unfold Np.row, Py.index in Ha0.
      destruct (Np.rows (embeddings self) !! idx) as [emb|] eqn:Hemb; [|done].
      injection Ha0 as <-.
      rewrite filter_cons_True by (by rewrite Hidx).
      apply IH in H as (Hv & Ht & Hw). clear IH. subst v' t' w'. simpl.
      assert (UserProfileBuilder.embedding_of self (article_id r) = emb) as ->.
      { unfold UserProfileBuilder.embedding_of. rewrite Hidx.
        exact (f_equal (default []) Hemb). }
      repeat split.
    + injection Ha as <-.
      rewrite filter_cons_False by (rewrite Hidx; by intros [? ?]).
      by apply IH.
Qed.

(** Ratings 1, 2 and 3 over fewer than [2^61] rows add up without reaching
    the end of [int64]. *)
Lemma int64_sum rs t :
  Forall (λ r, (1 ≤ rating r ≤ 3)%Z) rs →
  (0 ≤ t)%Z → (t + 3 * Z.of_nat (length rs) < 2 ^ 63)%Z →
  foldl (λ t r, Np.int64 (t + rating r)) t rs =
    (t + UserProfileBuilder.total_weight rs)%Z.
Proof.
  intros Hrs. revert t. induction Hrs as [|r rs Hr Hrs IH]; intros t Ht Hlen.
  - simpl. lia.
  - simpl foldl. simpl length in Hlen.
    assert (Np.int64 (t + rating r) = (t + rating r)%Z) as ->.
    { unfold Np.int64. rewrite Z.mod_small; lia. }
    rewrite IH by lia. simpl. lia.
Qed.

Lemma total_weight_pos rs :
  Forall (λ r, (0 < rating r)%Z) rs → rs ≠ [] → (0 < UserProfileBuilder.total_weight rs)%Z.
Proof.
  induction 1 as [|r rs Hr Hrs IH]; [done|]. intros _. simpl.
  destruct rs as [|r' rs']; simpl in *; [lia|].
  assert (r' :: rs' ≠ []) as Hne by done. specialize (IH Hne). lia.
Qed.

(** What [fit] stores for a group, in the specification's terms. *)
Lemma fit_group_spec self group p :
  Forall (λ r, (1 ≤ rating r ≤ 3)%Z) group →
  (Z.of_nat (length group) < 2 ^ 61)%Z →
  fit_group self group = Ok p →
  vector p = UserProfileBuilder.profile_vector self group ∧
  article_weights p =
    foldl (λ d r, <[article_id r := rating r]> d) ∅
      (UserProfileBuilder.contributing self group).
Proof.
  intros Hpos Hlen H. unfold fit_group in H. inv_bind H.
  destruct a as [[w v] t]. injection H as <-. simpl.
  apply fit_rows_spec in Ha as (Hv & Ht & Hw). split; [|done].
  unfold UserProfileBuilder.profile_vector.
  set (rs := UserProfileBuilder.contributing self group) in *.
  assert (Forall (λ r, (1 ≤ rating r ≤ 3)%Z) rs) as Hrange.
  { unfold rs, UserProfileBuilder.contributing.
    rewrite Forall_forall in Hpos |- *.
    intros r [_ Hr]%list_elem_of_filter. by apply Hpos. }
  assert (length rs ≤ length group) as Hle by apply length_filter.
  rewrite (int64_sum rs 0 Hrange) in Ht by lia.
  assert (Forall (λ r, (0 < rating r)%Z) rs) as Hrs
    by (eapply Forall_impl; [exact Hrange|]; simpl; lia).
  rewrite Z.add_0_l in Ht. subst t.
  destruct rs as [|r rs'] eqn:Hrs'.
  - simpl. by subst v.
  - assert (0 < UserProfileBuilder.total_weight (r :: rs'))%Z as Hgt
      by (by apply total_weight_pos).
    destruct (Z.ltb_spec 0 (UserProfileBuilder.total_weight (r :: rs'))); [|lia].
    destruct (decide _) as [Hz|_]; [lia|].
    by subst v.
Qed.

Lemma contributing_nil self group :
  (∀ r, r ∈ group → article_indices self !! article_id r = None) →
  UserProfileBuilder.contributing self group = [].
Proof.
  unfold UserProfileBuilder.contributing.
  induction group as [|r group IH]; intros Hnone; [done|].
  rewrite filter_cons_False.
  - apply IH. intros r' Hr'. apply Hnone. by right.
  - rewrite (Hnone r) by left. apply is_Some_None.
Qed.

(** A group with no indexed article leaves the accumulator as it starts. *)
Lemma fit_group_unindexed self group p :
  (∀ r, r ∈ group → article_indices self !! article_id r = None) →
  fit_group self group = Ok p →
  p = {| vector := Np.zeros (Np.shape1 (embeddings self)); article_weights := ∅ |}.
Proof.
  intros Hnone H. unfold fit_group in H. inv_bind H.
  destruct a as [[w v] t]. injection H as <-.
  apply fit_rows_spec in Ha as (-> & -> & ->).
  by rewrite (contributing_nil _ _ Hnone).
Qed.

(** C6 (as amended): after [fit] on a newly constructed recommender a profile
    entry exists for a user id exactly when the ratings table has a row for
    that user, indexed or not; a user none of whose rated articles is indexed
    has an entry with the zero vector and no weights. *)
Theorem profile_iff_rated emb idx ids ratings_df m uid :
  fit (init emb idx ids) ratings_df = Ok m →
  (is_Some (user_profiles m !! uid) ↔ ∃ r, r ∈ ratings_df ∧ user_id r = uid) ∧
  ((∃ r, r ∈ ratings_df ∧ user_id r = uid) →
   (∀ r, r ∈ ratings_df → user_id r = uid → idx !! article_id r = None) →
   user_profiles m !! uid =
     Some {| vector := Np.zeros (Np.shape1 emb); article_weights := ∅ |}).
Proof.
  rewrite fit_unfold. intros H. inv_bind H. injection H as <-. simpl.
  destruct (fit_steps_lookup _ _ _ _ _ uid Ha) as [Hin Hout].
  rewrite <- elem_of_group_keys. split; [split|].
  - intros Hsome. destruct (decide (uid ∈ group_keys ratings_df)) as [|Hno]; [done|].
    rewrite (Hout Hno) in Hsome. cbn [user_profiles init] in Hsome.
    rewrite lookup_empty in Hsome. by apply is_Some_None in Hsome.
  - intros (p & _ & ->)%Hin. by eexists.
  - intros (p & Hp & ->)%Hin Hnone. f_equal.
    apply (fit_group_unindexed _ _ _) in Hp; [done|].
    intros r [<- Hr]%list_elem_of_filter. by apply Hnone.
Qed.

(** C6 (counterexample): user 9 rated article 99 only, which the index does
    not hold, and has a profile entry after [fit]. *)
Lemma profile_without_indexed_rating :
  fit Scenario2.model0 Unindexed.ratings = Ok Unindexed.model ∧
  is_Some (user_profiles Unindexed.model !! 9%Z) ∧
  ¬ ∃ r, r ∈ Unindexed.ratings ∧ user_id r = 9%Z ∧
         is_Some (article_indices Scenario2.model0 !! article_id r).
Proof.
  split; [vm_compute; reflexivity|]. split.
  - eexists. vm_compute. reflexivity.
  - intros (r & ->%list_elem_of_singleton & _ & Hidx).
    vm_compute in Hidx. by apply is_Some_None in Hidx.
Qed.

(** The equivalence for user 9 of [Unindexed]. *)
Lemma profile_iff_rated_witness :
  (is_Some (user_profiles Unindexed.model !! 9%Z) ↔
   ∃ r, r ∈ Unindexed.ratings ∧ user_id r = 9%Z) ∧
  ((∃ r, r ∈ Unindexed.ratings ∧ user_id r = 9%Z) →
   (∀ r, r ∈ Unindexed.ratings → user_id r = 9%Z →
         Py.index_dict Scenario2.ids !! article_id r = None) →
   user_profiles Unindexed.model !! 9%Z =
     Some {| vector := Np.zeros (Np.shape1 Scenario2.emb); article_weights := ∅ |}).
Proof.
  apply (profile_iff_rated Scenario2.emb (Py.index_dict Scenario2.ids) Scenario2.ids
           Unindexed.ratings Unindexed.model 9%Z).
  vm_compute. reflexivity.
Defined.

(** C8: for a ratings table of the data model (every rating 1, 2 or 3, fewer
    than [2^61] rows) [fit] returns whenever every index addresses a row, and
    for every user with a rating it stores the vector
    [Σ(rating_i × vector_i) / Σ rating_i] taken over those rows of the table
    that carry the user's id and whose article is indexed, in row order, or
    the zero vector when that total weight is zero. *)
Theorem fit_builds_weighted_mean self ratings_df :
  Forall (λ r, (1 ≤ rating r ≤ 3)%Z) ratings_df →
  (Z.of_nat (length ratings_df) < 2 ^ 61)%Z →
  (indices_in_range self → ∃ m, fit self ratings_df = Ok m) ∧
  (∀ m uid, fit self ratings_df = Ok m →
     (∃ r, r ∈ ratings_df ∧ user_id r = uid) →
     ∃ p, user_profiles m !! uid = Some p ∧
          vector p =
            UserProfileBuilder.profile_vector self
              (filter (λ r, user_id r = uid) ratings_df)).
Proof.
  intros Hrange Hlen. split; [apply fit_total|].
  intros m uid H Hr. rewrite fit_unfold in H. inv_bind H. injection H as <-. simpl.
  destruct (fit_steps_lookup _ _ _ _ _ uid Ha) as [Hin _].
  destruct Hin as (p & Hp & Hlook); [by apply elem_of_group_keys|].
  exists p. split; [done|].
  apply fit_group_spec in Hp as [Hv _]; [done| |].
  - rewrite Forall_forall in Hrange |- *.
    intros r' [_ Hr']%list_elem_of_filter. by apply Hrange.
  - pose proof (length_filter (λ r, user_id r = uid) ratings_df).
    unfold group_of. lia.
Qed.

(** Two users with alternating rows: the profile of user 7 is
    [(3·[1,0] + 1·[0,1]) / 4] and that of user 8, whose article 99 is not
    indexed, is [(2·[1,1] + 2·[-1,0]) / 4]. *)
Lemma fit_builds_weighted_mean_witness :
  fit Scenario2.model0 Readers.ratings = Ok Readers.model ∧
  (∃ p, user_profiles Readers.model !! 7%Z = Some p ∧
        vector p = UserProfileBuilder.profile_vector Scenario2.model0
                     (filter (λ r, user_id r = 7%Z) Readers.ratings) ∧
        vector p = [0.75; 0.25]%float) ∧
  (∃ p, user_profiles Readers.model !! 8%Z = Some p ∧
        vector p = UserProfileBuilder.profile_vector Scenario2.model0
                     (filter (λ r, user_id r = 8%Z) Readers.ratings) ∧
        vector p = [0; 0.5]%float).
Proof.
  assert (Forall (λ r, (1 ≤ rating r ≤ 3)%Z) Readers.ratings) as Hrange
    by (repeat (constructor; [simpl; lia|]); constructor).
  assert (Z.of_nat (length Readers.ratings) < 2 ^ 61)%Z as Hlen by (simpl; lia).
  assert (fit Scenario2.model0 Readers.ratings = Ok Readers.model) as Hfit
    by (vm_compute; reflexivity).
  pose proof (proj2 (fit_builds_weighted_mean Scenario2.model0 Readers.ratings
                       Hrange Hlen) Readers.model) as Hspec.
  split; [exact Hfit|]. split.
  - destruct (Hspec 7%Z Hfit) as (p & Hp & Hv).
    { eexists. split; [apply list_elem_of_here|reflexivity]. }
    exists p. split; [exact Hp|]. split; [exact Hv|].
    rewrite Hv. vm_compute. reflexivity.
  - destruct (Hspec 8%Z Hfit) as (p & Hp & Hv).
    { eexists. split; [right; apply list_elem_of_here|reflexivity]. }
    exists p. split; [exact Hp|]. split; [exact Hv|].
    rewrite Hv. vm_compute. reflexivity.
Defined.

(** ** The two recommendation modes *)

(** The loop of [recommend_low_memory] scores exactly the candidates that
    remain after exclusion and have a defined similarity. *)
Lemma score_one_spec self u excluded scores aid scores' :
  score_one self u excluded scores aid = Ok scores' →
  scores' = scores ++ option_list (SimilarityRanker.score self u excluded aid).
Proof.
  unfold score_one, SimilarityRanker.score. intros H.
  destruct (decide (aid ∈ excluded)) as [Hin|Hout].
  { injection H as <-. simpl. by rewrite app_nil_r. }
  inv_bind H. inv_bind H.
  assert (UserProfileBuilder.embedding_of self aid = a0) as ->.
  { unfold UserProfileBuilder.embedding_of, Py.getitem, Np.row, Py.index in *.
    destruct (article_indices self !! aid) as [idx|]; [|done].
    injection Ha as <-.
    destruct (Np.rows (embeddings self) !! idx) as [v|] eqn:Hv; [|done].
    injection Ha0 as <-. exact (f_equal (default []) Hv). }
  unfold SimilarityRanker.cosine.
  destruct (_ && _); injection H as <-; simpl; [done | by rewrite app_nil_r].
Qed.

Lemma low_memory_scores self u excluded ids scores scores' :
  foldM (score_one self u excluded) scores ids = Ok scores' →
  scores' = scores ++ omap (SimilarityRanker.score self u excluded) ids.
Proof.
  revert scores. induction ids as [|aid ids IH]; intros scores H.
  - injection H as <-. simpl. by rewrite app_nil_r.
  - rewrite foldM_cons in H. inv_bind H.
    apply score_one_spec in Ha as ->. apply IH in H as ->.
    rewrite <- app_assoc. f_equal. simpl.
    by destruct (SimilarityRanker.score self u excluded aid).
Qed.

(** What [recommend_low_memory] returns, when it returns. *)
Lemma recommend_low_memory_spec self uid ratings_df n out :
  recommend_low_memory self uid ratings_df n = Ok out →
  match user_profiles self !! uid with
  | None => out = []
  | Some profile =>
      out = Py.slice_to n (Py.sort_desc
              (SimilarityRanker.scored_candidates self (vector profile)
                 (user_articles ratings_df uid)))
  end.
Proof.
  unfold recommend_low_memory. destruct (user_profiles self !! uid) as [profile|].
  - intros H. inv_bind H. injection H as <-.
    by apply low_memory_scores in Ha as ->.
  - by intros [= <-].
Qed.

(** For a request size that is not negative the low-memory mode returns
    [min(n, number of scored candidates)] entries. *)
Lemma recommend_low_memory_length self uid ratings_df n out profile :
  user_profiles self !! uid = Some profile →
  recommend_low_memory self uid ratings_df n = Ok out →
  (0 ≤ n)%Z →
  length out =
    Nat.min (Z.to_nat n)
      (length (SimilarityRanker.scored_candidates self (vector profile)
                 (user_articles ratings_df uid))).
Proof.
  intros Hp H%recommend_low_memory_spec Hn. rewrite Hp in H. subst out.
  by rewrite slice_to_length_nonneg, sort_desc_length.
Qed.

(** In the low-memory mode every returned score is a defined similarity:
    both norms are positive. *)
Lemma recommend_low_memory_defined self uid ratings_df n out profile a s :
  user_profiles self !! uid = Some profile →
  recommend_low_memory self uid ratings_df n = Ok out →
  (a, s) ∈ out →
  PrimFloat.ltb 0 (Np.norm (vector profile)) = true ∧
  PrimFloat.ltb 0 (Np.norm (UserProfileBuilder.embedding_of self a)) = true.
Proof.
  intros Hp H%recommend_low_memory_spec Hin. rewrite Hp in H. subst out.
  apply top_n_elem_of in Hin.
  unfold SimilarityRanker.scored_candidates in Hin.
  apply list_elem_of_omap in Hin as (aid & _ & Hs).
  unfold SimilarityRanker.score in Hs.
  destruct (decide (aid ∈ _)); [done|].
  unfold SimilarityRanker.cosine in Hs.
  destruct (PrimFloat.ltb 0 (Np.norm (vector profile))) eqn:Hu; [|done].
  destruct (PrimFloat.ltb 0 (Np.norm (UserProfileBuilder.embedding_of self aid))) eqn:Hv;
    [|done].
  simpl in Hs. by injection Hs as <- <-.
Qed.

(** For a negative request size the low-memory mode drops the last [-n]
    scored candidates and returns the rest. *)
Lemma recommend_low_memory_length_neg self uid ratings_df n out profile :
  user_profiles self !! uid = Some profile →
  recommend_low_memory self uid ratings_df n = Ok out →
  (n < 0)%Z →
  length out =
    Z.to_nat (Z.of_nat (length (SimilarityRanker.scored_candidates self (vector profile)
                                  (user_articles ratings_df uid))) + n).
Proof.
  intros Hp H%recommend_low_memory_spec Hn. rewrite Hp in H. subst out.
  by rewrite slice_to_length_neg, sort_desc_length.
Qed.

(** C1 (failing input): Scenario 2 of the specification. The user rated the
    first two articles of the table; the batched mode pairs the two
    similarities of the batch with the ids at positions 0 and 1, finds both
    excluded, and returns nothing, while the low-memory mode returns articles
    3 and 4. With a batch size of 1 the batched mode returns them too. *)
Theorem scenario2_modes_disagree :
  fit Scenario2.model0 Scenario2.ratings = Ok Scenario2.model ∧
  recommend Scenario2.model 7 Scenario2.ratings 2 = Ok [] ∧
  (∃ s3 s4, recommend_low_memory Scenario2.model 7 Scenario2.ratings 2 =
              Ok [(3%Z, s3); (4%Z, s4)]) ∧
  (∃ s3 s4, recommend_batched 1 Scenario2.model 7 Scenario2.ratings 2 =
              Ok [(3%Z, s3); (4%Z, s4)]).
Proof.
  split; [vm_compute; reflexivity|]. split; [vm_compute; reflexivity|].
  split; eexists; eexists; vm_compute; reflexivity.
Qed.

(** C3 (failing input): article 1 has the zero vector as embedding. The
    batched mode returns it with score 0; the low-memory mode leaves it out. *)
Theorem zero_norm_candidate_scored_zero :
  fit ZeroNorm.model0 ZeroNorm.ratings = Ok ZeroNorm.model ∧
  Np.norm (UserProfileBuilder.embedding_of ZeroNorm.model 1%Z) = 0%float ∧
  recommend ZeroNorm.model 7 ZeroNorm.ratings 5 = Ok [(2%Z, 1%float); (1%Z, 0%float)] ∧
  recommend_low_memory ZeroNorm.model 7 ZeroNorm.ratings 5 = Ok [(2%Z, 1%float)].
Proof. repeat split; vm_compute; reflexivity. Qed.

(** C4 (failing input): a request for [n = -1] recommendations returns all
    scored candidates but the last one, in either mode. *)
Theorem negative_n_not_empty :
  (∃ s3, recommend_low_memory Scenario2.model 7 Scenario2.ratings (-1) = Ok [(3%Z, s3)]) ∧
  recommend ZeroNorm.model 7 ZeroNorm.ratings (-1) = Ok [(2%Z, 1%float)].
Proof.
  split; [eexists|]; vm_compute; reflexivity.
Qed.

(** ** [_prepare_embeddings] *)

Lemma index_dict_snoc (keys : list Z) (a : Z) :
  Py.index_dict (keys ++ [a]) = <[a := length keys]> (Py.index_dict keys).
Proof.
  unfold Py.index_dict. rewrite imap_app, foldl_app. simpl.
  by rewrite Nat.add_0_r.
Qed.

(** The index dict sends an id to the last position that holds it. *)
Lemma index_dict_lookup (keys : list Z) (a : Z) (i : nat) :
  Py.index_dict keys !! a = Some i ↔
  keys !! i = Some a ∧ ∀ j, i < j → keys !! j ≠ Some a.
Proof.
  revert i. induction keys as [|b keys IH] using rev_ind; intros i.
  - unfold Py.index_dict. simpl. rewrite lookup_empty. split; [done|].
    by intros [H _].
  - rewrite index_dict_snoc. destruct (decide (b = a)) as [->|Hne].
    + rewrite lookup_insert_eq. split.
      * intros [= <-]. split; [by apply list_lookup_middle|].
        intros j Hj. rewrite lookup_ge_None_2; [done|]. rewrite length_app. simpl. lia.
      * intros [Hi Hlast]. f_equal.
        destruct (decide (i = length keys)) as [|Hi']; [done|]. exfalso.
        apply (Hlast (length keys)); [|by apply list_lookup_middle].
        apply lookup_lt_Some in Hi. rewrite length_app in Hi. simpl in Hi. lia.
    + rewrite lookup_insert_ne by done. rewrite IH. split.
      * intros [Hi Hlast]. split; [by apply lookup_app_l_Some|].
        intros j Hj Hj'. apply lookup_snoc_Some in Hj' as [[_ ?]|[_ ?]]; [|done].
        by apply (Hlast j).
      * intros [Hi Hlast]. apply lookup_snoc_Some in Hi as [[Hlt Hi]|[_ ?]]; [|done].
        split; [done|]. intros j Hj Hj'. apply (Hlast j Hj).
        by apply lookup_app_l_Some.
Qed.

Lemma forallb_false_elem {A : Type} (f : A → bool) (l : list A) :
  forallb f l = false → ∃ x, x ∈ l ∧ f x = false.
Proof.
  induction l as [|x l IH]; simpl; [done|].
  destruct (f x) eqn:Hx; simpl.
  - intros (y & Hy & Hfy)%IH. exists y. split; [by right | done].
  - intros _. exists x. split; [by left | done].
Qed.

Lemma vstack_Raise (vs : list Np.vec) (e : exn) :
  Np.vstack vs = Raise e →
  e = ValueError ∧
  (vs = [] ∨ ∃ v w, v ∈ vs ∧ w ∈ vs ∧ length v ≠ length w).
Proof.
  unfold Np.vstack. destruct vs as [|v vs]; [intros [= <-]; by split; [|left]|].
  destruct (forallb _ _) eqn:Hall; [done|]. intros [= <-]. split; [done|]. right.
  apply forallb_false_elem in Hall as (w & Hw & Hlen).
  exists w, v. split; [done|]. split; [by left|].
  by apply Nat.eqb_neq in Hlen.
Qed.

Lemma vstack_ragged (vs : list Np.vec) :
  vs = [] ∨ (∃ v w, v ∈ vs ∧ w ∈ vs ∧ length v ≠ length w) →
  Np.vstack vs = Raise ValueError.
Proof.
  unfold Np.vstack. intros [->|(v & w & Hv & Hw & Hlen)]; [done|].
  destruct vs as [|h vs]; [done|].
  destruct (forallb _ _) eqn:Hall; [|done]. exfalso. apply Hlen.
  rewrite forallb_forall in Hall.
  apply list_elem_of_In, Hall, Nat.eqb_eq in Hv.
  apply list_elem_of_In, Hall, Nat.eqb_eq in Hw. congruence.
Qed.

(** What [_prepare_embeddings] returns carries the mapping of its id list. *)
Lemma prepare_embeddings_indices source df_articles ids matrix indices :
  DataLoader._prepare_embeddings source df_articles = Ok (ids, matrix, indices) →
  indices = Py.index_dict ids.
Proof.
  unfold DataLoader._prepare_embeddings.
  destruct source as [items|index values|matrix']; simpl.
  - destruct (Np.vstack items.*2); simpl; [|done]. by intros [= <- _ <-].
  - destruct (DataLoader.astype_int index); simpl; [|done]. by intros [= <- _ <-].
  - by intros [= <- _ <-].
Qed.

(** C2 (as amended): building the embedding table rejects neither a repeated
    article id nor a positional matrix with fewer rows than article ids, and
    knows no [DataIntegrityError]. A row-labelled source whose labels convert
    to integers builds a table, whatever ids repeat; a positional source
    builds a table, whatever ids repeat and however many rows the matrix has;
    the id-to-index mapping of a table sends an id to the last position that
    holds it; vectors of different lengths, which only an id-keyed mapping
    can hold, make the build fail, with numpy's [ValueError]. *)
Theorem prepare_embeddings_unchecked source df_articles :
  (∀ index values ids, source = DataLoader.SDataFrame index values →
     DataLoader.astype_int index = Ok ids →
     DataLoader._prepare_embeddings source df_articles =
       Ok (ids, values, Py.index_dict ids)) ∧
  (∀ matrix, source = DataLoader.SMatrix matrix →
     DataLoader._prepare_embeddings source df_articles =
       Ok (df_articles, matrix, Py.index_dict df_articles)) ∧
  (∀ items, source = DataLoader.SDict items →
     (∃ v w, v ∈ items.*2 ∧ w ∈ items.*2 ∧ length v ≠ length w) →
     DataLoader._prepare_embeddings source df_articles = Raise ValueError) ∧
  (∀ ids matrix indices,
     DataLoader._prepare_embeddings source df_articles = Ok (ids, matrix, indices) →
     ∀ a i, indices !! a = Some i ↔
            ids !! i = Some a ∧ ∀ j, i < j → ids !! j ≠ Some a).
Proof.
  split; [|split; [by intros matrix ->|split]].
  - intros index values ids -> Hids. unfold DataLoader._prepare_embeddings.
    by rewrite Hids.
  - intros items -> Hwhy. unfold DataLoader._prepare_embeddings.
    rewrite vstack_ragged; [done|]. by right.
  - intros ids matrix indices H a i.
    rewrite (prepare_embeddings_indices _ _ _ _ _ H). apply index_dict_lookup.
Qed.

(** C2 (counterexample): a source with a repeated article id and a positional
    source with fewer rows than article ids both build a table. *)
Lemma invalid_sources_build_a_table :
  (¬ NoDup [1; 1]%Z ∧
   DataLoader._prepare_embeddings Sources.duplicated [] =
     Ok ([1; 1]%Z, Sources.two_rows, {[ 1%Z := 1 ]})) ∧
  (length (Np.rows Sources.two_rows) < length Sources.three_ids ∧
   DataLoader._prepare_embeddings Sources.short Sources.three_ids =
     Ok (Sources.three_ids, Sources.two_rows, Py.index_dict Sources.three_ids)).
Proof.
  split; split.
  - intros Hnd. apply NoDup_cons in Hnd as [Hnin _]. apply Hnin. by left.
  - vm_compute. reflexivity.
  - simpl. lia.
  - reflexivity.
Qed.

(** ** [_prepare_ratings] *)

(** Comparing two floats in the other order gives the opposite answer. *)
Lemma SFcompare_antisym (x y : spec_float) :
  SFcompare y x = option_map CompOpp (SFcompare x y).
Proof.
  destruct x as [sx|sx| |sx mx ex], y as [sy|sy| |sy my ey]; simpl; try done;
    try (by destruct sx); try (by destruct sy); try (by destruct sx, sy).
  destruct sx, sy; simpl; try done.
  - rewrite (Z.compare_antisym ey ex). destruct (ey ?= ex)%Z; simpl; try done.
    fold (Pos.compare mx my). fold (Pos.compare my mx).
    rewrite (Pos.compare_antisym my mx). by destruct (my ?= mx)%positive.
  - rewrite (Z.compare_antisym ey ex). destruct (ey ?= ex)%Z; simpl; try done.
    fold (Pos.compare mx my). fold (Pos.compare my mx).
    rewrite (Pos.compare_antisym my mx). by destruct (my ?= mx)%positive.
Qed.

Lemma not_nan_spec (x : float) :
  PrimFloat.is_nan x = false → Prim2SF x ≠ S754_nan.
Proof.
  unfold PrimFloat.is_nan. rewrite FloatAxioms.eqb_spec. intros H Hnan.
  unfold SFeqb in H. rewrite Hnan in H. discriminate H.
Qed.

Lemma SFcompare_is_Some (x y : spec_float) :
  x ≠ S754_nan → y ≠ S754_nan → ∃ c, SFcompare x y = Some c.
Proof. intros Hx Hy. destruct x, y; try done; simpl; eauto. Qed.

(** For two floats that are numbers, [x > y] is the failure of [x <= y]. *)
Lemma above_gt (x y : float) :
  PrimFloat.is_nan x = false → PrimFloat.is_nan y = false →
  ImplicitRatingDeriver.above x y = negb (PrimFloat.leb x y).
Proof.
  intros Hx%not_nan_spec Hy%not_nan_spec. unfold ImplicitRatingDeriver.above.
  rewrite FloatAxioms.ltb_spec, FloatAxioms.leb_spec. unfold SFltb, SFleb.
  rewrite (SFcompare_antisym (Prim2SF x) (Prim2SF y)).
  destruct (SFcompare_is_Some _ _ Hx Hy) as [c ->]. by destruct c.
Qed.

(** On a log measure and a high threshold that are numbers, the chain of
    tests of the code is the rule of the specification. *)
Lemma rate_rating_of (q25 q75 x : float) :
  PrimFloat.is_nan x = false → PrimFloat.is_nan q75 = false →
  DataLoader.rate q25 q75 x = ImplicitRatingDeriver.rating_of q25 q75 x.
Proof.
  intros Hx Hq. unfold DataLoader.rate, ImplicitRatingDeriver.rating_of.
  rewrite (above_gt x q75 Hx Hq).
  destruct (PrimFloat.leb x q25); [done|]. by destruct (PrimFloat.leb x q75).
Qed.

Section PrepareRatings.
Variable log1p : float → float.
Variable quantile : list float → float → float.

(** The frame after [to_numeric], [dropna] and [log1p] holds the
    interactions that carry a measure, each with its [log_measure]. *)
Lemma log_column_spec (df_clicks : list DataLoader.click_row) :
  (λ p : DataLoader.click_row * float, (p.1, log1p p.2)) <$>
    filter (λ p : DataLoader.click_row * float, PrimFloat.is_nan p.2 = false)
      ((λ r, (r, DataLoader.to_numeric (DataLoader.session_size r))) <$> df_clicks) =
  ImplicitRatingDeriver.log_measures log1p df_clicks.
Proof.
  induction df_clicks as [|r rows IH]; [done|].
  rewrite fmap_cons. simpl ImplicitRatingDeriver.log_measures.
  unfold ImplicitRatingDeriver.measure.
  destruct (DataLoader.session_size r) as [x| |]; simpl DataLoader.to_numeric.
  - destruct (PrimFloat.is_nan x) eqn:Hx.
    + rewrite filter_cons_False by (simpl; congruence). exact IH.
    + rewrite filter_cons_True by done. rewrite fmap_cons. by rewrite IH.
  - rewrite filter_cons_False by (by vm_compute). exact IH.
  - rewrite filter_cons_False by (by vm_compute). exact IH.
Qed.

(** C7 (as amended): rows whose measure is missing or not a number emit
    nothing; each remaining row gives one rating row with its user and
    article and gets [log_measure = log1p(measure)]; the 25th and 75th
    percentiles are taken once over the log measures of all remaining rows;
    and, when [p75] is a number, every row whose [log_measure] is a number
    is rated 1 when [log_measure ≤ p25], 3 when [log_measure > p75] and 2
    otherwise. When every [log_measure] is a number the result is the
    derivation of the specification. *)
Theorem prepare_ratings_derive (df_clicks : list DataLoader.click_row) :
  let kept := ImplicitRatingDeriver.log_measures log1p df_clicks in
  let p25 := quantile kept.*2 0.25%float in
  let p75 := quantile kept.*2 0.75%float in
  PrimFloat.is_nan p75 = false →
  Forall2 (λ (r : rating_row) (p : DataLoader.click_row * float),
             user_id r = DataLoader.click_user_id p.1 ∧
             article_id r = DataLoader.click_article_id p.1 ∧
             (PrimFloat.is_nan p.2 = false →
              rating r = ImplicitRatingDeriver.rating_of p25 p75 p.2))
          (DataLoader._prepare_ratings log1p quantile df_clicks) kept ∧
  (Forall (λ p : DataLoader.click_row * float, PrimFloat.is_nan p.2 = false) kept →
   DataLoader._prepare_ratings log1p quantile df_clicks =
   ImplicitRatingDeriver.derive log1p quantile df_clicks).
Proof.
  intros kept p25 p75 Hp75.
  unfold DataLoader._prepare_ratings, ImplicitRatingDeriver.derive.
  rewrite log_column_spec. fold kept. fold p25. fold p75. split.
  - apply Forall2_fmap_l, Forall_Forall2_diag, Forall_forall.
    intros p _. simpl. split; [done|]. split; [done|].
    intros Hx. by apply rate_rating_of.
  - intros Hall. apply Forall_fmap_ext_1. eapply Forall_impl; [exact Hall|].
    intros p Hx. simpl. f_equal. by apply rate_rating_of.
Qed.

End PrepareRatings.

(** C7 (counterexample): a click with session size -2 has a log measure that
    is not a number; it is not dropped, the code rates it 3, and the rule of
    the claim ([> p75] gives 3, otherwise 2) rates it 2. *)
Lemma nan_log_measure_rated_three :
  PrimFloat.is_nan (BelowMinusOne.log1p (-2)) = true ∧
  rating <$> DataLoader._prepare_ratings BelowMinusOne.log1p BelowMinusOne.quantile
               BelowMinusOne.clicks = [3; 1; 2; 2; 3]%Z ∧
  rating <$> ImplicitRatingDeriver.derive BelowMinusOne.log1p BelowMinusOne.quantile
               BelowMinusOne.clicks = [2; 1; 2; 2; 3]%Z.
Proof. repeat split; vm_compute; reflexivity. Qed.

(** The sample clicks: every log measure and [p75] are numbers, and the
    ratings are those of the specification's derivation. *)
Lemma prepare_ratings_derive_witness :
  DataLoader._prepare_ratings Sample.log1p Sample.quantile Sample.clicks =
    ImplicitRatingDeriver.derive Sample.log1p Sample.quantile Sample.clicks ∧
  rating <$> DataLoader._prepare_ratings Sample.log1p Sample.quantile Sample.clicks =
    [3; 1; 2; 2; 2; 3; 1; 2]%Z.
Proof.
  split; [|vm_compute; reflexivity].
  apply (prepare_ratings_derive Sample.log1p Sample.quantile Sample.clicks).
  - vm_compute. reflexivity.
  - vm_compute. repeat constructor.
Defined.

(** * Further properties of the code *)

(** ** Order and size of an answer *)

Lemma ltb_asym (x y : float) :
  PrimFloat.ltb x y = true → PrimFloat.ltb y x = false.
Proof.
  rewrite !FloatAxioms.ltb_spec. unfold SFltb.
  rewrite (SFcompare_antisym (Prim2SF x) (Prim2SF y)).
  destruct (SFcompare (Prim2SF x) (Prim2SF y)) as [[]|]; simpl; done.
Qed.

Lemma insert_desc_HdRel (y x : Z * float) (l : list (Z * float)) :
  not_below y x → HdRel not_below y l → HdRel not_below y (Py.insert_desc x l).
Proof.
  intros Hyx Hyl. destruct l as [|z l]; simpl; [by constructor|].
  destruct (PrimFloat.ltb x.2 z.2); constructor; [|done].
  by inversion Hyl.
Qed.

Lemma insert_desc_Sorted (x : Z * float) (l : list (Z * float)) :
  Sorted not_below l → Sorted not_below (Py.insert_desc x l).
Proof.
  induction 1 as [|y l Hl IH Hy]; simpl; [by repeat constructor|].
  destruct (PrimFloat.ltb x.2 y.2) eqn:Hxy.
  - constructor; [done|]. apply insert_desc_HdRel; [|done]. by apply ltb_asym.
  - constructor; [by constructor|]. by constructor.
Qed.

Lemma sort_desc_Sorted (l : list (Z * float)) : Sorted not_below (Py.sort_desc l).
Proof.
  induction l as [|x l IH]; simpl; [constructor|]. by apply insert_desc_Sorted.
Qed.

Lemma Sorted_take {A : Type} (R : relation A) (n : nat) (l : list A) :
  Sorted R l → Sorted R (take n l).
Proof.
  intros Hl. revert n. induction Hl as [|x l Hl IH Hx]; intros [|n]; simpl;
    try constructor; [apply IH|].
  destruct Hx as [|y l' Hxy]; destruct n; simpl; by constructor.
Qed.

Lemma Sorted_descending (l : list (Z * float)) : Sorted not_below l → descending l.
Proof.
  induction 1 as [|x l Hl IH Hx]; intros i a b Ha Hb; [done|].
  destruct i as [|i]; simpl in *.
  - injection Ha as <-. destruct Hx as [|y l' Hxy]; [done|].
    simpl in Hb. by injection Hb as <-.
  - by eapply IH.
Qed.

Lemma top_n_descending (n : Z) (scores : list (Z * float)) :
  descending (Py.slice_to n (Py.sort_desc scores)).
Proof.
  apply Sorted_descending. unfold Py.slice_to.
  destruct (0 <=? n)%Z; apply Sorted_take, sort_desc_Sorted.
Qed.

Lemma slice_to_nil {A : Type} (n : Z) : Py.slice_to n ([] : list A) = [].
Proof. unfold Py.slice_to. destruct (0 <=? n)%Z; apply take_nil. Qed.

Lemma recommend_batched_top_n batch_size self uid ratings_df n out :
  recommend_batched batch_size self uid ratings_df n = Ok out →
  ∃ scores, out = Py.slice_to n (Py.sort_desc scores).
Proof.
  unfold recommend_batched. destruct (user_profiles self !! uid) as [profile|].
  - intros H. inv_bind H. injection H as <-. by eexists.
  - intros [= <-]. exists []. symmetry. apply (slice_to_nil n).
Qed.

Lemma recommend_low_memory_top_n self uid ratings_df n out :
  recommend_low_memory self uid ratings_df n = Ok out →
  ∃ scores, out = Py.slice_to n (Py.sort_desc scores).
Proof.
  unfold recommend_low_memory. destruct (user_profiles self !! uid) as [profile|].
  - intros H. inv_bind H. injection H as <-. by eexists.
  - intros [= <-]. exists []. symmetry. apply (slice_to_nil n).
Qed.

(** X1: in either mode the answer is ordered by score: no entry has a lower
    score than the entry that follows it. *)
Theorem answer_is_descending self uid ratings_df n out :
  recommend self uid ratings_df n = Ok out ∨
    recommend_low_memory self uid ratings_df n = Ok out →
  descending out.
Proof.
  intros [(scores & ->)%recommend_batched_top_n|(scores & ->)%recommend_low_memory_top_n];
    apply top_n_descending.
Qed.

(** Scenario 2: article 3 (score 0.894) comes before article 4 (score -0.949). *)
Lemma answer_is_descending_witness :
  ∃ out, recommend_low_memory Scenario2.model 7 Scenario2.ratings 2 = Ok out ∧
         length out = 2 ∧ descending out.
Proof.
  eexists. split; [vm_compute; reflexivity|]. split; [reflexivity|].
  apply (answer_is_descending Scenario2.model 7 Scenario2.ratings 2).
  right. vm_compute. reflexivity.
Defined.

(** ** The articles an answer can hold *)

Lemma sublist_filter_Forall {A : Type} (P : A → Prop) `{∀ x, Decision (P x)}
    (l k : list A) :
  l `sublist_of` k → Forall P l → l `sublist_of` filter P k.
Proof.
  induction 1 as [|x l k Hlk IH|x l k Hlk IH]; intros Hl.
  - constructor.
  - apply Forall_cons in Hl as [Hx Hl]. rewrite filter_cons_True by done.
    by apply sublist_skip, IH.
  - destruct (decide (P x)).
    + rewrite filter_cons_True by done. by apply sublist_cons, IH.
    + rewrite filter_cons_False by done. by apply IH.
Qed.

Lemma submseteq_NoDup {A : Type} (l k : list A) : l ⊆+ k → NoDup k → NoDup l.
Proof.
  intros [k' Hk]%submseteq_Permutation Hnd. rewrite Hk in Hnd.
  by apply NoDup_app in Hnd as [? _].
Qed.

(** The ids of the top [n] of a list of scores form a sub-multiset of the ids
    of the list. *)
Lemma top_n_ids_submseteq (n : Z) (scores : list (Z * float)) :
  (Py.slice_to n (Py.sort_desc scores)).*1 ⊆+ scores.*1.
Proof.
  transitivity ((Py.sort_desc scores).*1).
  - apply sublist_submseteq, fmap_sublist. unfold Py.slice_to.
    destruct (0 <=? n)%Z; apply sublist_take.
  - apply Permutation_submseteq, fmap_Permutation, sort_desc_perm.
Qed.

(** The inner loop of a batch appends scores for ids taken, in order, from
    the positions [i + a .. i + a + m - 1] of the table. *)
Lemma emit_loop_sublist self (excluded : gset Z) i (sims : list float) m k
    (scores scores' : list (Z * float)) :
  foldM
    (λ scores j,
       aid ← Py.index (article_ids self) (i + j);
       if decide (aid ∉ excluded) then
         s ← Py.index sims j; Ok (scores ++ [(aid, s)])
       else Ok scores)
    scores (seq k m) = Ok scores' →
  ∃ emitted, scores' = scores ++ emitted ∧
             emitted.*1 `sublist_of` take m (drop (i + k) (article_ids self)).
Proof.
  revert k scores. induction m as [|m IH]; intros k scores H.
  - injection H as <-. exists []. split; [by rewrite app_nil_r | constructor].
  - simpl seq in H. rewrite foldM_cons in H. inv_bind H. inv_bind Ha.
    unfold Py.index in Ha0.
    destruct (article_ids self !! (i + k)) as [aid|] eqn:Hid; [|done].
    injection Ha0 as <-. rewrite (drop_S _ _ _ Hid). simpl take.
    destruct (decide (aid ∉ excluded)).
    + inv_bind Ha. injection Ha as <-.
      apply IH in H as (emitted & -> & Hsub). exists ((aid, a0) :: emitted).
      split; [by rewrite <- app_assoc|]. rewrite fmap_cons. simpl.
      apply sublist_skip. by rewrite <- Nat.add_succ_r.
    + injection Ha as <-.
      apply IH in H as (emitted & -> & Hsub). exists emitted. split; [done|].
      apply sublist_cons. by rewrite <- Nat.add_succ_r.
Qed.

Lemma forM_length {A B : Type} (f : A → result B) (l : list A) (k : list B) :
  forM f l = Ok k → length k = length l.
Proof.
  revert k. induction l as [|x l IH]; intros k H; simpl in H.
  - by injection H as <-.
  - inv_bind H. inv_bind H. injection H as <-. simpl. f_equal. by apply IH.
Qed.

Lemma score_batch_sublist batch_size self u excluded scores i scores' :
  score_batch batch_size self u excluded scores i = Ok scores' →
  ∃ emitted, scores' = scores ++ emitted ∧
             emitted.*1 `sublist_of` take batch_size (drop i (article_ids self)).
Proof.
  unfold score_batch. intros H. inv_bind H.
  destruct a as [|idx idxs].
  { injection H as <-. exists []. split; [by rewrite app_nil_r | apply sublist_nil_l]. }
  inv_bind H. inv_bind H. inv_bind H. unfold emit_batch in H.
  apply emit_loop_sublist in H as (emitted & -> & Hsub).
  exists emitted. split; [done|]. rewrite Nat.add_0_r in Hsub.
  etrans; [exact Hsub|].
  apply forM_length in Ha.
  set (l := drop i (article_ids self)) in *.
  assert (length (idx :: idxs) ≤ length (take batch_size l)) as Hlen.
  { rewrite Ha. apply length_filter. }
  rewrite length_take in Hlen.
  replace (take (length (idx :: idxs)) l)
    with (take (length (idx :: idxs)) (take batch_size l)).
  - apply sublist_take.
  - rewrite take_take. f_equal. lia.
Qed.

Lemma batches_sublist batch_size self u excluded m a scores scores' :
  foldM (score_batch batch_size self u excluded) scores
    ((λ k, k * batch_size) <$> seq a m) = Ok scores' →
  ∃ emitted, scores' = scores ++ emitted ∧
             emitted.*1 `sublist_of` drop (a * batch_size) (article_ids self).
Proof.
  revert a scores. induction m as [|m IH]; intros a scores H.
  - injection H as <-. exists []. split; [by rewrite app_nil_r | apply sublist_nil_l].
  - simpl seq in H. rewrite fmap_cons, foldM_cons in H. inv_bind H.
    apply score_batch_sublist in Ha as (e1 & -> & H1).
    apply IH in H as (e2 & -> & H2). exists (e1 ++ e2).
    split; [by rewrite <- app_assoc|]. rewrite fmap_app.
    rewrite <- (take_drop batch_size (drop (a * batch_size) (article_ids self))).
    apply sublist_app; [done|]. rewrite drop_drop.
    by replace (a * batch_size + batch_size) with (S a * batch_size) by lia.
Qed.

Lemma omap_score_sublist self u excluded ids :
  (omap (SimilarityRanker.score self u excluded) ids).*1 `sublist_of`
    filter (λ a, a ∉ excluded) ids.
Proof.
  induction ids as [|aid ids IH]; [constructor|]. simpl omap.
  unfold SimilarityRanker.score at 1.
  destruct (decide (aid ∈ excluded)) as [Hin|Hout].
  - rewrite filter_cons_False by (by intros ?). exact IH.
  - rewrite filter_cons_True by done.
    destruct (SimilarityRanker.cosine u _); simpl.
    + by apply sublist_skip.
    + by apply sublist_cons.
Qed.

Lemma avoids_Forall excluded (scores : list (Z * float)) :
  avoids excluded scores → Forall (λ a, a ∉ excluded) scores.*1.
Proof.
  intros Hav. apply Forall_forall. intros aid Haid.
  apply list_elem_of_fmap in Haid as ([aid' s] & -> & Hin). by eapply Hav.
Qed.

(** For any batch size, the ids of the answer of the batched loop form a
    sub-multiset of the articles of the table that are not excluded. *)
Lemma recommend_batched_ids batch_size self uid ratings_df n out :
  recommend_batched batch_size self uid ratings_df n = Ok out →
  out.*1 ⊆+ filter (λ a, a ∉ user_articles ratings_df uid) (article_ids self).
Proof.
  unfold recommend_batched. destruct (user_profiles self !! uid) as [profile|].
  - intros H. inv_bind H. injection H as <-. etrans; [apply top_n_ids_submseteq|].
    apply sublist_submseteq, sublist_filter_Forall.
    + unfold Py.range in Ha. apply batches_sublist in Ha as (emitted & -> & Hsub).
      by rewrite app_nil_l.
    + apply avoids_Forall.
      eapply (foldM_invariant (avoids _)); [| |exact Ha].
      * intros. by eapply score_batch_avoids.
      * intros x s Hx. by apply elem_of_nil in Hx.
  - intros [= <-]. apply submseteq_nil_l.
Qed.

Lemma recommend_low_memory_ids self uid ratings_df n out :
  recommend_low_memory self uid ratings_df n = Ok out →
  out.*1 ⊆+ filter (λ a, a ∉ user_articles ratings_df uid) (article_ids self).
Proof.
  intros H%recommend_low_memory_spec.
  destruct (user_profiles self !! uid) as [profile|]; subst out.
  - etrans; [apply top_n_ids_submseteq|].
    apply sublist_submseteq, omap_score_sublist.
  - apply submseteq_nil_l.
Qed.

(** X2: in either mode every article of the answer is an article of the
    table, and when the ids of the table are distinct no article is listed
    twice. *)
Theorem answer_lists_table_articles_once self uid ratings_df n out :
  recommend self uid ratings_df n = Ok out ∨
    recommend_low_memory self uid ratings_df n = Ok out →
  (∀ a s, (a, s) ∈ out → a ∈ article_ids self) ∧
  (NoDup (article_ids self) → NoDup out.*1).
Proof.
  intros Hout.
  assert (out.*1 ⊆+ filter (λ a, a ∉ user_articles ratings_df uid) (article_ids self))
    as Hsub.
  { destruct Hout as [H|H];
      [by eapply recommend_batched_ids | by eapply recommend_low_memory_ids]. }
  split.
  - intros a s Hin.
    assert (a ∈ out.*1) as Ha by (apply list_elem_of_fmap; by exists (a, s)).
    eapply elem_of_submseteq in Ha; [|exact Hsub].
    by apply list_elem_of_filter in Ha as [_ ?].
  - intros Hnd. eapply submseteq_NoDup; [exact Hsub|]. by apply NoDup_filter.
Qed.

(** X3: for a request size that is not negative, either mode returns at most
    [n] entries and at most as many as the table has articles that are not
    excluded. *)
Theorem answer_length_bound self uid ratings_df n out :
  recommend self uid ratings_df n = Ok out ∨
    recommend_low_memory self uid ratings_df n = Ok out →
  (0 ≤ n)%Z →
  length out ≤
    Nat.min (Z.to_nat n)
      (length (filter (λ a, a ∉ user_articles ratings_df uid) (article_ids self))).
Proof.
  intros Hout Hn. apply Nat.min_glb.
  - destruct Hout as [(scores & ->)%recommend_batched_top_n
                     |(scores & ->)%recommend_low_memory_top_n];
      rewrite slice_to_length_nonneg by done; lia.
  - rewrite <- (length_fmap fst out). apply submseteq_length.
    destruct Hout as [H|H];
      [by eapply recommend_batched_ids | by eapply recommend_low_memory_ids].
Qed.

(** Scenario 2: the two returned articles are articles 3 and 4 of the table. *)
Lemma answer_lists_table_articles_once_witness :
  ∃ out, recommend_low_memory Scenario2.model 7 Scenario2.ratings 2 = Ok out ∧
         (∀ a s, (a, s) ∈ out → a ∈ article_ids Scenario2.model) ∧
         NoDup out.*1.
Proof.
  eexists. split; [vm_compute; reflexivity|].
  destruct (answer_lists_table_articles_once Scenario2.model 7 Scenario2.ratings 2 _
              (or_intror eq_refl)) as [Hin Hnd].
  split; [exact Hin|]. apply Hnd.
  apply (bool_decide_unpack _). vm_compute. exact I.
Defined.

(** The zero-norm table: one article is excluded, two remain, five are
    asked for. *)
Lemma answer_length_bound_witness :
  ∃ out, recommend ZeroNorm.model 7 ZeroNorm.ratings 5 = Ok out ∧ length out ≤ 2.
Proof.
  eexists. split; [vm_compute; reflexivity|].
  apply (answer_length_bound ZeroNorm.model 7 ZeroNorm.ratings 5 _ (or_introl eq_refl)).
  lia.
Defined.

(** ** Exceptions of the two modes *)

Lemma foldM_Raise {A S : Type} (f : S → A → result S) (l : list A) (s : S) (e : exn) :
  foldM f s l = Raise e → ∃ s0 x, x ∈ l ∧ f s0 x = Raise e.
Proof.
  revert s. induction l as [|x l IH]; intros s H; [done|].
  rewrite foldM_cons in H. destruct (f s x) as [s1|e1] eqn:Hx.
  - apply IH in H as (s0 & y & Hy & Hf). exists s0, y. split; [by right | done].
  - injection H as <-. exists s, x. split; [by left | done].
Qed.

Lemma foldM_total {A S : Type} (f : S → A → result S) (l : list A) (s : S) :
  (∀ s0 x, x ∈ l → ∃ s1, f s0 x = Ok s1) → ∃ s', foldM f s l = Ok s'.
Proof.
  revert s. induction l as [|x l IH]; intros s Hf; [by eexists|].
  rewrite foldM_cons. destruct (Hf s x) as [s1 ->]; [by left|].
  apply IH. intros s0 y Hy. apply Hf. by right.
Qed.

Lemma forM_Forall2 {A B : Type} (f : A → result B) (l : list A) (k : list B) :
  forM f l = Ok k → Forall2 (λ x y, f x = Ok y) l k.
Proof.
  revert k. induction l as [|x l IH]; intros k H; simpl in H.
  - injection H as <-. constructor.
  - inv_bind H. inv_bind H. injection H as <-. constructor; [done | by apply IH].
Qed.

Lemma forM_total {A B : Type} (f : A → result B) (l : list A) :
  (∀ x, x ∈ l → ∃ y, f x = Ok y) → ∃ k, forM f l = Ok k.
Proof.
  induction l as [|x l IH]; intros Hf; [by eexists|]. simpl.
  destruct (Hf x) as [y ->]; [by left|].
  destruct IH as [k ->]; [intros z Hz; apply Hf; by right|]. by eexists.
Qed.

Lemma score_one_total self u excluded scores aid :
  table_consistent self → aid ∈ article_ids self →
  ∃ scores', score_one self u excluded scores aid = Ok scores'.
Proof.
  intros Hc Haid. unfold score_one.
  destruct (decide (aid ∈ excluded)); [by eexists|].
  destruct (Hc aid Haid) as (idx & Hidx & Hlt).
  unfold Py.getitem. rewrite Hidx. simpl.
  apply lookup_lt_is_Some_2 in Hlt as [v Hv].
  unfold Np.row, Py.index. rewrite Hv. simpl.
  destruct (_ && _); by eexists.
Qed.

(** What [cosine_similarity] returns has one row per row of [X] and one
    column per row of [Y]; what it raises is a [ValueError]. *)
Lemma cosine_similarity_Ok X Y K :
  Sklearn.cosine_similarity X Y = Ok K →
  length K = length X ∧ Forall (λ row, length row = length Y) K.
Proof.
  unfold Sklearn.cosine_similarity. intros H. inv_bind H. inv_bind H.
  injection H as <-. split; [by rewrite length_fmap|].
  apply Forall_fmap, Forall_forall. intros x _. simpl. by rewrite length_fmap.
Qed.

Lemma cosine_similarity_Raise X Y e :
  Sklearn.cosine_similarity X Y = Raise e → e = ValueError.
Proof.
  unfold Sklearn.cosine_similarity, Sklearn.check_array.
  repeat (destruct (_ && _); simpl); by intros [= <-].
Qed.

Lemma emit_loop_total self (excluded : gset Z) i (sims : list float) m k
    (scores : list (Z * float)) :
  i + k + m ≤ length (article_ids self) → k + m ≤ length sims →
  ∃ scores',
    foldM
      (λ scores j,
         aid ← Py.index (article_ids self) (i + j);
         if decide (aid ∉ excluded) then
           s ← Py.index sims j; Ok (scores ++ [(aid, s)])
         else Ok scores)
      scores (seq k m) = Ok scores'.
Proof.
  intros Hids Hsims. apply foldM_total. intros s0 j Hj.
  apply elem_of_seq in Hj.
  destruct (lookup_lt_is_Some_2 (article_ids self) (i + j)) as [aid Haid]; [lia|].
  destruct (lookup_lt_is_Some_2 sims j) as [s Hs]; [lia|].
  unfold Py.index. rewrite Haid. simpl. destruct (decide _); [|by eexists].
  rewrite Hs. by eexists.
Qed.

(** On a consistent table a batch fails with [ValueError] or not at all. *)
Lemma score_batch_Raise batch_size self u excluded scores i e :
  table_consistent self →
  score_batch batch_size self u excluded scores i = Raise e → e = ValueError.
Proof.
  intros Hc. unfold score_batch.
  set (batch_ids := take batch_size (drop i (article_ids self))).
  set (kept := filter (λ aid, aid ∉ excluded) batch_ids).
  assert (∀ aid, aid ∈ kept → aid ∈ article_ids self) as Hkept.
  { intros aid [_ Hin]%list_elem_of_filter.
    eapply elem_of_sublist; [exact Hin|].
    etrans; [apply sublist_take | apply sublist_drop]. }
  destruct (forM_total (Py.getitem (article_indices self)) kept) as [idxs Hidxs].
  { intros aid Haid. destruct (Hc aid (Hkept _ Haid)) as (idx & Hidx & _).
    unfold Py.getitem. rewrite Hidx. by eexists. }
  rewrite Hidxs. simpl. destruct idxs as [|idx0 idxs']; [done|].
  set (idxs := idx0 :: idxs') in *.
  destruct (forM_total (Np.row (embeddings self)) idxs) as [rows Hrows].
  { intros idx Hidx. apply forM_Forall2 in Hidxs.
    apply list_elem_of_lookup in Hidx as [p Hp].
    destruct (Forall2_lookup_r _ _ _ _ _ Hidxs Hp) as (aid & Haid & Hget).
    apply list_elem_of_lookup_2 in Haid.
    destruct (Hc aid (Hkept _ Haid)) as (idx' & Hidx' & Hlt).
    unfold Py.getitem in Hget. rewrite Hidx' in Hget. injection Hget as ->.
    apply lookup_lt_is_Some_2 in Hlt as [v Hv].
    unfold Np.row, Py.index. rewrite Hv. by eexists. }
  unfold Np.take_rows. rewrite Hrows. simpl.
  destruct (Sklearn.cosine_similarity [u] rows) as [K|e'] eqn:Hcos; simpl.
  2:{ intros [= <-]. by eapply cosine_similarity_Raise. }
  apply cosine_similarity_Ok in Hcos as [HK Hrow].
  destruct K as [|sims K']; [done|]. simpl.
  apply Forall_cons in Hrow as [Hsims _].
  apply forM_length in Hrows. apply forM_length in Hidxs.
  destruct (emit_loop_total self excluded i sims (length idxs) 0 scores) as [s' Hs'].
  - assert (length kept ≤ length batch_ids) by apply length_filter.
    assert (length batch_ids ≤ length (article_ids self) - i).
    { unfold batch_ids. rewrite length_take, length_drop. lia. }
    assert (1 ≤ length idxs) by (simpl; lia).
    lia.
  - lia.
  - unfold emit_batch. by rewrite Hs'.
Qed.

(** X4: when every article id of the table has an index that addresses a row
    of the matrix, the low-memory mode never raises, and the only exception
    the batched mode can raise, for any batch size, is the [ValueError] of
    scikit-learn's input validation. *)
Theorem exceptions_on_consistent_table batch_size self uid ratings_df n :
  table_consistent self →
  (∃ out, recommend_low_memory self uid ratings_df n = Ok out) ∧
  (∀ e, recommend_batched batch_size self uid ratings_df n = Raise e → e = ValueError).
Proof.
  intros Hc. split.
  - unfold recommend_low_memory. destruct (user_profiles self !! uid); [|by eexists].
    destruct (foldM_total (score_one self (vector u) (user_articles ratings_df uid))
                (article_ids self) []) as [scores ->]; [|by eexists].
    intros s0 aid Haid. by apply score_one_total.
  - intros e. unfold recommend_batched. destruct (user_profiles self !! uid); [|done].
    destruct (foldM _ _ _) as [scores|e'] eqn:Hfold; [done|]. intros [= <-].
    apply foldM_Raise in Hfold as (s0 & i & _ & Hi).
    by eapply score_batch_Raise.
Qed.

(** ** Tables built by [_prepare_embeddings] *)

Lemma index_dict_is_Some (keys : list Z) (a : Z) :
  a ∈ keys → ∃ i, Py.index_dict keys !! a = Some i.
Proof.
  induction keys as [|b keys IH] using rev_ind; [by intros ?%elem_of_nil|].
  rewrite index_dict_snoc. intros [Ha|Ha%list_elem_of_singleton]%elem_of_app.
  - destruct (decide (b = a)) as [->|Hne].
    + rewrite lookup_insert_eq. by eexists.
    + rewrite lookup_insert_ne by done. by apply IH.
  - subst b. rewrite lookup_insert_eq. by eexists.
Qed.

Lemma index_dict_lt (keys : list Z) (a : Z) (i : nat) :
  Py.index_dict keys !! a = Some i → keys !! i = Some a ∧ i < length keys.
Proof.
  intros [Hi _]%index_dict_lookup. split; [done|]. by eapply lookup_lt_Some.
Qed.

(** X12: the index built by [_prepare_embeddings] and the id list are inverse
    to each other: the index of an id, looked up in the id list, gives the id
    back, every id of the list has an index, and when the ids are distinct
    the index of the id at position [i] is [i]. *)
Theorem prepared_index_round_trip source df_articles ids matrix indices :
  DataLoader._prepare_embeddings source df_articles = Ok (ids, matrix, indices) →
  (∀ a i, indices !! a = Some i → ids !! i = Some a) ∧
  (∀ a, a ∈ ids → is_Some (indices !! a)) ∧
  (NoDup ids → ∀ a i, ids !! i = Some a → indices !! a = Some i).
Proof.
  intros ->%prepare_embeddings_indices. split; [|split].
  - intros a i Hi. by apply index_dict_lt in Hi as [? _].
  - intros a Ha. destruct (index_dict_is_Some _ _ Ha) as [i Hi]. by eexists.
  - intros Hnd a i Hi. apply index_dict_lookup. split; [done|].
    intros j Hj Hj'. assert (i = j) by (by eapply NoDup_lookup). lia.
Qed.

(** The positional source of three ids. *)
Lemma prepared_index_round_trip_witness :
  DataLoader._prepare_embeddings Sources.short Sources.three_ids =
    Ok (Sources.three_ids, Sources.two_rows, Py.index_dict Sources.three_ids) ∧
  (∀ a i, Py.index_dict Sources.three_ids !! a = Some i →
          Sources.three_ids !! i = Some a) ∧
  (∀ a, a ∈ Sources.three_ids → is_Some (Py.index_dict Sources.three_ids !! a)) ∧
  (NoDup Sources.three_ids →
   ∀ a i, Sources.three_ids !! i = Some a →
          Py.index_dict Sources.three_ids !! a = Some i).
Proof.
  split; [reflexivity|].
  apply (prepared_index_round_trip Sources.short Sources.three_ids
           Sources.three_ids Sources.two_rows (Py.index_dict Sources.three_ids)).
  reflexivity.
Defined.

Lemma built_table_consistent (ids : list Z) (matrix : Np.ndarray) :
  length ids ≤ length (Np.rows matrix) →
  table_consistent (init matrix (Py.index_dict ids) ids) ∧
  indices_in_range (init matrix (Py.index_dict ids) ids).
Proof.
  intros Hlen. split.
  - intros aid Haid. simpl in *. destruct (index_dict_is_Some _ _ Haid) as [i Hi].
    exists i. split; [done|]. apply index_dict_lt in Hi as [_ ?]. lia.
  - intros aid idx Hidx. simpl in *. apply index_dict_lt in Hidx as [_ ?]. lia.
Qed.

Lemma vstack_rows (vs : list Np.vec) (m : Np.ndarray) :
  Np.vstack vs = Ok m →
  Np.rows m = vs ∧ Forall (λ r, length r = Np.shape1 m) vs.
Proof.
  unfold Np.vstack. destruct vs as [|v vs]; [done|].
  destruct (forallb _ _) eqn:Hall; [|done]. intros [= <-]. split; [done|].
  simpl. apply Forall_forall. intros w Hw.
  rewrite forallb_forall in Hall. by apply list_elem_of_In, Hall, Nat.eqb_eq in Hw.
Qed.

Lemma fit_keeps_table self ratings_df m :
  fit self ratings_df = Ok m →
  embeddings m = embeddings self ∧ article_indices m = article_indices self ∧
  article_ids m = article_ids self.
Proof. intros (built & _ & ->)%fit_profiles. done. Qed.

(** X14: a table that [_prepare_embeddings] builds with at least as many matrix
    rows as article ids gives a recommender on which [fit] returns for every
    ratings table, after which [recommend_low_memory] returns for every
    request. *)
Theorem prepared_table_never_raises source df_articles ids matrix indices
    ratings_df uid ratings_df' n :
  DataLoader._prepare_embeddings source df_articles = Ok (ids, matrix, indices) →
  length ids ≤ length (Np.rows matrix) →
  ∃ model out,
    fit (init matrix indices ids) ratings_df = Ok model ∧
    recommend_low_memory model uid ratings_df' n = Ok out.
Proof.
  intros ->%prepare_embeddings_indices Hlen.
  destruct (built_table_consistent ids matrix Hlen) as [Hc Hr].
  destruct (fit_total _ ratings_df Hr) as [model Hfit]. exists model.
  assert (table_consistent model) as Hc'.
  { apply fit_keeps_table in Hfit as (He & Hi & Ha).
    intros aid Haid. rewrite Ha in Haid. rewrite Hi, He. by apply Hc. }
  destruct (exceptions_on_consistent_table 1000 model uid ratings_df' n Hc')
    as [[out Hout] _].
  by exists out.
Qed.

(** X13: an id-keyed mapping that [_prepare_embeddings] accepts gives a matrix
    with one row per id, all rows of the width the matrix reports. *)
Theorem prepared_dict_is_rectangular items df_articles ids matrix indices :
  DataLoader._prepare_embeddings (DataLoader.SDict items) df_articles =
    Ok (ids, matrix, indices) →
  length (Np.rows matrix) = length ids ∧
  Forall (λ r, length r = Np.shape1 matrix) (Np.rows matrix).
Proof.
  unfold DataLoader._prepare_embeddings. simpl.
  destruct (Np.vstack items.*2) as [m|] eqn:Hst; simpl; [|done].
  intros [= <- <- _]. apply vstack_rows in Hst as [-> Hw].
  split; [by rewrite !length_fmap | done].
Qed.

(** ** Users without a profile, users with the zero profile *)

Lemma fit_lookup self ratings_df m uid :
  fit self ratings_df = Ok m →
  ((∃ r, r ∈ ratings_df ∧ user_id r = uid) →
   ∃ p, fit_group self (group_of ratings_df uid) = Ok p ∧
        user_profiles m !! uid = Some p) ∧
  ((¬ ∃ r, r ∈ ratings_df ∧ user_id r = uid) →
   user_profiles m !! uid = user_profiles self !! uid).
Proof.
  rewrite fit_unfold. intros H. inv_bind H. injection H as <-. simpl.
  rewrite <- elem_of_group_keys. by apply fit_steps_lookup.
Qed.

(** X7: after [fit] on a newly constructed recommender, a user without a row
    in the fitted ratings table gets the empty answer from both modes, for
    every request size and whatever ratings table the request passes. *)
Theorem unrated_user_gets_nothing emb idx ids ratings_df m uid ratings_df' n :
  fit (init emb idx ids) ratings_df = Ok m →
  (∀ r, r ∈ ratings_df → user_id r ≠ uid) →
  recommend m uid ratings_df' n = Ok [] ∧
  recommend_low_memory m uid ratings_df' n = Ok [].
Proof.
  intros Hfit Hno.
  destruct (fit_lookup _ _ _ uid Hfit) as [_ Hout].
  assert (user_profiles m !! uid = None) as Hnone.
  { rewrite Hout; [apply lookup_empty|]. intros (r & Hr & Hu). by apply (Hno r). }
  unfold recommend, recommend_batched, recommend_low_memory. by rewrite Hnone.
Qed.

Lemma unrated_user_gets_nothing_witness :
  recommend Scenario2.model 8 Scenario2.ratings 5 = Ok [] ∧
  recommend_low_memory Scenario2.model 8 Scenario2.ratings 5 = Ok [].
Proof.
  apply (unrated_user_gets_nothing Scenario2.emb (Py.index_dict Scenario2.ids)
           Scenario2.ids Scenario2.ratings Scenario2.model 8 Scenario2.ratings 5).
  - vm_compute. reflexivity.
  - intros r Hr. repeat (apply elem_of_cons in Hr as [->|Hr]); [done..|].
    by apply elem_of_nil in Hr.
Defined.

Lemma dot_zeros (d : nat) : Np.dot (Np.zeros d) (Np.zeros d) = 0%float.
Proof.
  unfold Np.dot, Np.zeros. induction d as [|d IH]; [done|]. simpl. exact IH.
Qed.

Lemma norm_zeros (d : nat) : Np.norm (Np.zeros d) = 0%float.
Proof. unfold Np.norm. by rewrite dot_zeros. Qed.

(** X8: a user all of whose rated articles are outside the index has the
    zero vector as profile, and [recommend_low_memory] answers every request
    of that user with the empty list. *)
Theorem unindexed_user_gets_nothing self ratings_df m uid :
  fit self ratings_df = Ok m →
  (∃ r, r ∈ ratings_df ∧ user_id r = uid) →
  (∀ r, r ∈ ratings_df → user_id r = uid →
        article_indices self !! article_id r = None) →
  (∃ p, user_profiles m !! uid = Some p ∧
        vector p = Np.zeros (Np.shape1 (embeddings self))) ∧
  (∀ ratings_df' n out,
     recommend_low_memory m uid ratings_df' n = Ok out → out = []).
Proof.
  intros Hfit Hrated Hnone.
  destruct (fit_lookup _ _ _ uid Hfit) as [Hin _].
  destruct (Hin Hrated) as (p & Hp & Hlook).
  apply fit_group_unindexed in Hp.
  2:{ intros r [<- Hr]%list_elem_of_filter. by apply Hnone. }
  split; [exists p; by subst p|].
  intros ratings_df' n out Hout.
  destruct out as [|[a s] out']; [done|]. exfalso.
  destruct (recommend_low_memory_defined m uid ratings_df' n _ p a s Hlook Hout)
    as [Hnorm _]; [by left|].
  subst p. simpl in Hnorm. by rewrite norm_zeros in Hnorm.
Qed.

(** User 9 of [Unindexed]: the profile is [[0; 0]] and the answer is empty. *)
Lemma unindexed_user_gets_nothing_witness :
  (∃ p, user_profiles Unindexed.model !! 9%Z = Some p ∧ vector p = [0; 0]%float) ∧
  recommend_low_memory Unindexed.model 9 Unindexed.ratings 5 = Ok [].
Proof.
  destruct (unindexed_user_gets_nothing Scenario2.model0 Unindexed.ratings
              Unindexed.model 9) as [Hzero Hempty].
  - vm_compute. reflexivity.
  - eexists. split; [apply list_elem_of_here | reflexivity].
  - intros r ->%list_elem_of_singleton _. vm_compute. reflexivity.
  - split; [exact Hzero|].
    assert (∃ out, recommend_low_memory Unindexed.model 9 Unindexed.ratings 5 = Ok out)
      as [out Hout] by (eexists; vm_compute; reflexivity).
    rewrite Hout. f_equal. by eapply Hempty.
Defined.

(** ** [fit]: repetition, empty input, failure, weights *)

(** X9: [fit] twice with the same ratings table gives what [fit] once
    gives. *)
Theorem fit_twice_is_fit_once self ratings_df m :
  fit self ratings_df = Ok m → fit m ratings_df = Ok m.
Proof.
  intros (built & Hbuilt & ->)%fit_profiles. rewrite fit_unfold.
  change (foldM (fit_step self ratings_df) (built ∪ user_profiles self)
            (group_keys ratings_df)
            ≫= (λ profiles, Ok (set_profiles self profiles)) =
          Ok (set_profiles self (built ∪ user_profiles self))).
  rewrite <- (left_id_L ∅ (∪) (built ∪ user_profiles self)) at 1.
  rewrite fit_steps_union, Hbuilt. simpl.
  by rewrite (assoc_L (∪)), (idemp_L (∪)).
Qed.

Lemma fit_twice_is_fit_once_witness :
  fit Scenario2.model Scenario2.ratings = Ok Scenario2.model.
Proof.
  apply (fit_twice_is_fit_once Scenario2.model0 Scenario2.ratings Scenario2.model).
  vm_compute. reflexivity.
Defined.

(** [fit] on a ratings table without rows returns the recommender as it
    was. *)
Lemma fit_of_no_rating self : fit self [] = Ok self.
Proof. by destruct self. Qed.

Lemma fit_row_Raise self st r e : fit_row self st r = Raise e → e = IndexError.
Proof.
  destruct st as [[w v] t]. unfold fit_row, Np.row, Py.index.
  destruct (article_indices self !! article_id r); [|done].
  destruct (Np.rows (embeddings self) !! _); [done|]. by intros [= <-].
Qed.

Lemma fit_row_out_of_range self st r idx :
  article_indices self !! article_id r = Some idx →
  length (Np.rows (embeddings self)) ≤ idx →
  fit_row self st r = Raise IndexError.
Proof.
  intros Hidx Hlen. destruct st as [[w v] t]. unfold fit_row, Np.row, Py.index.
  rewrite Hidx. by rewrite (lookup_ge_None_2 _ _ Hlen).
Qed.

Lemma foldM_fails {A S : Type} (f : S → A → result S) (l : list A) (s : S) (x : A) :
  x ∈ l → (∀ s0, ∃ e, f s0 x = Raise e) → ∃ e, foldM f s l = Raise e.
Proof.
  intros Hx Hf. revert s. induction l as [|y l IH]; intros s; [by apply elem_of_nil in Hx|].
  rewrite foldM_cons. destruct (f s y) as [s1|e] eqn:Hy; [|by eexists].
  apply elem_of_cons in Hx as [->|Hx]; [|by apply IH].
  destruct (Hf s) as [e He]. congruence.
Qed.

(** X10: [IndexError] is the only exception [fit] raises, and it raises it
    whenever some rated article has an index that addresses no row of the
    matrix. *)
Theorem fit_raises_IndexError self ratings_df :
  (∀ e, fit self ratings_df = Raise e → e = IndexError) ∧
  (∀ r idx, r ∈ ratings_df →
     article_indices self !! article_id r = Some idx →
     length (Np.rows (embeddings self)) ≤ idx →
     fit self ratings_df = Raise IndexError).
Proof.
  assert (∀ e, fit self ratings_df = Raise e → e = IndexError) as Honly.
  { intros e. rewrite fit_unfold.
    destruct (foldM _ _ _) as [profiles|e'] eqn:Hfold; [done|]. intros [= <-].
    apply foldM_Raise in Hfold as (profiles & uid & _ & Hstep).
    rewrite fit_step_unfold in Hstep. unfold fit_group in Hstep.
    destruct (foldM (fit_row self) _ _) as [[[w v] t]|e''] eqn:Hrows; [done|].
    injection Hstep as <-.
    apply foldM_Raise in Hrows as (st & r & _ & Hrow). by eapply fit_row_Raise. }
  split; [exact Honly|]. intros r idx Hr Hidx Hlen.
  destruct (fit self ratings_df) as [m|e] eqn:Hfit; [|by rewrite (Honly e)].
  exfalso. destruct (fit_lookup _ _ _ (user_id r) Hfit) as [Hin _].
  destruct Hin as (p & Hp & _); [by exists r|].
  unfold fit_group in Hp.
  destruct (foldM_fails (fit_row self) (group_of ratings_df (user_id r))
              (∅, Np.zeros (Np.shape1 (embeddings self)), 0%Z) r) as [e He].
  - by apply list_elem_of_filter.
  - intros st. exists IndexError. by eapply fit_row_out_of_range.
  - by rewrite He in Hp.
Qed.

(** X15: the failure the positional source with too few rows postpones: the
    table is built, and [fit] raises [IndexError] as soon as a rating names
    an article whose position lies beyond the matrix. *)
Theorem short_matrix_fails_in_fit matrix df_articles ids m indices ratings_df r i :
  DataLoader._prepare_embeddings (DataLoader.SMatrix matrix) df_articles =
    Ok (ids, m, indices) →
  r ∈ ratings_df → indices !! article_id r = Some i →
  length (Np.rows matrix) ≤ i →
  fit (init m indices ids) ratings_df = Raise IndexError.
Proof.
  intros [= <- <- <-] Hr Hi Hlen.
  by apply (proj2 (fit_raises_IndexError _ ratings_df) r i).
Qed.

Lemma weights_lookup (rs : list rating_row) (d0 : gmap Z Z) (a : Z) :
  foldl (λ d r, <[article_id r := rating r]> d) d0 rs !! a =
  match last (filter (λ r, article_id r = a) rs) with
  | Some r => Some (rating r)
  | None => d0 !! a
  end.
Proof.
  revert d0. induction rs as [|r rs IH]; intros d0; [done|]. simpl foldl. rewrite IH.
  destruct (decide (article_id r = a)) as [Ha|Ha].
  - rewrite filter_cons_True by done. rewrite last_cons.
    destruct (last _); [done|]. by rewrite <- Ha, lookup_insert_eq.
  - rewrite filter_cons_False by done.
    destruct (last _); [done|]. by rewrite lookup_insert_ne.
Qed.

(** X11: the weights [fit] stores with a profile. An article has a weight
    exactly when it is indexed and the user rated it, and the weight is the
    rating of the last of the user's rows for that article, in frame order. *)
Theorem stored_weights self ratings_df m uid p a :
  fit self ratings_df = Ok m →
  (∃ r, r ∈ ratings_df ∧ user_id r = uid) →
  user_profiles m !! uid = Some p →
  article_weights p !! a =
    rating <$> last (filter (λ r, article_id r = a)
                       (UserProfileBuilder.contributing self (group_of ratings_df uid))) ∧
  (is_Some (article_weights p !! a) ↔
   is_Some (article_indices self !! a) ∧ a ∈ user_articles ratings_df uid).
Proof.
  intros Hfit Hrated Hp.
  destruct (fit_lookup _ _ _ uid Hfit) as [Hin _].
  destruct (Hin Hrated) as (p' & Hgroup & Hp'). rewrite Hp in Hp'. injection Hp' as <-.
  unfold fit_group in Hgroup. inv_bind Hgroup. destruct a0 as [[w v] t].
  injection Hgroup as <-. simpl.
  apply fit_rows_spec in Ha as (_ & _ & ->).
  rewrite weights_lookup, lookup_empty.
  set (rs := filter _ (UserProfileBuilder.contributing self _)).
  split; [by destruct (last rs)|].
  assert (is_Some (last rs) ↔
          is_Some (article_indices self !! a) ∧ a ∈ user_articles ratings_df uid) as <-.
  { rewrite elem_of_user_articles. split.
    - intros [r Hr]. apply last_Some in Hr as [l' Hl'].
      assert (r ∈ rs) as Hin' by (rewrite Hl'; apply elem_of_app; right; by left).
      unfold rs, UserProfileBuilder.contributing, group_of in Hin'.
      apply list_elem_of_filter in Hin' as [<- Hin'].
      apply list_elem_of_filter in Hin' as [Hidx Hin'].
      apply list_elem_of_filter in Hin' as [Hu Hin'].
      split; [done|]. by exists r.
    - intros [Hidx (r & Hr & Hu & Hart)].
      assert (r ∈ rs) as Hin'.
      { unfold rs, UserProfileBuilder.contributing, group_of.
        apply list_elem_of_filter. split; [done|].
        apply list_elem_of_filter. split; [by rewrite Hart|].
        by apply list_elem_of_filter. }
      destruct (last rs) eqn:Hlast; [by eexists|].
      apply last_None in Hlast. rewrite Hlast in Hin'. by apply elem_of_nil in Hin'. }
  by destruct (last rs).
Qed.

(** User 7 of [Twice]: article 1 is rated 1 and then 3, article 99 is not
    indexed. *)
Lemma stored_weights_witness :
  fit Scenario2.model0 Twice.ratings = Ok Twice.model ∧
  ∃ p, user_profiles Twice.model !! 7%Z = Some p ∧
       article_weights p !! 1%Z = Some 3%Z ∧
       article_weights p !! 99%Z = None.
Proof.
  assert (fit Scenario2.model0 Twice.ratings = Ok Twice.model) as Hfit
    by (vm_compute; reflexivity).
  split; [exact Hfit|].
  destruct (user_profiles Twice.model !! 7%Z) as [p|] eqn:Hp; [|by vm_compute in Hp].
  exists p. split; [done|].
  assert (∃ r, r ∈ Twice.ratings ∧ user_id r = 7%Z) as Hrated
    by (eexists; split; [apply list_elem_of_here | reflexivity]).
  split.
  - rewrite (proj1 (stored_weights Scenario2.model0 Twice.ratings Twice.model 7 p 1
                      Hfit Hrated Hp)).
    vm_compute. reflexivity.
  - rewrite (proj1 (stored_weights Scenario2.model0 Twice.ratings Twice.model 7 p 99
                      Hfit Hrated Hp)).
    vm_compute. reflexivity.
Defined.

(** ** An article of the table without an index *)

Lemma range_covers (len bs p : nat) :
  0 < bs → p < len → ∃ i, i ∈ Py.range len bs ∧ i ≤ p < i + bs.
Proof.
  intros Hbs Hp. exists (p / bs * bs). split.
  - unfold Py.range. apply list_elem_of_fmap. exists (p / bs). split; [done|].
    apply elem_of_seq. split; [lia|]. simpl.
    replace (len + bs - 1) with (len - 1 + 1 * bs) by lia.
    rewrite Nat.div_add by lia.
    assert (p / bs ≤ (len - 1) / bs) by (apply Nat.Div0.div_le_mono; lia). lia.
  - pose proof (Nat.Div0.mul_div_le p bs).
    pose proof (Nat.mul_succ_div_gt p bs). lia.
Qed.

Lemma forM_fails {A B : Type} (f : A → result B) (l : list A) (x : A) (e : exn) :
  x ∈ l → f x = Raise e → (∀ y e', f y = Raise e' → e' = e) → forM f l = Raise e.
Proof.
  intros Hx Hfx Honly. induction l as [|y l IH]; [by apply elem_of_nil in Hx|].
  simpl. destruct (f y) as [b|e'] eqn:Hy.
  - apply elem_of_cons in Hx as [->|Hx]; [congruence|].
    simpl. by rewrite (IH Hx).
  - simpl. f_equal. by eapply Honly.
Qed.

Lemma getitem_Raise {V : Type} (d : gmap Z V) (k : Z) (e : exn) :
  Py.getitem d k = Raise e → e = KeyError.
Proof. unfold Py.getitem. destruct (d !! k); [done | by intros [= <-]]. Qed.

Lemma score_one_Raise self u excluded scores aid e :
  indices_in_range self →
  score_one self u excluded scores aid = Raise e → e = KeyError.
Proof.
  intros Hr. unfold score_one. destruct (decide _); [done|].
  unfold Py.getitem. destruct (article_indices self !! aid) as [idx|] eqn:Hidx.
  - simpl. apply Hr, lookup_lt_is_Some_2 in Hidx as [v Hv].
    unfold Np.row, Py.index. rewrite Hv. simpl. by destruct (_ && _).
  - by intros [= <-].
Qed.

(** X5: an article of the table that is not excluded and has no entry in
    the index makes a request fail for a user with a profile: the low-memory
    mode raises [KeyError] (the indices that exist being in range), and the
    batched mode, for any batch size, raises too. *)
Theorem unindexed_table_article_raises batch_size self uid profile ratings_df n aid :
  user_profiles self !! uid = Some profile →
  aid ∈ article_ids self → aid ∉ user_articles ratings_df uid →
  article_indices self !! aid = None →
  (indices_in_range self →
   recommend_low_memory self uid ratings_df n = Raise KeyError) ∧
  (0 < batch_size →
   ∃ e, recommend_batched batch_size self uid ratings_df n = Raise e).
Proof.
  intros Hp Haid Hex Hidx. split.
  - intros Hr. unfold recommend_low_memory. rewrite Hp.
    destruct (foldM_fails (score_one self (vector profile) (user_articles ratings_df uid))
                (article_ids self) [] aid Haid) as [e He].
    { intros s0. exists KeyError. unfold score_one.
      destruct (decide _); [done|]. unfold Py.getitem. by rewrite Hidx. }
    rewrite He. simpl. f_equal.
    apply foldM_Raise in He as (s0 & x & _ & Hx). by eapply score_one_Raise.
  - intros Hbs. unfold recommend_batched. rewrite Hp.
    apply list_elem_of_lookup in Haid as [pos Hpos].
    destruct (range_covers (length (article_ids self)) batch_size pos Hbs)
      as (i & Hi & Hlo & Hhi); [by eapply lookup_lt_Some|].
    destruct (foldM_fails
                (score_batch batch_size self (vector profile) (user_articles ratings_df uid))
                (Py.range (length (article_ids self)) batch_size) [] i Hi) as [e He].
    { intros s0. exists KeyError. unfold score_batch.
      rewrite (forM_fails _ _ aid KeyError); [done| |by unfold Py.getitem; rewrite Hidx|].
      - apply list_elem_of_filter. split; [done|].
        apply elem_of_take. exists (pos - i). split; [|lia].
        rewrite lookup_drop. by replace (i + (pos - i)) with pos by lia.
      - intros y e'. apply getitem_Raise. }
    exists e. by rewrite He.
Qed.

(** ** The batched mode when nothing of the table is excluded *)

Lemma filter_all {A : Type} (P : A → Prop) `{∀ x, Decision (P x)} (l : list A) :
  (∀ x, x ∈ l → P x) → filter P l = l.
Proof.
  induction l as [|x l IH]; intros HP; [done|].
  rewrite filter_cons_True by (apply HP; by left).
  f_equal. apply IH. intros y Hy. apply HP. by right.
Qed.

Lemma take_add_drop {A : Type} (a b : nat) (l : list A) :
  take (a + b) l = take a l ++ take b (drop a l).
Proof.
  revert l. induction a as [|a IH]; intros [|x l]; simpl; try done.
  - by rewrite take_nil.
  - by rewrite IH.
Qed.

Lemma take_min_length {A : Type} (n : nat) (l : list A) :
  take (n `min` length l) l = take n l.
Proof.
  destruct (Nat.min_spec n (length l)) as [[_ ->]|[Hle ->]]; [done|].
  by rewrite !take_ge by lia.
Qed.

Lemma emit_loop_all self (excluded : gset Z) i (sims : list float) m k
    (scores scores' : list (Z * float)) :
  (∀ a, a ∈ article_ids self → a ∉ excluded) →
  foldM
    (λ scores j,
       aid ← Py.index (article_ids self) (i + j);
       if decide (aid ∉ excluded) then
         s ← Py.index sims j; Ok (scores ++ [(aid, s)])
       else Ok scores)
    scores (seq k m) = Ok scores' →
  scores'.*1 = scores.*1 ++ take m (drop (i + k) (article_ids self)).
Proof.
  intros Hnone. revert k scores. induction m as [|m IH]; intros k scores H.
  - injection H as <-. simpl. by rewrite app_nil_r.
  - simpl seq in H. rewrite foldM_cons in H. inv_bind H. inv_bind Ha.
    unfold Py.index in Ha0.
    destruct (article_ids self !! (i + k)) as [aid|] eqn:Hid; [|done].
    injection Ha0 as <-. rewrite (drop_S _ _ _ Hid). simpl take.
    destruct (decide (aid ∉ excluded)) as [|Hin].
    2:{ exfalso. apply Hin, Hnone. by eapply list_elem_of_lookup_2. }
    inv_bind Ha. injection Ha as <-.
    apply IH in H as ->. rewrite fmap_app. simpl.
    rewrite <- app_assoc. simpl. by rewrite Nat.add_succ_r.
Qed.

Lemma score_batch_all batch_size self u excluded scores i scores' :
  (∀ a, a ∈ article_ids self → a ∉ excluded) →
  score_batch batch_size self u excluded scores i = Ok scores' →
  scores'.*1 = scores.*1 ++ take batch_size (drop i (article_ids self)).
Proof.
  intros Hnone. unfold score_batch.
  set (batch_ids := take batch_size (drop i (article_ids self))).
  assert (filter (λ aid, aid ∉ excluded) batch_ids = batch_ids) as ->.
  { apply filter_all. intros a Ha. apply Hnone.
    eapply elem_of_sublist; [exact Ha|].
    etrans; [apply sublist_take | apply sublist_drop]. }
  intros H. inv_bind H. apply forM_length in Ha.
  destruct a as [|idx idxs].
  { injection H as <-. destruct batch_ids; [by rewrite app_nil_r | done]. }
  inv_bind H. inv_bind H. inv_bind H. unfold emit_batch in H.
  apply (emit_loop_all _ _ _ _ _ _ _ _ Hnone) in H as ->.
  rewrite Nat.add_0_r, Ha. f_equal. unfold batch_ids.
  rewrite length_take. apply take_min_length.
Qed.

Lemma batches_all batch_size self u excluded m k scores scores' :
  (∀ a, a ∈ article_ids self → a ∉ excluded) →
  foldM (score_batch batch_size self u excluded) scores
    ((λ j, j * batch_size) <$> seq k m) = Ok scores' →
  scores'.*1 =
    scores.*1 ++ take (m * batch_size) (drop (k * batch_size) (article_ids self)).
Proof.
  intros Hnone. revert k scores. induction m as [|m IH]; intros k scores H.
  - injection H as <-. simpl. by rewrite app_nil_r.
  - simpl seq in H. rewrite fmap_cons, foldM_cons in H. inv_bind H.
    apply (score_batch_all _ _ _ _ _ _ _ Hnone) in Ha. apply IH in H as ->.
    rewrite Ha, <- app_assoc. f_equal.
    set (l := drop (k * batch_size) (article_ids self)).
    replace (drop (S k * batch_size) (article_ids self)) with (drop batch_size l)
      by (unfold l; rewrite drop_drop; f_equal; lia).
    replace (S m * batch_size) with (batch_size + m * batch_size) by lia.
    by rewrite take_add_drop.
Qed.

Lemma range_reaches_end (len bs : nat) :
  0 < bs → len ≤ (len + bs - 1) / bs * bs.
Proof.
  intros Hbs. pose proof (Nat.mul_succ_div_gt (len + bs - 1) bs). lia.
Qed.

(** X6: when no article of the table is excluded for the user, the batched
    mode, for every positive batch size, computes exactly one score per
    article of the table, in table order, and answers with the top [n] of
    them; a request for at least as many entries as the table has articles
    lists every article once. *)
Theorem batched_scores_whole_table batch_size self uid profile ratings_df n out :
  0 < batch_size →
  user_profiles self !! uid = Some profile →
  (∀ a, a ∈ article_ids self → a ∉ user_articles ratings_df uid) →
  recommend_batched batch_size self uid ratings_df n = Ok out →
  (∃ scores, scores.*1 = article_ids self ∧
             out = Py.slice_to n (Py.sort_desc scores)) ∧
  ((Z.of_nat (length (article_ids self)) ≤ n)%Z → out.*1 ≡ₚ article_ids self).
Proof.
  intros Hbs Hp Hnone H. unfold recommend_batched in H. rewrite Hp in H.
  inv_bind H. injection H as <-. unfold Py.range in Ha.
  apply (batches_all _ _ _ _ _ _ _ _ Hnone) in Ha. simpl in Ha.
  rewrite drop_0 in Ha.
  rewrite take_ge in Ha by (by apply range_reaches_end).
  split; [by exists a|]. intros Hn.
  unfold Py.slice_to. destruct (Z.leb_spec 0 n); [|lia].
  rewrite take_ge.
  - by rewrite sort_desc_perm, Ha.
  - rewrite sort_desc_length, <- (length_fmap fst a), Ha. lia.
Qed.

(** Scenario 2 with a request that passes an empty ratings table: all four
    articles are listed. *)
Lemma batched_scores_whole_table_witness :
  ∃ out, recommend Scenario2.model 7 [] 4 = Ok out ∧
         out.*1 ≡ₚ article_ids Scenario2.model.
Proof.
  eexists. split; [vm_compute; reflexivity|].
  destruct (user_profiles Scenario2.model !! 7%Z) as [p|] eqn:Hp; [|by vm_compute in Hp].
  apply (proj2 (batched_scores_whole_table 1000 Scenario2.model 7 p [] 4 _
                  ltac:(lia) Hp ltac:(intros a _; apply not_elem_of_empty)
                  ltac:(vm_compute; reflexivity))).
  by vm_compute.
Defined.

(** ** The exclusion set of a request *)









Lemma fit_table_consistent self ratings_df m :
  table_consistent self → fit self ratings_df = Ok m → table_consistent m.
Proof.
  intros Hc (He & Hi & Ha)%fit_keeps_table aid Haid.
  rewrite Ha in Haid. rewrite Hi, He. by apply Hc.
Qed.

Lemma scenario2_consistent : table_consistent Scenario2.model.
Proof.
  apply (fit_table_consistent Scenario2.model0 Scenario2.ratings);
    [|vm_compute; reflexivity].
  apply built_table_consistent. simpl. lia.
Qed.

(** Scenario 2. *)
Lemma exceptions_on_consistent_table_witness :
  (∃ out, recommend_low_memory Scenario2.model 7 Scenario2.ratings 2 = Ok out) ∧
  (∀ e, recommend_batched 2 Scenario2.model 7 Scenario2.ratings 2 = Raise e →
        e = ValueError).
Proof.
  apply (exceptions_on_consistent_table 2 Scenario2.model 7 Scenario2.ratings 2).
  apply scenario2_consistent.
Defined.

(** The id-keyed mapping of [Mapping]. *)
Lemma prepared_table_never_raises_witness :
  DataLoader._prepare_embeddings Mapping.source [] =
    Ok ([5; 6]%Z, Mapping.matrix, Py.index_dict [5; 6]%Z) ∧
  ∃ model out,
    fit (init Mapping.matrix (Py.index_dict [5; 6]%Z) [5; 6]%Z) Scenario2.ratings =
      Ok model ∧
    recommend_low_memory model 7 Scenario2.ratings 3 = Ok out.
Proof.
  split; [vm_compute; reflexivity|].
  apply (prepared_table_never_raises Mapping.source [] [5; 6]%Z Mapping.matrix
           (Py.index_dict [5; 6]%Z) Scenario2.ratings 7 Scenario2.ratings 3).
  - vm_compute. reflexivity.
  - simpl. lia.
Defined.

Lemma prepared_dict_is_rectangular_witness :
  length (Np.rows Mapping.matrix) = length [5; 6]%Z ∧
  Forall (λ r, length r = Np.shape1 Mapping.matrix) (Np.rows Mapping.matrix).
Proof.
  apply (prepared_dict_is_rectangular [(5%Z, [1; 0]%float); (6%Z, [0; 1]%float)] []
           [5; 6]%Z Mapping.matrix (Py.index_dict [5; 6]%Z)).
  vm_compute. reflexivity.
Defined.

(** The short matrix: article 3 has index 2 and the matrix has two rows. *)
Lemma fit_raises_IndexError_witness :
  fit Short.model0 Short.ratings = Raise IndexError.
Proof.
  apply (proj2 (fit_raises_IndexError Short.model0 Short.ratings)
           {| user_id := 7; article_id := 3; rating := 2 |} 2).
  - apply list_elem_of_here.
  - vm_compute. reflexivity.
  - simpl. lia.
Defined.

Lemma short_matrix_fails_in_fit_witness :
  DataLoader._prepare_embeddings Sources.short Sources.three_ids =
    Ok (Sources.three_ids, Sources.two_rows, Py.index_dict Sources.three_ids) ∧
  fit (init Sources.two_rows (Py.index_dict Sources.three_ids) Sources.three_ids)
    Short.ratings = Raise IndexError.
Proof.
  split; [reflexivity|].
  apply (short_matrix_fails_in_fit Sources.two_rows Sources.three_ids Sources.three_ids
           Sources.two_rows (Py.index_dict Sources.three_ids) Short.ratings
           {| user_id := 7; article_id := 3; rating := 2 |} 2).
  - reflexivity.
  - apply list_elem_of_here.
  - vm_compute. reflexivity.
  - simpl. lia.
Defined.

(** The table of [Gap]: article 4 has no index. *)
Lemma unindexed_table_article_raises_witness :
  recommend_low_memory Gap.model 7 [] 5 = Raise KeyError ∧
  ∃ e, recommend_batched 1000 Gap.model 7 [] 5 = Raise e.
Proof.
  destruct (unindexed_table_article_raises 1000 Gap.model 7
              {| vector := [0.75; 0.25]%float; article_weights := ∅ |} [] 5 4)
    as [Hlow Hbatch].
  - vm_compute. reflexivity.
  - vm_compute. repeat constructor.
  - apply not_elem_of_empty.
  - vm_compute. reflexivity.
  - split; [|apply Hbatch; lia]. apply Hlow.
    intros aid idx Hidx. apply index_dict_lt in Hidx as [_ Hlt]. simpl in *. lia.
Defined.

(** ** The ratings [_prepare_ratings] derives *)

Lemma rate_range (q25 q75 x : float) : (1 ≤ DataLoader.rate q25 q75 x ≤ 3)%Z.
Proof.
  unfold DataLoader.rate.
  destruct (PrimFloat.leb x q25); [lia|]. destruct (PrimFloat.leb x q75); lia.
Qed.

(** X16: whatever the clicks, every rating [_prepare_ratings] derives is 1, 2
    or 3, every derived row carries the user and the article of a click whose
    [session_size] is a number, and no click gives more than one row. *)
Theorem prepared_ratings_shape (log1p : float → float)
    (quantile : list float → float → float) (df_clicks : list DataLoader.click_row) :
  let df_ratings := DataLoader._prepare_ratings log1p quantile df_clicks in
  Forall (λ r, (1 ≤ rating r ≤ 3)%Z) df_ratings ∧
  Forall (λ r, ∃ c x, c ∈ df_clicks ∧
                      DataLoader.session_size c = DataLoader.Numeric x ∧
                      PrimFloat.is_nan x = false ∧
                      user_id r = DataLoader.click_user_id c ∧
                      article_id r = DataLoader.click_article_id c) df_ratings ∧
  length df_ratings ≤ length df_clicks.
Proof.
  simpl. unfold DataLoader._prepare_ratings.
  set (numeric := filter _ _). split; [|split].
  - apply Forall_fmap, Forall_forall. intros p _. simpl. apply rate_range.
  - apply Forall_fmap, Forall_fmap, Forall_forall. intros [c x] Hin. simpl.
    unfold numeric in Hin. apply list_elem_of_filter in Hin as [Hnan Hin].
    apply list_elem_of_fmap in Hin as (c' & [= <- ->] & Hc). simpl in Hnan.
    destruct (DataLoader.session_size c) as [y| |] eqn:Hs; simpl in Hnan;
      [|by vm_compute in Hnan..].
    by exists c, y.
  - rewrite !length_fmap. unfold numeric.
    etrans; [apply length_filter|]. by rewrite length_fmap.
Qed.

(** Comparing floats at or below each other is transitive. *)
Lemma SFleb_trans (x y z : spec_float) :
  SFleb x y = true → SFleb y z = true → SFleb x z = true.
Proof.
  unfold SFleb, SFcompare.
  destruct x as [sx|sx| |sx mx ex], y as [sy|sy| |sy my ey], z as [sz|sz| |sz mz ez];
    try done;
    repeat match goal with s : bool |- _ => destruct s end; try done;
    change (Pos.compare_cont Eq) with Pos.compare;
    destruct (Z.compare_spec ex ey), (Z.compare_spec ey ez), (Z.compare_spec ex ez);
    try done; try lia; subst;
    destruct (Pos.compare_spec mx my), (Pos.compare_spec my mz),
      (Pos.compare_spec mx mz); simpl; try done; try lia.
Qed.

Lemma leb_trans (x y z : float) :
  PrimFloat.leb x y = true → PrimFloat.leb y z = true → PrimFloat.leb x z = true.
Proof. rewrite !FloatAxioms.leb_spec. apply SFleb_trans. Qed.

(** X17: the rating rule is monotone: of two log measures, the one at or
    below the other never gets the higher rating, whatever the thresholds. *)
Theorem rate_monotone (q25 q75 x y : float) :
  PrimFloat.leb x y = true →
  (DataLoader.rate q25 q75 x ≤ DataLoader.rate q25 q75 y)%Z.
Proof.
  intros Hxy. unfold DataLoader.rate.
  destruct (PrimFloat.leb y q25) eqn:Hy25.
  { by rewrite (leb_trans x y q25). }
  destruct (PrimFloat.leb x q25); [by destruct (PrimFloat.leb y q75)|].
  destruct (PrimFloat.leb y q75) eqn:Hy75; [by rewrite (leb_trans x y q75)|].
  destruct (PrimFloat.leb x q75); lia.
Qed.

Lemma rate_monotone_witness :
  (DataLoader.rate 0.5 2.25 0.5 ≤ DataLoader.rate 0.5 2.25 2.5)%Z.
Proof. apply (rate_monotone 0.5 2.25 0.5 2.5). reflexivity. Defined.

(** ** [_calculate_user_stats] and the roster *)

Lemma elem_of_unique (l : list Z) (x : Z) : x ∈ DataLoader.unique l ↔ x ∈ l.
Proof.
  induction l as [|y l IH]; [done|]. simpl.
  rewrite !elem_of_cons, list_elem_of_filter, IH.
  destruct (decide (x = y)) as [->|Hne]; split.
  - by left.
  - by left.
  - intros [?|[_ ?]]; [done | by right].
  - intros [?|?]; [done | by right].
Qed.

Lemma NoDup_unique (l : list Z) : NoDup (DataLoader.unique l).
Proof.
  induction l as [|y l IH]; [constructor|]. simpl. constructor.
  - by intros [? _]%list_elem_of_filter.
  - by apply NoDup_filter.
Qed.

Lemma group_keys_sorted_user_ids (df_ratings : list rating_row) :
  group_keys df_ratings = DataLoader.sorted_user_ids df_ratings.
Proof.
  unfold group_keys, DataLoader.sorted_user_ids.
  apply (Sorted_unique Z.le); try apply Sorted_merge_sort; try apply _.
  rewrite !merge_sort_Permutation.
  apply NoDup_Permutation; [apply NoDup_remove_dups | apply NoDup_unique|].
  intros x. by rewrite elem_of_remove_dups, elem_of_unique.
Qed.

Lemma NoDup_group_keys (df_ratings : list rating_row) : NoDup (group_keys df_ratings).
Proof.
  unfold group_keys. rewrite merge_sort_Permutation. apply NoDup_remove_dups.
Qed.

Lemma sum_list_fmap_add {A : Type} (f g : A → nat) (l : list A) :
  sum_list ((λ x, f x + g x) <$> l) = sum_list (f <$> l) + sum_list (g <$> l).
Proof. induction l as [|x l IH]; csimpl; [done|]. rewrite IH. lia. Qed.

Lemma sum_list_indicator (keys : list Z) (u : Z) :
  NoDup keys → u ∈ keys →
  sum_list ((λ k, if decide (u = k) then 1 else 0) <$> keys) = 1.
Proof.
  induction 1 as [|k keys Hk Hnd IH]; [by intros ?%elem_of_nil|].
  intros Hu. csimpl. destruct (decide (u = k)) as [->|Hne].
  - rewrite (sum_list_fmap_same 0); [lia|].
    apply Forall_forall. intros k' Hk'. destruct (decide (k = k')); [congruence|done].
  - apply elem_of_cons in Hu as [?|Hu]; [done|]. by rewrite IH.
Qed.

(** The groups of a frame split its rows. *)
Lemma groups_split_rows (df_ratings : list rating_row) (keys : list Z) :
  NoDup keys → (∀ r, r ∈ df_ratings → user_id r ∈ keys) →
  sum_list ((λ k, length (group_of df_ratings k)) <$> keys) = length df_ratings.
Proof.
  intros Hnd. induction df_ratings as [|r df IH]; intros Hall.
  - simpl. rewrite (sum_list_fmap_same 0); [lia|]. by apply Forall_forall.
  - transitivity
      (sum_list ((λ k, if decide (user_id r = k) then 1 else 0) <$> keys) +
       sum_list ((λ k, length (group_of df k)) <$> keys)).
    + rewrite <- sum_list_fmap_add. f_equal. apply list_fmap_ext. intros _ k _.
      unfold group_of. destruct (decide (user_id r = k)).
      * rewrite filter_cons_True by done. simpl. lia.
      * rewrite filter_cons_False by done. lia.
    + rewrite (sum_list_indicator keys (user_id r) Hnd) by (apply Hall; by left).
      rewrite IH by (intros r' Hr'; apply Hall; by right). done.
Qed.

(** X18: the statistics frame has one row per user of the ratings, in
    increasing order of user id; its user ids are the roster [load_data]
    stores as [user_ids]; every row counts at least one rating and the counts
    add up to the number of ratings. *)
Theorem user_stats_cover_ratings (mean : list Z → float) (round : float → Z → float)
    (df_ratings : list rating_row) :
  let stats := DataLoader._calculate_user_stats mean round df_ratings in
  DataLoader.stats_user_id <$> stats = DataLoader.sorted_user_ids df_ratings ∧
  Sorted Z.le (DataLoader.stats_user_id <$> stats) ∧
  NoDup (DataLoader.stats_user_id <$> stats) ∧
  (∀ u, u ∈ DataLoader.stats_user_id <$> stats ↔
        ∃ r, r ∈ df_ratings ∧ user_id r = u) ∧
  Forall (λ row, 0 < DataLoader.stats_n row) stats ∧
  sum_list (DataLoader.stats_n <$> stats) = length df_ratings.
Proof.
  simpl. unfold DataLoader._calculate_user_stats.
  rewrite <- !list_fmap_compose.
  assert ((DataLoader.stats_user_id ∘ _) <$> group_keys df_ratings = group_keys df_ratings)
    as -> by (rewrite <- (list_fmap_id (group_keys df_ratings)) at 2; done).
  split; [apply group_keys_sorted_user_ids|].
  split; [unfold group_keys; apply Sorted_merge_sort; apply _|].
  split; [apply NoDup_group_keys|].
  split; [intros u; apply elem_of_group_keys|]. split.
  - apply Forall_fmap, Forall_forall. intros u Hu. simpl.
    apply elem_of_group_keys in Hu as (r & Hr & Hu). rewrite length_fmap.
    assert (r ∈ group_of df_ratings u) as Hin by (by apply list_elem_of_filter).
    destruct (group_of df_ratings u); [by apply elem_of_nil in Hin | simpl; lia].
  - rewrite <- (groups_split_rows df_ratings (group_keys df_ratings)).
    + f_equal. apply list_fmap_ext. intros _ u _. simpl. by rewrite length_fmap.
    + apply NoDup_group_keys.
    + intros r Hr. apply elem_of_group_keys. by exists r.
Qed.

(** ** [load_data] *)

Lemma bind_Returns {A B : Type} (m : DataLoader.outcome A)
    (f : A → DataLoader.outcome B) (b : B) :
  m ≫= f = DataLoader.Returns b ↔
  ∃ a, m = DataLoader.Returns a ∧ f a = DataLoader.Returns b.
Proof.
  destruct m as [a|e]; simpl; split.
  - intros H. by exists a.
  - by intros (a' & [= ->] & H).
  - intros [=].
  - by intros (a' & [=] & _).
Qed.

(** Splits an equation [x ← m; k = Returns b] into the two steps it runs. *)
Ltac inv_returns H :=
  let a := fresh "a" in
  let Ha := fresh "Ha" in
  apply bind_Returns in H as (a & Ha & H).

Lemma lift_Returns {A : Type} (r : result A) (a : A) :
  DataLoader.lift r = DataLoader.Returns a → r = Ok a.
Proof. destruct r; simpl; [by intros [= ->] | done]. Qed.

Section LoadData.

Variable log1p : float → float.
Variable quantile : list float → float → float.
Variable mean : list Z → float.
Variable round : float → Z → float.
Variable value_counts : list Z → list (Z * nat).

(** What a first [load_data] that returns has done. *)
Lemma load_data_inv env self st :
  DataLoader.cb_model self = None →
  DataLoader.load_data log1p quantile mean round value_counts env self =
    DataLoader.Returns st →
  ∃ raw articles source ids matrix indices model,
    let clicks :=
      if DataLoader.LIMIT_DATA_SIZE env then
        filter (λ c, DataLoader.click_user_id c ∈
                       (take 500 (value_counts (DataLoader.click_user_id <$> raw))).*1)
               raw
      else raw in
    let ratings := DataLoader._prepare_ratings log1p quantile clicks in
    DataLoader.clicks_csv env = DataLoader.Returns raw ∧
    DataLoader.articles_metadata_csv env = DataLoader.Returns articles ∧
    DataLoader._prepare_embeddings source (DataLoader.meta_article_id <$> articles) =
      Ok (ids, matrix, indices) ∧
    fit (init matrix indices ids) ratings = Ok model ∧
    st = {| DataLoader.cb_model := Some model;
            DataLoader.df_ratings := Some ratings;
            DataLoader.df_articles := Some articles;
            DataLoader.df_user_stats :=
              Some (DataLoader._calculate_user_stats mean round ratings);
            DataLoader.user_ids := Some (DataLoader.sorted_user_ids ratings) |}.
Proof.
  intros Hnone H. unfold DataLoader.load_data in H. rewrite Hnone in H.
  destruct (DataLoader.AzureWebJobsStorage env) as [[|c cs]|]; [done| |done].
  inv_returns H. inv_returns H. inv_returns H. inv_returns H. inv_returns H.
  destruct a3 as [[ids matrix] indices]. inv_returns H. injection H as <-.
  apply lift_Returns in Ha3, Ha4.
  eexists a0, a1, a2, ids, matrix, indices, a3. cbv zeta.
  split; [exact Ha0|]. split; [exact Ha1|]. split; [exact Ha3|].
  split; [exact Ha4|]. reflexivity.
Qed.

(** Once a model is stored, [load_data] returns at once. *)
Lemma load_data_loaded env st :
  is_Some (DataLoader.cb_model st) →
  DataLoader.load_data log1p quantile mean round value_counts env st =
    DataLoader.Returns st.
Proof. intros [m Hm]. unfold DataLoader.load_data. by rewrite Hm. Qed.

(** The users with a profile in a model fitted from scratch are the users of
    the ratings. *)
Lemma fitted_users matrix indices ids ratings model u :
  fit (init matrix indices ids) ratings = Ok model →
  is_Some (user_profiles model !! u) ↔ u ∈ DataLoader.sorted_user_ids ratings.
Proof.
  intros Hfit. rewrite <- group_keys_sorted_user_ids. split.
  - intros Hsome. destruct (fit_lookup _ _ _ u Hfit) as [_ Hout].
    destruct (decide (u ∈ group_keys ratings)) as [|Hno]; [done|].
    rewrite elem_of_group_keys in Hno.
    rewrite (Hout Hno) in Hsome. simpl in Hsome. rewrite lookup_empty in Hsome.
    by apply is_Some_None in Hsome.
  - rewrite elem_of_group_keys. intros Hu.
    destruct (fit_lookup _ _ _ u Hfit) as [Hin _].
    destruct (Hin Hu) as (p & _ & ->). by eexists.
Qed.

(** X19: a first [load_data] that returns publishes a consistent state: all
    five attributes are set, the articles are the rows of the metadata file,
    the statistics and the roster are those of the stored ratings, every
    stored rating is 1, 2 or 3, the users of the roster are exactly the users
    with a profile in the model, and from then on [load_data] returns at once
    with the state unchanged, whatever the environment has become. *)
Theorem load_data_publishes env self st :
  DataLoader.cb_model self = None →
  DataLoader.load_data log1p quantile mean round value_counts env self =
    DataLoader.Returns st →
  ∃ model ratings articles,
    DataLoader.cb_model st = Some model ∧
    DataLoader.df_ratings st = Some ratings ∧
    DataLoader.df_articles st = Some articles ∧
    DataLoader.articles_metadata_csv env = DataLoader.Returns articles ∧
    DataLoader.df_user_stats st =
      Some (DataLoader._calculate_user_stats mean round ratings) ∧
    DataLoader.user_ids st = Some (DataLoader.sorted_user_ids ratings) ∧
    Forall (λ r, (1 ≤ rating r ≤ 3)%Z) ratings ∧
    (∀ u, u ∈ DataLoader.sorted_user_ids ratings ↔
          is_Some (user_profiles model !! u)) ∧
    (∀ env', DataLoader.load_data log1p quantile mean round value_counts env' st =
               DataLoader.Returns st).
Proof.
  intros Hnone H.
  destruct (load_data_inv _ _ _ Hnone H)
    as (raw & articles & source & ids & matrix & indices & model &
        _ & Harts & _ & Hfit & ->).
  eexists model, _, articles. repeat split; try done.
  - apply Forall_fmap, Forall_forall. intros p _. simpl. apply rate_range.
  - by apply (fitted_users _ _ _ _ _ u Hfit).
  - by apply (fitted_users _ _ _ _ _ u Hfit).
Qed.

(** X20: with [LIMIT_DATA_SIZE] set, a first [load_data] that returns stores
    ratings only for users among the first 500 entries of [value_counts], so
    the roster and the statistics frame have at most 500 users. *)
Theorem limited_load_keeps_500_users env self st :
  DataLoader.cb_model self = None →
  DataLoader.LIMIT_DATA_SIZE env = true →
  DataLoader.load_data log1p quantile mean round value_counts env self =
    DataLoader.Returns st →
  ∃ raw ratings roster stats,
    DataLoader.clicks_csv env = DataLoader.Returns raw ∧
    DataLoader.df_ratings st = Some ratings ∧
    DataLoader.user_ids st = Some roster ∧
    DataLoader.df_user_stats st = Some stats ∧
    Forall (λ r, user_id r ∈
              (take 500 (value_counts (DataLoader.click_user_id <$> raw))).*1)
           ratings ∧
    length roster ≤ 500 ∧ length stats ≤ 500.
Proof.
  intros Hnone Hlimit H.
  destruct (load_data_inv _ _ _ Hnone H)
    as (raw & articles & source & ids & matrix & indices & model &
        Hraw & _ & _ & _ & ->).
  rewrite Hlimit. set (top := (take 500 _).*1).
  set (ratings := DataLoader._prepare_ratings _ _ _).
  assert (Forall (λ r, user_id r ∈ top) ratings) as Hall.
  { unfold ratings, DataLoader._prepare_ratings.
    apply Forall_fmap, Forall_fmap, Forall_forall. intros [c x] Hin. simpl.
    apply list_elem_of_filter in Hin as [_ Hin].
    apply list_elem_of_fmap in Hin as (c' & [= <- _] & Hc).
    by apply list_elem_of_filter in Hc as [Htop _]. }
  assert (length (DataLoader.sorted_user_ids ratings) ≤ 500) as Hlen.
  { transitivity (length top);
      [|unfold top; rewrite length_fmap, length_take; lia].
    apply submseteq_length, NoDup_submseteq.
    - rewrite <- group_keys_sorted_user_ids. apply NoDup_group_keys.
    - intros u Hu. rewrite <- group_keys_sorted_user_ids in Hu.
      apply elem_of_group_keys in Hu as (r & Hr & <-).
      by apply (proj1 (Forall_forall _ _) Hall). }
  eexists raw, ratings, _, _. repeat split; try done.
  unfold DataLoader._calculate_user_stats.
  by rewrite length_fmap, group_keys_sorted_user_ids.
Qed.

End LoadData.

Lemma load_data_publishes_witness :
  ∃ model ratings articles,
    DataLoader.cb_model Sample.loaded = Some model ∧
    DataLoader.df_ratings Sample.loaded = Some ratings ∧
    DataLoader.df_articles Sample.loaded = Some articles ∧
    DataLoader.articles_metadata_csv Sample.env = DataLoader.Returns articles ∧
    DataLoader.df_user_stats Sample.loaded =
      Some (DataLoader._calculate_user_stats Sample.mean Sample.round ratings) ∧
    DataLoader.user_ids Sample.loaded = Some (DataLoader.sorted_user_ids ratings) ∧
    Forall (λ r, (1 ≤ rating r ≤ 3)%Z) ratings ∧
    (∀ u, u ∈ DataLoader.sorted_user_ids ratings ↔
          is_Some (user_profiles model !! u)) ∧
    (∀ env', DataLoader.load_data Sample.log1p Sample.quantile Sample.mean
               Sample.round Sample.value_counts env' Sample.loaded =
             DataLoader.Returns Sample.loaded).
Proof.
  apply (load_data_publishes Sample.log1p Sample.quantile Sample.mean Sample.round
           Sample.value_counts Sample.env DataLoader.new).
  - reflexivity.
  - vm_compute; reflexivity.
Defined.

Lemma limited_load_keeps_500_users_witness :
  ∃ raw ratings roster stats,
    DataLoader.clicks_csv Sample.env_limited = DataLoader.Returns raw ∧
    DataLoader.df_ratings Sample.loaded = Some ratings ∧
    DataLoader.user_ids Sample.loaded = Some roster ∧
    DataLoader.df_user_stats Sample.loaded = Some stats ∧
    Forall (λ r, user_id r ∈
              (take 500 (Sample.value_counts (DataLoader.click_user_id <$> raw))).*1)
           ratings ∧
    length roster ≤ 500 ∧ length stats ≤ 500.
Proof.
  apply (limited_load_keeps_500_users Sample.log1p Sample.quantile Sample.mean
           Sample.round Sample.value_counts Sample.env_limited DataLoader.new).
  - reflexivity.
  - reflexivity.
  - vm_compute; reflexivity.
Defined.

(** ** The endpoint handlers *)

(** A slice that starts at a position [o] and has a width [l], both not
    negative, is the window of [l] rows after the first [o]. *)
Lemma slice_window {A : Type} (o l : Z) (rows : list A) :
  (0 ≤ o)%Z → (0 ≤ l)%Z →
  Http.slice o (o + l) rows = take (Z.to_nat l) (drop (Z.to_nat o) rows).
Proof.
  intros Ho Hl. unfold Http.slice.
  destruct (Z.ltb_spec o 0); [lia|]. destruct (Z.ltb_spec (o + l) 0); [lia|].
  destruct (decide (o ≤ Z.of_nat (length rows))%Z).
  - rewrite (Z.min_l o) by lia.
    destruct (decide (o + l ≤ Z.of_nat (length rows))%Z).
    + rewrite Z.min_l by lia. f_equal. lia.
    + rewrite Z.min_r by lia. rewrite !take_ge; [done|rewrite length_drop; lia..].
  - rewrite !Z.min_r by lia. rewrite Z.sub_diag. simpl.
    rewrite (drop_ge rows (Z.to_nat o)) by lia. by rewrite take_nil.
Qed.

(** Consecutive windows of [k] rows, put one after the other, are a prefix. *)
Lemma pages_concat {A : Type} (k : nat) (rows : list A) (a m : nat) :
  mjoin ((λ i, take k (drop (i * k) rows)) <$> seq a m) =
  take (m * k) (drop (a * k) rows).
Proof.
  revert a. induction m as [|m IH]; intros a; [done|].
  csimpl. rewrite IH, take_add_drop, drop_drop. do 3 f_equal. lia.
Qed.

Section HandlerProperties.

Variable log1p : float → float.
Variable quantile : list float → float → float.
Variable mean : list Z → float.
Variable round : float → Z → float.
Variable value_counts : list Z → list (Z * nat).
Variable int : string → option Z.
Variable lower : string → string.
Variable round4 : float → float.

Lemma int_if_truthy_str (s : string) :
  s ≠ "" →
  int_if_truthy int (Http.PyStr s) =
    match int s with
    | Some z => DataLoader.Returns (Http.PyInt z)
    | None => DataLoader.Raises (DataLoader.Builtin ValueError)
    end.
Proof.
  intros Hne. unfold int_if_truthy, Http.truthy.
  by rewrite bool_decide_eq_false_2 by done.
Qed.

(** The listing of the users endpoint for a [limit] that reads as a positive
    number and an [offset] that is absent or reads as a number that is not
    negative. *)
Lemma users_page_window st stats params lim k o :
  DataLoader.df_user_stats st = Some stats →
  params !! "limit" = Some lim → lim ≠ "" → int lim = Some k → (0 < k)%Z →
  (params !! "offset" = None ∧ o = 0%Z) ∨
    (∃ off, params !! "offset" = Some off ∧ off ≠ "" ∧ int off = Some o) →
  (0 ≤ o)%Z →
  users_page int st params =
    DataLoader.Returns (take (Z.to_nat k) (drop (Z.to_nat o) stats)).
Proof.
  intros Hstats Hlim Hne Hk Hpos Hoff Ho.
  unfold users_page. rewrite Hlim, Hstats, (int_if_truthy_str lim Hne), Hk.
  assert ((k =? 0)%Z = false) as Hk' by (apply Z.eqb_neq; lia).
  destruct Hoff as [[-> ->]|(off & -> & Hoffne & Hoffint)].
  - simpl. rewrite Hk'. simpl. by rewrite slice_window by lia.
  - rewrite (int_if_truthy_str off Hoffne), Hoffint. simpl. rewrite Hk'. simpl.
    by rewrite slice_window by lia.
Qed.

(** X21: on a loaded state, a [limit] that reads as a positive number [k] and
    an [offset] that is absent (then 0) or reads as a number [o] that is not
    negative make the users endpoint answer 200 with the [k] rows of the
    statistics frame after its first [o] rows, fewer where the frame ends,
    and leave the state as it is. *)
Theorem users_page_is_window env st stats params lim k o :
  is_Some (DataLoader.cb_model st) →
  DataLoader.df_user_stats st = Some stats →
  params !! "limit" = Some lim → lim ≠ "" → int lim = Some k → (0 < k)%Z →
  (params !! "offset" = None ∧ o = 0%Z) ∨
    (∃ off, params !! "offset" = Some off ∧ off ≠ "" ∧ int off = Some o) →
  (0 ≤ o)%Z →
  users_handle log1p quantile mean round value_counts int env st params =
    ({| Http.status_code := 200;
        Http.body := Http.Users (take (Z.to_nat k) (drop (Z.to_nat o) stats)) |}, st).
Proof.
  intros Hloaded Hstats Hlim Hne Hk Hpos Hoff Ho.
  unfold users_handle. rewrite load_data_loaded by done.
  by rewrite (users_page_window st stats params lim k o).
Qed.

(** X22: on a loaded state, requests with the same positive [limit] [k] and
    the offsets 0, [k], 2[k], ... up to the end of the statistics frame are
    all answered 200, and their bodies put one after the other are the
    frame: every user once, in the order of the frame. *)
Theorem users_pages_cover env st stats lim (k m : nat) (page : nat → gmap string string) :
  is_Some (DataLoader.cb_model st) →
  DataLoader.df_user_stats st = Some stats →
  lim ≠ "" → int lim = Some (Z.of_nat k) → 0 < k →
  (∀ i, i < m →
     page i !! "limit" = Some lim ∧
     ∃ off, page i !! "offset" = Some off ∧ off ≠ "" ∧
            int off = Some (Z.of_nat (i * k))) →
  length stats ≤ m * k →
  ∃ pages,
    Forall2 (λ i rows,
               users_handle log1p quantile mean round value_counts int env st (page i) =
                 ({| Http.status_code := 200; Http.body := Http.Users rows |}, st))
            (seq 0 m) pages ∧
    mjoin pages = stats.
Proof.
  intros Hloaded Hstats Hne Hk Hpos Hpage Hlen.
  exists ((λ i, take k (drop (i * k) stats)) <$> seq 0 m). split.
  - apply Forall2_fmap_r, Forall_Forall2_diag, Forall_forall. intros i Hi.
    apply elem_of_seq in Hi.
    destruct (Hpage i) as (Hlim & off & Hoff & Hoffne & Hoffint); [lia|].
    unfold users_handle. rewrite load_data_loaded by done.
    rewrite (users_page_window st stats (page i) lim (Z.of_nat k)
               (Z.of_nat (i * k))); try done; try lia.
    + by rewrite !Nat2Z.id.
    + right. by exists off.
  - rewrite pages_concat. simpl. rewrite drop_0. by apply take_ge.
Qed.

(** X23: on a loaded state, a [limit] that is absent, empty or reads as 0
    makes the users endpoint answer 200 with the whole statistics frame,
    whatever [offset] is, as long as it is absent, empty or reads as a
    number: without a limit the offset is not applied. *)
Theorem users_without_limit_lists_everyone env st stats params :
  is_Some (DataLoader.cb_model st) →
  DataLoader.df_user_stats st = Some stats →
  params !! "limit" = None ∨ params !! "limit" = Some "" ∨
    (∃ lim, params !! "limit" = Some lim ∧ int lim = Some 0%Z) →
  params !! "offset" = None ∨ params !! "offset" = Some "" ∨
    (∃ off, params !! "offset" = Some off ∧ is_Some (int off)) →
  users_handle log1p quantile mean round value_counts int env st params =
    ({| Http.status_code := 200; Http.body := Http.Users stats |}, st).
Proof.
  intros Hloaded Hstats Hlim Hoff.
  unfold users_handle. rewrite (load_data_loaded _ _ _ _ _ _ _ Hloaded).
  unfold users_page. rewrite Hstats.
  assert (∃ limit, int_if_truthy int
            match params !! "limit" with
            | Some s => Http.PyStr s
            | None => Http.PyNone
            end = DataLoader.Returns limit ∧ Http.truthy limit = false)
    as (limit & -> & Hfalsy).
  { destruct Hlim as [->|[->|(lim & -> & Hint)]].
    - by exists Http.PyNone.
    - by exists (Http.PyStr "").
    - destruct (decide (lim = "")) as [->|Hne]; [by exists (Http.PyStr "")|].
      exists (Http.PyInt 0). by rewrite (int_if_truthy_str lim Hne), Hint. }
  assert (∃ offset, int_if_truthy int
            match params !! "offset" with
            | Some s => Http.PyStr s
            | None => Http.PyInt 0
            end = DataLoader.Returns offset) as (offset & ->).
  { destruct Hoff as [->|[->|(off & -> & z & Hint)]].
    - by exists (Http.PyInt 0).
    - by exists (Http.PyStr "").
    - destruct (decide (off = "")) as [->|Hne]; [by exists (Http.PyStr "")|].
      exists (Http.PyInt z). by rewrite (int_if_truthy_str off Hne), Hint. }
  simpl. by rewrite Hfalsy.
Qed.

(** X24: on a loaded state, a [limit] that is not empty and does not read as
    a number, or an [offset] of that kind beside a [limit] that raises
    nothing, makes the users endpoint answer 500 with the [ValueError] of
    [int], not 400. *)
Theorem users_bad_parameter_is_500 env st stats params :
  is_Some (DataLoader.cb_model st) →
  DataLoader.df_user_stats st = Some stats →
  (∃ lim, params !! "limit" = Some lim ∧ lim ≠ "" ∧ int lim = None) ∨
    ((∀ lim, params !! "limit" = Some lim → lim = "" ∨ is_Some (int lim)) ∧
     ∃ off, params !! "offset" = Some off ∧ off ≠ "" ∧ int off = None) →
  users_handle log1p quantile mean round value_counts int env st params =
    ({| Http.status_code := 500;
        Http.body := Http.InternalServerError (DataLoader.Builtin ValueError) |}, st).
Proof.
  intros Hloaded Hstats Hbad.
  unfold users_handle. rewrite (load_data_loaded _ _ _ _ _ _ _ Hloaded).
  unfold users_page. rewrite Hstats.
  destruct Hbad as [(lim & -> & Hne & Hint)|(Hlim & off & -> & Hne & Hint)].
  - by rewrite (int_if_truthy_str lim Hne), Hint.
  - assert (∃ limit, int_if_truthy int
              match params !! "limit" with
              | Some s => Http.PyStr s
              | None => Http.PyNone
              end = DataLoader.Returns limit) as (limit & ->).
    { destruct (params !! "limit") as [lim|]; [|by exists Http.PyNone].
      destruct (Hlim lim eq_refl) as [->|[z Hz]]; [by exists (Http.PyStr "")|].
      destruct (decide (lim = "")) as [->|Hne']; [by exists (Http.PyStr "")|].
      exists (Http.PyInt z). by rewrite (int_if_truthy_str lim Hne'), Hz. }
    by rewrite (int_if_truthy_str off Hne), Hint.
Qed.

(** The counts of the statistics frame add up to the number of ratings. *)
Lemma stats_counts_sum (df_ratings : list rating_row) :
  sum_list (DataLoader.stats_n <$>
              DataLoader._calculate_user_stats mean round df_ratings) =
  length df_ratings.
Proof.
  unfold DataLoader._calculate_user_stats. rewrite <- list_fmap_compose.
  rewrite <- (groups_split_rows df_ratings (group_keys df_ratings)).
  - f_equal. apply list_fmap_ext. intros _ u _. simpl. by rewrite length_fmap.
  - apply NoDup_group_keys.
  - intros r Hr. apply elem_of_group_keys. by exists r.
Qed.

(** X25: the health endpoint reports no data and zero counts on a loader
    without a model; after a first [load_data] that returns it reports as
    [total_users] the number of rows the users endpoint lists without a
    limit, as [total_articles] the number of rows of the metadata file, and
    as [total_ratings] the sum of the counts [n] of the listed rows. *)
Theorem health_matches_users_listing env self st env' :
  DataLoader.cb_model self = None →
  DataLoader.load_data log1p quantile mean round value_counts env self =
    DataLoader.Returns st →
  ∃ stats articles,
    users_handle log1p quantile mean round value_counts int env' st ∅ =
      ({| Http.status_code := 200; Http.body := Http.Users stats |}, st) ∧
    DataLoader.articles_metadata_csv env = DataLoader.Returns articles ∧
    HealthFunction.handle self =
      {| Http.status_code := 200; Http.body := Http.Health false 0 0 0 |} ∧
    HealthFunction.handle st =
      {| Http.status_code := 200;
         Http.body := Http.Health true (length stats) (length articles)
                        (sum_list (DataLoader.stats_n <$> stats)) |}.
Proof.
  intros Hnone H.
  destruct (load_data_inv _ _ _ _ _ _ _ _ Hnone H)
    as (raw & articles & source & ids & matrix & indices & model &
        _ & Harts & _ & _ & ->).
  eexists _, articles. split; [|split; [exact Harts|split]].
  - unfold users_handle. rewrite load_data_loaded by (by eexists). reflexivity.
  - unfold HealthFunction.handle. rewrite Hnone.
    rewrite bool_decide_eq_false_2 by (by intros [? [=]]).
    by destruct (DataLoader.user_ids self) as [[|??]|],
                (DataLoader.df_articles self), (DataLoader.df_ratings self).
  - rewrite stats_counts_sum. unfold HealthFunction.handle. simpl.
    unfold DataLoader._calculate_user_stats.
    rewrite length_fmap, group_keys_sorted_user_ids.
    by destruct (DataLoader.sorted_user_ids _).
Qed.

(** The recommendation endpoint past its checks of the parameters. *)
Lemma recommend_body_known st model ratings articles roster params s uid n :
  DataLoader.cb_model st = Some model →
  DataLoader.df_ratings st = Some ratings →
  DataLoader.df_articles st = Some articles →
  DataLoader.user_ids st = Some roster →
  params !! "user_id" = Some s → s ≠ "" → int s = Some uid →
  (params !! "n" = None ∧ n = 5%Z) ∨ (∃ t, params !! "n" = Some t ∧ int t = Some n) →
  recommend_body int lower round4 st params =
    if decide (uid ∉ roster) then
      DataLoader.Returns {| Http.status_code := 404; Http.body := Http.UserNotFound uid |}
    else
      recommendations ← DataLoader.lift (recommend model uid ratings n);
      result ← format_recommendations round4 (Some articles)
                  (bool_decide (lower (default "false" (params !! "with_meta")) = "true"))
                  recommendations;
      DataLoader.Returns
        {| Http.status_code := 200; Http.body := Http.Recommendations result |}.
Proof.
  intros Hmodel Hratings Harticles Hroster Hs Hne Hint Hn.
  unfold recommend_body, call_recommend.
  rewrite Hmodel, Hratings, Harticles, Hroster, Hs.
  destruct Hn as [[-> ->]|(t & -> & ->)]; simpl;
    (destruct s; [done|]); by rewrite Hint.
Qed.

(** With the metadata frame at hand, formatting raises nothing and keeps the
    article ids, in order. *)
Lemma format_recommendations_Returns articles with_meta recommendations :
  ∃ result,
    format_recommendations round4 (Some articles) with_meta recommendations =
      DataLoader.Returns result ∧
    Http.rec_article_id <$> result = recommendations.*1 ∧
    Forall (λ rec, ∀ c w, Http.rec_meta rec = Some (c, w) →
              ∃ a, a ∈ articles ∧
                   DataLoader.meta_article_id a = Http.rec_article_id rec ∧
                   DataLoader.category_id a = c ∧ DataLoader.words_count a = w)
           result.
Proof.
  unfold format_recommendations. destruct with_meta; eexists; (split; [done|]).
  - split; [by rewrite <- list_fmap_compose|].
    apply Forall_fmap, Forall_forall. intros [a x] _ c w. simpl.
    destruct (filter _ articles) as [|row rows] eqn:Hrows; [done|].
    intros [= <- <-]. exists row.
    assert (row ∈ filter (λ r, DataLoader.meta_article_id r = a) articles) as Hin
      by (rewrite Hrows; by left).
    by apply list_elem_of_filter in Hin as [? ?].
  - split; [by rewrite <- list_fmap_compose|].
    apply Forall_fmap, Forall_forall. by intros [a x] _ c w.
Qed.

(** X26: after a first [load_data] that returns, a request whose [user_id]
    reads as a number and whose [n] is absent or reads as a number is
    answered 404 exactly when no stored rating belongs to that user; the
    body then names the user. *)
Theorem recommend_not_found_iff env self st env' params s uid :
  DataLoader.cb_model self = None →
  DataLoader.load_data log1p quantile mean round value_counts env self =
    DataLoader.Returns st →
  params !! "user_id" = Some s → s ≠ "" → int s = Some uid →
  (∀ t, params !! "n" = Some t → is_Some (int t)) →
  ∃ ratings,
    DataLoader.df_ratings st = Some ratings ∧
    let response :=
      (recommend_handle log1p quantile mean round value_counts int lower round4
         env' st params).1 in
    (Http.status_code response = 404 ↔ ¬ ∃ r, r ∈ ratings ∧ user_id r = uid) ∧
    (Http.status_code response = 404 → Http.body response = Http.UserNotFound uid).
Proof.
  intros Hnone H Hs Hne Hint Hn.
  destruct (load_data_inv _ _ _ _ _ _ _ _ Hnone H)
    as (raw & articles & source & ids & matrix & indices & model &
        _ & _ & _ & _ & ->).
  eexists. split; [done|]. cbv zeta.
  unfold recommend_handle. rewrite load_data_loaded by (by eexists).
  assert (∃ n, (params !! "n" = None ∧ n = 5%Z) ∨
               (∃ t, params !! "n" = Some t ∧ int t = Some n)) as [n Hn'].
  { destruct (params !! "n") as [t|] eqn:Ht; [|exists 5%Z; by left].
    destruct (Hn t eq_refl) as [n Hnt]. exists n. right. by exists t. }
  erewrite recommend_body_known by done.
  rewrite <- group_keys_sorted_user_ids, <- elem_of_group_keys.
  destruct (decide (uid ∉ group_keys _)) as [Hout|Hin]; [done|]. simpl.
  destruct (recommend model uid _ n) as [out|[| |]]; simpl;
    [|split; [split; [done|by intros ?]|done]..].
  destruct (format_recommendations_Returns articles
              (bool_decide (lower (default "false" (params !! "with_meta")) = "true"))
              out) as (result & -> & _).
  simpl. split; [split; [done|by intros ?]|done].
Qed.


(** X28: on a loaded state, a request of the recommendation endpoint without
    a [user_id], with an empty one, with one that does not read as a number,
    or with an [n] that does not read as a number, is answered 400 and
    leaves the state as it is; the [n] is read first, so an unreadable [n]
    is reported even when the [user_id] is missing. *)
Theorem recommend_bad_request env st params :
  is_Some (DataLoader.cb_model st) →
  (∃ t, params !! "n" = Some t ∧ int t = None) ∨
    params !! "user_id" = None ∨ params !! "user_id" = Some "" ∨
    (∃ s, params !! "user_id" = Some s ∧ int s = None) →
  let answer :=
    recommend_handle log1p quantile mean round value_counts int lower round4
      env st params in
  answer.2 = st ∧
  Http.status_code answer.1 = 400 ∧
  ((∃ t, params !! "n" = Some t ∧ int t = None) →
   Http.body answer.1 = Http.ValidationError (DataLoader.Builtin ValueError)).
Proof.
  intros Hloaded Hbad. cbv zeta.
  unfold recommend_handle. rewrite load_data_loaded by done. simpl.
  split; [done|]. unfold recommend_body.
  destruct (params !! "n") as [t|] eqn:Ht.
  - destruct (int t) as [n|] eqn:Hint; simpl.
    + split; [|by intros (t' & [= <-] & ?); congruence].
      destruct Hbad as [(t' & [= <-] & ?)|[->|[->|(s & -> & Hs)]]];
        [congruence|done|done|].
      destruct s; [done|]. by rewrite Hs.
    + done.
  - simpl. split; [|by intros (t' & [=] & ?)].
    destruct Hbad as [(t' & [=] & ?)|[->|[->|(s & -> & Hs)]]]; [done|done|].
    destruct s; [done|]. by rewrite Hs.
Qed.

(** X29: a [load_data] that raises leaves the loader without a model and
    unchanged: the users endpoint answers 503 with the exception, the
    recommendation endpoint answers 400 when the exception is a [ValueError]
    (as it is when the connection string is missing or empty) and 500
    otherwise, and the next request starts the load again. *)
Theorem failed_load_answers env self params e :
  DataLoader.load_data log1p quantile mean round value_counts env self =
    DataLoader.Raises e →
  DataLoader.cb_model self = None ∧
  users_handle log1p quantile mean round value_counts int env self params =
    ({| Http.status_code := 503; Http.body := Http.DataLoadingFailed e |}, self) ∧
  recommend_handle log1p quantile mean round value_counts int lower round4
    env self params =
    (match e with
     | DataLoader.Builtin ValueError =>
         {| Http.status_code := 400; Http.body := Http.ValidationError e |}
     | _ => {| Http.status_code := 500; Http.body := Http.InternalServerError e |}
     end, self) ∧
  (DataLoader.AzureWebJobsStorage env = None ∨
   DataLoader.AzureWebJobsStorage env = Some "" →
   e = DataLoader.Builtin ValueError).
Proof.
  intros H. split; [|split; [|split]].
  - unfold DataLoader.load_data in H. by destruct (DataLoader.cb_model self).
  - unfold users_handle. by rewrite H.
  - unfold recommend_handle. rewrite H. by destruct e as [[| |]| |].
  - unfold DataLoader.load_data in H.
    destruct (DataLoader.cb_model self); [done|].
    intros [Hc|Hc]; rewrite Hc in H; by injection H as <-.
Qed.


End HandlerProperties.

Lemma users_page_is_window_witness :
  users_handle Sample.log1p Sample.quantile Sample.mean Sample.round
    Sample.value_counts Sample.int Sample.env Sample.loaded
    {[ "limit" := "2"; "offset" := "1" ]} =
  ({| Http.status_code := 200;
      Http.body := Http.Users (take (Z.to_nat 2) (drop (Z.to_nat 1) Sample.stats)) |},
   Sample.loaded).
Proof.
  apply (users_page_is_window Sample.log1p Sample.quantile Sample.mean Sample.round
           Sample.value_counts Sample.int Sample.env Sample.loaded Sample.stats
           {[ "limit" := "2"; "offset" := "1" ]} "2" 2 1).
  - eexists. vm_compute. reflexivity.
  - vm_compute. reflexivity.
  - vm_compute. reflexivity.
  - discriminate.
  - reflexivity.
  - lia.
  - right. exists "1". split; [vm_compute; reflexivity|]. split; [discriminate|reflexivity].
  - lia.
Defined.

Lemma users_pages_cover_witness :
  ∃ pages,
    Forall2 (λ i rows,
               users_handle Sample.log1p Sample.quantile Sample.mean Sample.round
                 Sample.value_counts Sample.int Sample.env Sample.loaded
                 (Sample.page i) =
                 ({| Http.status_code := 200; Http.body := Http.Users rows |},
                  Sample.loaded))
            (seq 0 2) pages ∧
    mjoin pages = Sample.stats.
Proof.
  apply (users_pages_cover Sample.log1p Sample.quantile Sample.mean Sample.round
           Sample.value_counts Sample.int Sample.env Sample.loaded Sample.stats
           "2" 2 2 Sample.page).
  - eexists. vm_compute. reflexivity.
  - vm_compute. reflexivity.
  - discriminate.
  - reflexivity.
  - lia.
  - intros [|[|i]] Hi; [| |lia].
    + split; [vm_compute; reflexivity|]. exists "0".
      split; [vm_compute; reflexivity|]. split; [discriminate|reflexivity].
    + split; [vm_compute; reflexivity|]. exists "2".
      split; [vm_compute; reflexivity|]. split; [discriminate|reflexivity].
  - vm_compute. lia.
Defined.

Lemma users_without_limit_lists_everyone_witness :
  users_handle Sample.log1p Sample.quantile Sample.mean Sample.round
    Sample.value_counts Sample.int Sample.env Sample.loaded
    {[ "limit" := "0"; "offset" := "7" ]} =
  ({| Http.status_code := 200; Http.body := Http.Users Sample.stats |}, Sample.loaded).
Proof.
  apply (users_without_limit_lists_everyone Sample.log1p Sample.quantile Sample.mean
           Sample.round Sample.value_counts Sample.int Sample.env Sample.loaded
           Sample.stats {[ "limit" := "0"; "offset" := "7" ]}).
  - eexists. vm_compute. reflexivity.
  - vm_compute. reflexivity.
  - right. right. exists "0". split; [vm_compute; reflexivity|reflexivity].
  - right. right. exists "7". split; [vm_compute; reflexivity|]. by exists 7%Z.
Defined.

Lemma users_bad_parameter_is_500_witness :
  users_handle Sample.log1p Sample.quantile Sample.mean Sample.round
    Sample.value_counts Sample.int Sample.env Sample.loaded {[ "limit" := "two" ]} =
  ({| Http.status_code := 500;
      Http.body := Http.InternalServerError (DataLoader.Builtin ValueError) |},
   Sample.loaded).
Proof.
  apply (users_bad_parameter_is_500 Sample.log1p Sample.quantile Sample.mean
           Sample.round Sample.value_counts Sample.int Sample.env Sample.loaded
           Sample.stats {[ "limit" := "two" ]}).
  - eexists. vm_compute. reflexivity.
  - vm_compute. reflexivity.
  - left. exists "two". split; [vm_compute; reflexivity|]. split; [discriminate|reflexivity].
Defined.

Lemma health_matches_users_listing_witness :
  ∃ stats articles,
    users_handle Sample.log1p Sample.quantile Sample.mean Sample.round
      Sample.value_counts Sample.int Sample.env_unset Sample.loaded ∅ =
      ({| Http.status_code := 200; Http.body := Http.Users stats |}, Sample.loaded) ∧
    DataLoader.articles_metadata_csv Sample.env = DataLoader.Returns articles ∧
    HealthFunction.handle DataLoader.new =
      {| Http.status_code := 200; Http.body := Http.Health false 0 0 0 |} ∧
    HealthFunction.handle Sample.loaded =
      {| Http.status_code := 200;
         Http.body := Http.Health true (length stats) (length articles)
                        (sum_list (DataLoader.stats_n <$> stats)) |}.
Proof.
  apply (health_matches_users_listing Sample.log1p Sample.quantile Sample.mean
           Sample.round Sample.value_counts Sample.int Sample.env DataLoader.new
           Sample.loaded Sample.env_unset).
  - reflexivity.
  - vm_compute. reflexivity.
Defined.

Lemma recommend_not_found_iff_witness :
  ∃ ratings,
    DataLoader.df_ratings Sample.loaded = Some ratings ∧
    let response :=
      (recommend_handle Sample.log1p Sample.quantile Sample.mean Sample.round
         Sample.value_counts Sample.int Sample.lower Sample.round4
         Sample.env Sample.loaded {[ "user_id" := "5" ]}).1 in
    (Http.status_code response = 404 ↔ ¬ ∃ r, r ∈ ratings ∧ user_id r = 5%Z) ∧
    (Http.status_code response = 404 → Http.body response = Http.UserNotFound 5).
Proof.
  apply (recommend_not_found_iff Sample.log1p Sample.quantile Sample.mean
           Sample.round Sample.value_counts Sample.int Sample.lower Sample.round4
           Sample.env DataLoader.new Sample.loaded Sample.env
           {[ "user_id" := "5" ]} "5" 5).
  - reflexivity.
  - vm_compute. reflexivity.
  - vm_compute. reflexivity.
  - discriminate.
  - reflexivity.
  - intros t Ht. vm_compute in Ht. discriminate.
Defined.


Lemma recommend_bad_request_witness :
  let answer :=
    recommend_handle Sample.log1p Sample.quantile Sample.mean Sample.round
      Sample.value_counts Sample.int Sample.lower Sample.round4
      Sample.env Sample.loaded {[ "n" := "many" ]} in
  answer.2 = Sample.loaded ∧
  Http.status_code answer.1 = 400 ∧
  ((∃ t, ({[ "n" := "many" ]} : gmap string string) !! "n" = Some t ∧
         Sample.int t = None) →
   Http.body answer.1 = Http.ValidationError (DataLoader.Builtin ValueError)).
Proof.
  apply (recommend_bad_request Sample.log1p Sample.quantile Sample.mean
           Sample.round Sample.value_counts Sample.int Sample.lower Sample.round4
           Sample.env Sample.loaded {[ "n" := "many" ]}).
  - eexists. vm_compute. reflexivity.
  - left. exists "many". split; [vm_compute; reflexivity|reflexivity].
Defined.

Lemma failed_load_answers_witness :
  DataLoader.cb_model DataLoader.new = None ∧
  users_handle Sample.log1p Sample.quantile Sample.mean Sample.round
    Sample.value_counts Sample.int Sample.env_unset DataLoader.new ∅ =
    ({| Http.status_code := 503;
        Http.body := Http.DataLoadingFailed (DataLoader.Builtin ValueError) |},
     DataLoader.new) ∧
  recommend_handle Sample.log1p Sample.quantile Sample.mean Sample.round
    Sample.value_counts Sample.int Sample.lower Sample.round4
    Sample.env_unset DataLoader.new ∅ =
    ({| Http.status_code := 400;
        Http.body := Http.ValidationError (DataLoader.Builtin ValueError) |},
     DataLoader.new) ∧
  (DataLoader.AzureWebJobsStorage Sample.env_unset = None ∨
   DataLoader.AzureWebJobsStorage Sample.env_unset = Some "" →
   DataLoader.Builtin ValueError = DataLoader.Builtin ValueError).
Proof.
  apply (failed_load_answers Sample.log1p Sample.quantile Sample.mean Sample.round
           Sample.value_counts Sample.int Sample.lower Sample.round4
           Sample.env_unset DataLoader.new ∅ (DataLoader.Builtin ValueError)).
  reflexivity.
Defined.

